(** * rest-api-client: the request execution engine, the client and the
      configuration layer, in the modular tree and in the legacy module

    The development embeds [make] (with its helpers [getHeaders], [getBody],
    [parseResponse], [getResponse], [getError]), the per-method builders,
    [Client] and [layer], once for the modular source tree (module
    [Modular]) and once for the self-contained legacy file (module
    [Legacy]).

    The effect runtime and the HTTP platform library are third-party code.
    They are modelled here only as far as the engine uses them:
    - an effect is a pair of the calls it made to author-supplied code and to
      the transport, in order, and of its exit value;
    - a header set is a finite map from lower-cased names to values;
    - codecs, request bodies and the JSON body constructor are left abstract
      (class [Platform]);
    - a request is made from a method and a url that is a string: the
      request constructor throws on a function object. *)

From Stdlib Require Import ZArith String Ascii List Bool Lia.
From stdpp Require Import base option list gmap strings sorting.
Import ListNotations.

Local Open Scope Z_scope.


(** ** Values of the host language and of the third-party libraries *)

(** The exit value of an effect: success, a failure in the typed error
    channel, or a defect (an exception thrown by the host language). *)
Inductive Exit (E A : Type) : Type :=
| Success (a : A)
| Failure (e : E)
| Die (defect : string).

Arguments Success {E A} a.
Arguments Failure {E A} e.
Arguments Die {E A} defect.

Definition Exit_map {E A B : Type} (f : A -> B) (x : Exit E A) : Exit E B :=
  match x with
  | Success a => Success (f a)
  | Failure e => Failure e
  | Die d => Die d
  end.

(** ASCII lower-casing, as [String.prototype.toLowerCase] acts on header
    names. *)
Definition lower_ascii (c : ascii) : ascii :=
  let n := nat_of_ascii c in
  if (Nat.leb 65 n && Nat.leb n 90)%bool then ascii_of_nat (n + 32) else c.

Fixpoint toLowerCase (s : string) : string :=
  match s with
  | EmptyString => EmptyString
  | String c s' => String (lower_ascii c) (toLowerCase s')
  end.

(** [String.prototype.startsWith]. *)
Definition startsWith (s pre : string) : bool := String.prefix pre s.

(** Truthiness of a [string | undefined]: [undefined] and the empty string
    are falsy. *)
Definition truthy (o : option string) : bool :=
  match o with
  | Some s => negb (String.eqb s "")
  | None => false
  end.

(** *** Header sets (the platform's [Headers] module) *)

(** A header set is a record of lower-cased names. *)
Abbreviation Headers := (gmap string string).

Module Headers.

Definition empty : Headers := ∅.

(** [Headers.get(key)(self)]: look the lower-cased key up. *)
Definition get (key : string) (self : Headers) : option string :=
  self !! toLowerCase key.

(** [Headers.set(key, value)(self)]: a copy with the lower-cased key set. *)
Definition set (key value : string) (self : Headers) : Headers :=
  <[toLowerCase key := value]> self.

(** [Headers.fromInput(record)]: every name is lower-cased; a later entry
    overwrites an earlier one of the same name. *)
Definition fromInput (input : list (string * string)) : Headers :=
  fold_left (fun out kv => <[toLowerCase (fst kv) := snd kv]> out) input ∅.

(** [Headers.setAll(self, headers)]: the entries of [headers] over those
    of [self]. *)
Definition setAll (self headers : Headers) : Headers := headers ∪ self.

End Headers.

(** *** What the engine never looks into *)

(** What [HttpBody.json] is given. Its parameter has type [unknown]; the
    values it is given here are a data value, or the effect object that
    [Schema.encode(schema)(value)] returned, which holds the outcome of the
    encoding. *)
Inductive Unknown (V : Type) : Type :=
| Data (value : V)
| EffectObject (outcome : Exit V V).

Arguments Data {V} value.
Arguments EffectObject {V} outcome.

(** Run-time values ([Val]: call-time arguments, JSON data, decoded values,
    failure values), codecs ([Schema]) with [Schema.encode] and
    [Schema.decodeUnknown], request payloads ([HttpBody]), the platform's
    [HttpBody.json] (the JSON text of whatever it is given, as a payload),
    the way [HttpClientRequest.setBody] adjusts the header set for a
    payload, and the response error, with reason [StatusCode], that
    [HttpClient.filterStatusOk] raises for a response of a given status. *)
Class Platform : Type := {
  Val : Type;
  undefined : Val;
  Schema : Type;
  Schema_encode : Schema -> Val -> Exit Val Val;
  Schema_decodeUnknown : Schema -> Val -> Exit Val Val;
  HttpBody : Type;
  HttpBody_json : Unknown Val -> Exit Val HttpBody;
  HttpBody_headers : HttpBody -> Headers -> Headers;
  StatusCodeError : Z -> Val;
}.

Inductive HttpMethod : Type := GET | POST | PUT | DELETE | PATCH | HEAD | OPTIONS.

Section PlatformTypes.
Context `{Platform}.

(** A value typed [string] that the engine takes for a url. Type casts are
    erased at run time, so the value is whatever the route holds: a string
    or a function object. The request constructor accepts the strings
    only. *)
Inductive JsUrl : Type :=
| UrlString (s : string)
| UrlFunction (f : Val -> string).

(** Likewise a value typed [Headers.Headers] is, at run time, a header set
    or a function object. *)
Inductive JsHeaders : Type :=
| HeadersRecord (h : Headers)
| HeadersFunction (f : Val -> Exit Val Headers).

(** The own enumerable string-keyed properties of such a value, which is
    all that [Headers.get], [Headers.set] and [Headers.fromInput] read: a
    function object has none. *)
Definition ownEntries (h : JsHeaders) : Headers :=
  match h with
  | HeadersRecord h => h
  | HeadersFunction _ => Headers.empty
  end.

Record HttpClientRequest : Type := mkRequest {
  req_method : HttpMethod;
  req_url : JsUrl;
  req_headers : Headers;
  req_body : option HttpBody;
}.

(** A response: status code, header set, and the result of reading the body
    as JSON (the lazy accessor [response.json]). *)
Record HttpClientResponse : Type := mkResponse {
  status : Z;
  res_headers : Headers;
  json : Exit Val Val;
}.

(** The calls an invocation makes to author-supplied code, to codecs and to
    the transport. *)
Inductive Call : Type :=
| UrlFnCall (arg : Val)
| HeadersFnCall (arg : Val)
| InputFnCall (arg : Val)
| InputEncode (schema : Schema) (value : Val)
| Execute (request : HttpClientRequest)
| ErrorDecode (schema : Schema) (response : HttpClientResponse)
| ErrorFnCall (response : HttpClientResponse)
| OutputDecode (schema : Schema) (response : HttpClientResponse)
| OutputFnCall (response : HttpClientResponse).

(** An effect, run: the calls it made, in order, and its exit value. *)
Definition Effect (A : Type) : Type := list Call * Exit Val A.

Definition succeed {A} (a : A) : Effect A := ([], Success a).

Definition fail {A} (e : Val) : Effect A := ([], Failure e).

Definition die {A} (defect : string) : Effect A := ([], Die defect).

Definition flatMap {A B} (f : A -> Effect B) (self : Effect A) : Effect B :=
  match self with
  | (t, Success a) => let (t', r) := f a in (t ++ t', r)
  | (t, Failure e) => (t, Failure e)
  | (t, Die d) => (t, Die d)
  end.

(** An effect obtained from author-supplied code, a codec or the transport:
    the call is recorded, its exit value is the effect's. *)
Definition call {A} (c : Call) (r : Exit Val A) : Effect A := ([c], r).

(** An effect of the libraries that involves no such call. *)
Definition lift {A} (r : Exit Val A) : Effect A := ([], r).

#[export] Instance Effect_ret : MRet Effect := fun A a => succeed a.
#[export] Instance Effect_bind : MBind Effect := fun A B f self => flatMap f self.

Definition calls {A} (e : Effect A) : list Call := fst e.
Definition exit {A} (e : Effect A) : Exit Val A := snd e.

End PlatformTypes.

(** *** Requests (the platform's [HttpClientRequest] module) *)

Module HttpClientRequest.
Section Ops.
Context `{Platform}.

(** [HttpClientRequest.make(method)(url)]: no headers, no body. A url
    that is not a string is read as a [URL] object, through
    [new URL(url.toString())]: on a function object that throws
    [TypeError: Invalid URL]. *)
Definition make (method : HttpMethod) (url : JsUrl) : Exit Val HttpClientRequest :=
  match url with
  | UrlString url => Success (mkRequest method (UrlString url) Headers.empty None)
  | UrlFunction _ => Die "TypeError: Invalid URL"
  end.

Definition setUrl (url : string) (self : HttpClientRequest) : HttpClientRequest :=
  mkRequest (req_method self) (UrlString url) (req_headers self) (req_body self).

Definition setBody (self : HttpClientRequest) (body : HttpBody) : HttpClientRequest :=
  mkRequest (req_method self) (req_url self)
    (HttpBody_headers body (req_headers self)) (Some body).

(** [setHeaders(input)]: [Headers.setAll] of the request's header set and
    [Headers.fromInput(input)]. *)
Definition setHeaders (input : JsHeaders) (self : HttpClientRequest) : HttpClientRequest :=
  mkRequest (req_method self) (req_url self)
    (Headers.setAll (req_headers self) (ownEntries input)) (req_body self).

Definition setHeader (key value : string) (self : HttpClientRequest) : HttpClientRequest :=
  mkRequest (req_method self) (req_url self)
    (Headers.set key value (req_headers self)) (req_body self).

(** [bearerToken(token)]: sets [Authorization: Bearer <token>]. *)
Definition bearerToken (token : string) (self : HttpClientRequest) : HttpClientRequest :=
  setHeader "Authorization" ("Bearer " +:+ token) self.

End Ops.
End HttpClientRequest.

(** *** Transports (the platform's [HttpClient] module) *)

Module HttpClient.
Section Ops.
Context `{Platform}.

Definition HttpClient : Type := HttpClientRequest -> Effect HttpClientResponse.

(** A transport given by what it answers to each request. *)
Definition fromTransport (t : HttpClientRequest -> Exit Val HttpClientResponse) : HttpClient :=
  fun request => call (Execute request) (t request).

Definition execute (client : HttpClient) (request : HttpClientRequest) :
  Effect HttpClientResponse := client request.

(** [HttpClient.mapRequestInput(f)(client)]: [f] is applied to the request
    before [client] sees it; an exception thrown by [f] is a defect. *)
Definition mapRequestInput (f : HttpClientRequest -> Exit Val HttpClientRequest)
  (client : HttpClient) : HttpClient :=
  fun request => request' ← lift (f request); client request'.

(** [HttpClient.filterStatusOk(client)]: a response outside 200-299 becomes
    a failure. *)
Definition filterStatusOk (client : HttpClient) : HttpClient :=
  fun request =>
    response ← client request;
    if (200 <=? status response) && (status response <? 300)
    then succeed response
    else fail (StatusCodeError (status response)).

End Ops.
End HttpClient.

(** *** Small helpers shared by the two engines *)

Section Helpers.
Context `{Platform}.

(** An effect that only records a call. *)
Definition record (c : Call) : Effect unit := ([c], Success tt).

(** A property of an object literal: missing, or an own property whose
    value may be [undefined]. *)
Inductive Prop_ (A : Type) : Type :=
| Missing
| Own (value : option A).

(** Reading a property: a missing one reads [undefined]. *)
Definition read {A} (p : Prop_ A) : option A :=
  match p with
  | Missing _ => None
  | Own _ v => v
  end.

(** Object spread [{ k: dflt, ...spec }] at key [k]: an own property of
    [spec] replaces the default. *)
Definition spread {A} (dflt : option A) (p : Prop_ A) : Prop_ A :=
  match p with
  | Missing _ => Own _ dflt
  | Own _ v => Own _ v
  end.

(** Which calls are uses of the Error Maker, of the Output Maker, of the
    custom URL function and of the custom header function. *)
Definition isErrorCall (c : Call) : bool :=
  match c with
  | ErrorDecode _ _ | ErrorFnCall _ => true
  | _ => false
  end.

Definition isOutputCall (c : Call) : bool :=
  match c with
  | OutputDecode _ _ | OutputFnCall _ => true
  | _ => false
  end.

Definition isUrlFnCall (c : Call) : bool :=
  match c with
  | UrlFnCall _ => true
  | _ => false
  end.

Definition isHeadersFnCall (c : Call) : bool :=
  match c with
  | HeadersFnCall _ => true
  | _ => false
  end.

(** Calls made before dispatch, and calls made on a response. *)
Definition isPrepare (c : Call) : bool :=
  match c with
  | UrlFnCall _ | HeadersFnCall _ | InputFnCall _ | InputEncode _ _ => true
  | _ => false
  end.

Definition isRespond (c : Call) : bool := isErrorCall c || isOutputCall c.

(** The shape of both engines: prepare a request, dispatch it, respond. *)
Definition pipeline {R} (prepare : Effect HttpClientRequest) (client : HttpClient.HttpClient)
  (respond : HttpClientResponse -> Effect R) : Effect R :=
  flatMap (fun request => flatMap respond (client request)) prepare.

(** [status < 200 || status >= 300]. *)
Definition notOk (status : Z) : bool := (status <? 200) || (status >=? 300).

(** The configuration service. *)
Record Config : Type := mkConfig {
  config_url : string;
  config_accessToken : option string;
}.

End Helpers.

Arguments Missing {A}.
Arguments Own {A} value.

(** ** The modular tree *)

Module Modular.
Section Engine.
Context `{Platform}.

(** *** Makers (url.ts, headers, input.ts, output.ts, error.ts) *)

Inductive Url : Type :=
| Url_Value (url : string)
| Url_Fn (fn : Val -> string).

Inductive HeadersMaker : Type :=
| Headers_Value (headers : Headers)
| Headers_Fn (fn : Val -> Exit Val Headers).

Inductive Input : Type :=
| Input_Value (schema : Schema) (value : Val)
| Input_Schema (schema : Schema)
| Input_Fn (fn : Val -> Exit Val HttpBody).

Inductive Output : Type :=
| Output_Schema (schema : Schema)
| Output_Fn (fn : HttpClientResponse -> Exit Val Val).

Inductive Error : Type :=
| Error_Schema (schema : Schema)
| Error_Fn (fn : HttpClientResponse -> Val).

(** The author-facing shapes and their conversions. *)

Inductive MakerUrl : Type :=
| MakerUrlValue (url : string)
| MakerUrlFn (fn : Val -> string).

Inductive MakerHeaders : Type :=
| MakerHeadersValue (headers : Headers)
| MakerHeadersFn (fn : Val -> Exit Val Headers).

Inductive MakerInput : Type :=
| MakerInputValue (schema : Schema) (value : Val)
| MakerInputSchema (schema : Schema)
| MakerInputFn (fn : Val -> Exit Val HttpBody).

Inductive MakerOutput : Type :=
| MakerOutputSchema (schema : Schema)
| MakerOutputFn (fn : HttpClientResponse -> Exit Val Val).

Inductive MakerError : Type :=
| MakerErrorSchema (schema : Schema)
| MakerErrorFn (fn : HttpClientResponse -> Val).

Definition fromMakerUrl (url : MakerUrl) : Url :=
  match url with
  | MakerUrlValue u => Url_Value u
  | MakerUrlFn f => Url_Fn f
  end.

Definition fromMakerHeaders (headers : MakerHeaders) : HeadersMaker :=
  match headers with
  | MakerHeadersValue h => Headers_Value h
  | MakerHeadersFn f => Headers_Fn f
  end.

Definition fromMakerInput (input : MakerInput) : Input :=
  match input with
  | MakerInputValue s v => Input_Value s v
  | MakerInputSchema s => Input_Schema s
  | MakerInputFn f => Input_Fn f
  end.

Definition fromMakerOutput (output : MakerOutput) : Output :=
  match output with
  | MakerOutputSchema s => Output_Schema s
  | MakerOutputFn f => Output_Fn f
  end.

Definition fromMakerError (error : MakerError) : Error :=
  match error with
  | MakerErrorSchema s => Error_Schema s
  | MakerErrorFn f => Error_Fn f
  end.

(** *** Route (route.ts) *)

Record Route : Type := mkRoute {
  route_method : HttpMethod;
  route_url : Url;
  route_headers : option HeadersMaker;
  route_body : option Input;
  route_response : option Output;
  route_error : option Error;
}.

(** *** make *)

(** The call-time parameters: each of [url], [headers], [body] is an own
    property or not. The argument of the callable function is such an
    object or [undefined]. *)
Record MakerParams : Type := mkParams {
  params_url : option Val;
  params_headers : option Val;
  params_body : option Val;
}.

(** [params && "k" in params ? Some params.k : None]. *)
Definition param (params : option MakerParams) (k : MakerParams -> option Val) : option Val :=
  match params with
  | Some p => k p
  | None => None
  end.

(** The success value of an invocation: the raw response, or what the
    Output Maker produced. *)
Inductive Result : Type :=
| RawResponse (response : HttpClientResponse)
| OutputValue (value : Val).

(** The generator of [getHeaders]. *)
Definition getHeaders_gen (spec : Route) (params : option MakerParams) : Effect Headers :=
  match route_headers spec with
  | None => succeed Headers.empty
  | Some (Headers_Value headers) => succeed headers
  | Some (Headers_Fn fn) =>
      match param params params_headers with
      | Some arg => call (HeadersFnCall arg) (fn arg)
      | None => succeed Headers.empty
      end
  end.

(** [spec.body && (tag is Input/Schema || tag is Input/Value)]. *)
Definition jsonInput (body : option Input) : bool :=
  match body with
  | Some (Input_Schema _) | Some (Input_Value _ _) => true
  | Some (Input_Fn _) | None => false
  end.

(** The function [getHeaders] pipes its generator into. *)
Definition getHeaders_contentType (spec : Route) (headers : Headers) : Effect Headers :=
  let contentType := Headers.get "Content-Type" headers in
  if negb (truthy contentType) && jsonInput (route_body spec)
  then succeed (Headers.set "Content-Type" "application/json" headers)
  else succeed headers.

Definition getHeaders (spec : Route) (params : option MakerParams) : Effect Headers :=
  flatMap (getHeaders_contentType spec) (getHeaders_gen spec params).

(** [Schema.encode(schema)(body).pipe(HttpBody.json)]: the encoder is
    applied, and the effect object it returns is the argument of
    [HttpBody.json]. *)
Definition parseBody (schema : Schema) (body : Val) : Effect HttpBody :=
  call (InputEncode schema body) (HttpBody_json (EffectObject (Schema_encode schema body))).

Definition getBody (spec : Route) (params : option MakerParams) : Effect (option HttpBody) :=
  match route_body spec with
  | Some (Input_Value schema value) =>
      body ← parseBody schema value; mret (Some body)
  | None => succeed None
  | Some (Input_Schema schema) =>
      match param params params_body with
      | None => succeed None
      | Some arg => body ← parseBody schema arg; mret (Some body)
      end
  | Some (Input_Fn fn) =>
      match param params params_body with
      | None => succeed None
      | Some arg => body ← call (InputFnCall arg) (fn arg); mret (Some body)
      end
  end.

Definition parseResponse (schema : Schema) (response : HttpClientResponse) : Effect Val :=
  json ← lift (json response);
  lift (Schema_decodeUnknown schema json).

Definition getResponse (getter : option Output) (response : HttpClientResponse) : Effect Result :=
  match getter with
  | None => succeed (RawResponse response)
  | Some (Output_Schema schema) =>
      record (OutputDecode schema response);;
      value ← parseResponse schema response;
      mret (OutputValue value)
  | Some (Output_Fn fn) =>
      value ← call (OutputFnCall response) (fn response);
      mret (OutputValue value)
  end.

Definition getError (getter : Error) (response : HttpClientResponse) : Effect unit :=
  match getter with
  | Error_Schema schema =>
      record (ErrorDecode schema response);;
      error ← parseResponse schema response;
      fail error
  | Error_Fn fn =>
      record (ErrorFnCall response);;
      fail (fn response)
  end.

(** The callable function [make(spec)], run against the transport the
    context provides. *)
Definition make (spec : Route) (params : option MakerParams)
  (client : HttpClient.HttpClient) : Effect Result :=
  url ← match route_url spec with
        | Url_Value url => succeed url
        | Url_Fn fn =>
            let arg := default undefined (param params params_url) in
            call (UrlFnCall arg) (Success (fn arg))
        end;
  headers ← getHeaders spec params;
  body ← getBody spec params;
  req ← lift (HttpClientRequest.make (route_method spec) (UrlString url));
  let request :=
    HttpClientRequest.setHeaders (HeadersRecord headers)
      (match body with
       | Some body => HttpClientRequest.setBody req body
       | None => req
       end) in
  response ← HttpClient.execute client request;
  match route_error spec with
  | Some error => if notOk (status response) then getError error response else succeed tt
  | None => succeed tt
  end;;
  getResponse (route_response spec) response.

(** The generator of [make] up to the request it assembles, and from the
    response on. *)
Definition make_request (spec : Route) (params : option MakerParams) : Effect HttpClientRequest :=
  url ← match route_url spec with
        | Url_Value url => succeed url
        | Url_Fn fn =>
            let arg := default undefined (param params params_url) in
            call (UrlFnCall arg) (Success (fn arg))
        end;
  headers ← getHeaders spec params;
  body ← getBody spec params;
  req ← lift (HttpClientRequest.make (route_method spec) (UrlString url));
  mret (HttpClientRequest.setHeaders (HeadersRecord headers)
          (match body with
           | Some body => HttpClientRequest.setBody req body
           | None => req
           end)).

Definition make_respond (spec : Route) (response : HttpClientResponse) : Effect Result :=
  match route_error spec with
  | Some error => if notOk (status response) then getError error response else succeed tt
  | None => succeed tt
  end;;
  getResponse (route_response spec) response.

(** The call by which [getError] consults the Error Maker. *)
Definition consult (getter : Error) (response : HttpClientResponse) : Call :=
  match getter with
  | Error_Schema schema => ErrorDecode schema response
  | Error_Fn _ => ErrorFnCall response
  end.

(** *** Builders *)

Record MakerSpec : Type := mkMakerSpec {
  spec_method : HttpMethod;
  spec_url : MakerUrl;
  spec_headers : Prop_ MakerHeaders;
  spec_body : Prop_ MakerInput;
  spec_response : Prop_ MakerOutput;
  spec_error : Prop_ MakerError;
}.

(** [spec.k ? fromMaker(spec.k) : undefined]: makers are objects or
    functions, hence truthy. *)
Definition toRoute (spec : MakerSpec) : Route :=
  mkRoute (spec_method spec)
    (fromMakerUrl (spec_url spec))
    (fromMakerHeaders <$> read (spec_headers spec))
    (fromMakerInput <$> read (spec_body spec))
    (fromMakerOutput <$> read (spec_response spec))
    (fromMakerError <$> read (spec_error spec)).

(** A specification without its method. *)
Record MethodMakerSpec : Type := mkMethodMakerSpec {
  mspec_url : MakerUrl;
  mspec_headers : Prop_ MakerHeaders;
  mspec_body : Prop_ MakerInput;
  mspec_response : Prop_ MakerOutput;
  mspec_error : Prop_ MakerError;
}.

(** [{ ...spec, method }]. *)
Definition withMethod (method : HttpMethod) (spec : MethodMakerSpec) : MakerSpec :=
  mkMakerSpec method (mspec_url spec) (mspec_headers spec) (mspec_body spec)
    (mspec_response spec) (mspec_error spec).

(** A GET specification has no [body] property. *)
Record GetMakerSpec : Type := mkGetMakerSpec {
  gspec_url : MakerUrl;
  gspec_headers : Prop_ MakerHeaders;
  gspec_response : Prop_ MakerOutput;
  gspec_error : Prop_ MakerError;
}.

Definition withGet (spec : GetMakerSpec) : MakerSpec :=
  mkMakerSpec GET (gspec_url spec) (gspec_headers spec) Missing
    (gspec_response spec) (gspec_error spec).

Definition get (spec : GetMakerSpec) := make (toRoute (withGet spec)).
Definition post (spec : MethodMakerSpec) := make (toRoute (withMethod POST spec)).
Definition put (spec : MethodMakerSpec) := make (toRoute (withMethod PUT spec)).
Definition del (spec : MethodMakerSpec) := make (toRoute (withMethod DELETE spec)).

(** *** Client *)

Record Client : Type := mkClient {
  client_headers : option MakerHeaders;
  client_error : option MakerError;
}.

(** [{ headers: this.headers, error: this.error, ...spec }]. *)
Definition Client_spread (this : Client) (spec : MethodMakerSpec) : MethodMakerSpec :=
  mkMethodMakerSpec (mspec_url spec)
    (spread (client_headers this) (mspec_headers spec))
    (mspec_body spec)
    (mspec_response spec)
    (spread (client_error this) (mspec_error spec)).

Definition Client_spread_get (this : Client) (spec : GetMakerSpec) : GetMakerSpec :=
  mkGetMakerSpec (gspec_url spec)
    (spread (client_headers this) (gspec_headers spec))
    (gspec_response spec)
    (spread (client_error this) (gspec_error spec)).

Definition Client_get (this : Client) (spec : GetMakerSpec) := get (Client_spread_get this spec).
Definition Client_post (this : Client) (spec : MethodMakerSpec) := post (Client_spread this spec).
Definition Client_put (this : Client) (spec : MethodMakerSpec) := put (Client_spread this spec).
Definition Client_del (this : Client) (spec : MethodMakerSpec) := del (Client_spread this spec).

(** *** layer *)

(** [req.url.startsWith("/") ? req.pipe(setUrl(config.url + req.url)) : req];
    a url slot that holds no string has no [startsWith] method. *)
Definition layer_baseUrl (config : Config) (req : HttpClientRequest) :
  Exit Val HttpClientRequest :=
  match req_url req with
  | UrlString url =>
      if startsWith url "/"
      then Success (HttpClientRequest.setUrl (config_url config +:+ url) req)
      else Success req
  | UrlFunction _ => Die "TypeError: req.url.startsWith is not a function"
  end.

(** [config.accessToken ? req.pipe(bearerToken(config.accessToken)) : req]. *)
Definition layer_bearer (config : Config) (req : HttpClientRequest) :
  Exit Val HttpClientRequest :=
  match config_accessToken config with
  | Some token =>
      if truthy (config_accessToken config)
      then Success (HttpClientRequest.bearerToken token req)
      else Success req
  | None => Success req
  end.

(** The transport [layer] provides, from the configuration and the
    transport of the context: [client.pipe(f, g)] is [g (f client)]. *)
Definition layer (config : Config) (client : HttpClient.HttpClient) : HttpClient.HttpClient :=
  HttpClient.mapRequestInput (layer_bearer config)
    (HttpClient.mapRequestInput (layer_baseUrl config) client).

End Engine.
End Modular.

(** ** The legacy module (RestApiClient.ts) *)

Module Legacy.
Section Engine.
Context `{Platform}.

(** *** Makers: plain unions *)

(** [UrlFunction] is a string or a function: the type [JsUrl].
    [HeadersFunction] is a header set, a function or [undefined]: an
    optional [JsHeaders]. *)

Inductive InputFunction : Type :=
| StaticBody (schema : Schema) (data : Val)
| InputSchema (schema : Schema)
| InputFn (fn : Val -> Exit Val HttpBody).

Inductive OutputFunction : Type :=
| OutputSchema (schema : Schema)
| OutputFn (fn : HttpClientResponse -> Exit Val Val).

Inductive ErrorFunction : Type :=
| ErrorSchema (schema : Schema)
| ErrorFn (fn : HttpClientResponse -> Val).

Record Route : Type := mkRoute {
  route_url : JsUrl;
  route_method : HttpMethod;
  route_headers : option JsHeaders;
  route_body : option InputFunction;
  route_response : option OutputFunction;
  route_error : option ErrorFunction;
  route_filterStatusOk : option bool;
}.

Record MakerParams : Type := mkParams {
  params_url : option Val;
  params_headers : option Val;
  params_body : option Val;
}.

Definition param (params : option MakerParams) (k : MakerParams -> option Val) : option Val :=
  match params with
  | Some p => k p
  | None => None
  end.

Inductive Result : Type :=
| RawResponse (response : HttpClientResponse)
| OutputValue (value : Val).

(** *** make *)

(** The generator of [getHeaders]. Its last line returns [spec.headers]
    under a cast, whatever it is. *)
Definition getHeaders_gen (spec : Route) (params : option MakerParams) : Effect JsHeaders :=
  match route_headers spec with
  | None => succeed (HeadersRecord Headers.empty)
  | Some (HeadersFunction fn) =>
      match param params params_headers with
      | Some arg => headers ← call (HeadersFnCall arg) (fn arg); mret (HeadersRecord headers)
      | None => succeed (HeadersFunction fn)
      end
  | Some (HeadersRecord headers) => succeed (HeadersRecord headers)
  end.

(** [Schema.isSchema(spec.body)]. *)
Definition isSchema (body : option InputFunction) : bool :=
  match body with
  | Some (InputSchema _) => true
  | Some (StaticBody _ _) | Some (InputFn _) | None => false
  end.

Definition getHeaders_contentType (spec : Route) (headers : JsHeaders) : Effect JsHeaders :=
  let contentType := Headers.get "Content-Type" (ownEntries headers) in
  if negb (truthy contentType) && isSchema (route_body spec)
  then succeed (HeadersRecord (Headers.set "Content-Type" "application/json" (ownEntries headers)))
  else succeed headers.

Definition getHeaders (spec : Route) (params : option MakerParams) : Effect JsHeaders :=
  flatMap (getHeaders_contentType spec) (getHeaders_gen spec params).

(** [Schema.encode(schema)(body).pipe(HttpBody.json)]: the encoder is
    applied, and the effect object it returns is the argument of
    [HttpBody.json]. *)
Definition parseBody (schema : Schema) (body : Val) : Effect HttpBody :=
  call (InputEncode schema body) (HttpBody_json (EffectObject (Schema_encode schema body))).

Definition getBody (spec : Route) (params : option MakerParams) : Effect (option HttpBody) :=
  match route_body spec with
  | Some (StaticBody schema data) =>
      body ← parseBody schema data; mret (Some body)
  | None => succeed None
  | Some (InputSchema schema) =>
      match param params params_body with
      | None => succeed None
      | Some arg => body ← parseBody schema arg; mret (Some body)
      end
  | Some (InputFn fn) =>
      match param params params_body with
      | None => succeed None
      | Some arg => body ← call (InputFnCall arg) (fn arg); mret (Some body)
      end
  end.

Definition parseResponse (schema : Schema) (response : HttpClientResponse) : Effect Val :=
  json ← lift (json response);
  lift (Schema_decodeUnknown schema json).

Definition getResponse (getter : option OutputFunction) (response : HttpClientResponse) :
  Effect Result :=
  match getter with
  | None => succeed (RawResponse response)
  | Some (OutputSchema schema) =>
      record (OutputDecode schema response);;
      value ← parseResponse schema response;
      mret (OutputValue value)
  | Some (OutputFn fn) =>
      value ← call (OutputFnCall response) (fn response);
      mret (OutputValue value)
  end.

Definition getError (getter : ErrorFunction) (response : HttpClientResponse) : Effect unit :=
  match getter with
  | ErrorSchema schema =>
      record (ErrorDecode schema response);;
      error ← parseResponse schema response;
      fail error
  | ErrorFn fn =>
      record (ErrorFnCall response);;
      fail (fn response)
  end.

(** Truthiness of [spec.filterStatusOk]. *)
Definition filterStatusOk (spec : Route) : bool := default false (route_filterStatusOk spec).

(** The url expression of [make]: the function is called only when the
    parameters have a [url] property; otherwise [spec.url] is used under a
    cast. *)
Definition make_url (spec : Route) (params : option MakerParams) : Effect JsUrl :=
  match route_url spec with
  | UrlFunction fn =>
      match param params params_url with
      | Some arg => call (UrlFnCall arg) (Success (UrlString (fn arg)))
      | None => succeed (UrlFunction fn)
      end
  | UrlString url => succeed (UrlString url)
  end.

Definition make (spec : Route) (params : option MakerParams)
  (client : HttpClient.HttpClient) : Effect Result :=
  url ← make_url spec params;
  headers ← getHeaders spec params;
  body ← getBody spec params;
  req ← lift (HttpClientRequest.make (route_method spec) url);
  let request :=
    HttpClientRequest.setHeaders headers
      (match body with
       | Some body => HttpClientRequest.setBody req body
       | None => req
       end) in
  let client :=
    if negb (filterStatusOk spec) then client else HttpClient.filterStatusOk client in
  response ← HttpClient.execute client request;
  match route_error spec with
  | Some error =>
      if negb (filterStatusOk spec) && notOk (status response)
      then getError error response
      else succeed tt
  | None => succeed tt
  end;;
  getResponse (route_response spec) response.

(** The generator of [make] up to the request it assembles, the transport
    it dispatches to, and the generator from the response on. *)
Definition make_request (spec : Route) (params : option MakerParams) : Effect HttpClientRequest :=
  url ← make_url spec params;
  headers ← getHeaders spec params;
  body ← getBody spec params;
  req ← lift (HttpClientRequest.make (route_method spec) url);
  mret (HttpClientRequest.setHeaders headers
          (match body with
           | Some body => HttpClientRequest.setBody req body
           | None => req
           end)).

Definition make_client (spec : Route) (client : HttpClient.HttpClient) : HttpClient.HttpClient :=
  if negb (filterStatusOk spec) then client else HttpClient.filterStatusOk client.

Definition make_respond (spec : Route) (response : HttpClientResponse) : Effect Result :=
  match route_error spec with
  | Some error =>
      if negb (filterStatusOk spec) && notOk (status response)
      then getError error response
      else succeed tt
  | None => succeed tt
  end;;
  getResponse (route_response spec) response.

(** The call by which [getError] consults the Error Maker. *)
Definition consult (getter : ErrorFunction) (response : HttpClientResponse) : Call :=
  match getter with
  | ErrorSchema schema => ErrorDecode schema response
  | ErrorFn _ => ErrorFnCall response
  end.

(** *** Builders *)

(** A route without its method, as an object literal. *)
Record RouteSpec : Type := mkRouteSpec {
  spec_url : JsUrl;
  spec_headers : Prop_ JsHeaders;
  spec_body : Prop_ InputFunction;
  spec_response : Prop_ OutputFunction;
  spec_error : Prop_ ErrorFunction;
  spec_filterStatusOk : Prop_ bool;
}.

(** [new Route({ ...spec, method })]. *)
Definition newRoute (method : HttpMethod) (spec : RouteSpec) : Route :=
  mkRoute (spec_url spec) method
    (read (spec_headers spec)) (read (spec_body spec))
    (read (spec_response spec)) (read (spec_error spec))
    (read (spec_filterStatusOk spec)).

(** A GET specification has no [body] property. *)
Record GetRouteSpec : Type := mkGetRouteSpec {
  gspec_url : JsUrl;
  gspec_headers : Prop_ JsHeaders;
  gspec_response : Prop_ OutputFunction;
  gspec_error : Prop_ ErrorFunction;
  gspec_filterStatusOk : Prop_ bool;
}.

Definition withoutBody (spec : GetRouteSpec) : RouteSpec :=
  mkRouteSpec (gspec_url spec) (gspec_headers spec) Missing
    (gspec_response spec) (gspec_error spec) (gspec_filterStatusOk spec).

Definition get (spec : GetRouteSpec) := make (newRoute GET (withoutBody spec)).
Definition post (spec : RouteSpec) := make (newRoute POST spec).
Definition put (spec : RouteSpec) := make (newRoute PUT spec).
Definition del (spec : RouteSpec) := make (newRoute DELETE spec).

(** *** Client *)

Record Client : Type := mkClient {
  client_headers : option JsHeaders;
  client_error : option ErrorFunction;
}.

(** [{ headers: this.headers, error: this.error, ...spec }]. *)
Definition Client_spread (this : Client) (spec : RouteSpec) : RouteSpec :=
  mkRouteSpec (spec_url spec)
    (spread (client_headers this) (spec_headers spec))
    (spec_body spec)
    (spec_response spec)
    (spread (client_error this) (spec_error spec))
    (spec_filterStatusOk spec).

Definition Client_get (this : Client) (spec : GetRouteSpec) :=
  make (newRoute GET (Client_spread this (withoutBody spec))).
Definition Client_post (this : Client) (spec : RouteSpec) :=
  make (newRoute POST (Client_spread this spec)).
Definition Client_put (this : Client) (spec : RouteSpec) :=
  make (newRoute PUT (Client_spread this spec)).
Definition Client_del (this : Client) (spec : RouteSpec) :=
  make (newRoute DELETE (Client_spread this spec)).

(** *** layer *)

Definition layer_baseUrl (config : Config) (req : HttpClientRequest) :
  Exit Val HttpClientRequest :=
  match req_url req with
  | UrlString url =>
      if startsWith url "/"
      then Success (HttpClientRequest.setUrl (config_url config +:+ url) req)
      else Success req
  | UrlFunction _ => Die "TypeError: req.url.startsWith is not a function"
  end.

Definition layer_bearer (config : Config) (req : HttpClientRequest) :
  Exit Val HttpClientRequest :=
  match config_accessToken config with
  | Some token =>
      if truthy (config_accessToken config)
      then Success (HttpClientRequest.bearerToken token req)
      else Success req
  | None => Success req
  end.

Definition layer (config : Config) (client : HttpClient.HttpClient) : HttpClient.HttpClient :=
  HttpClient.mapRequestInput (layer_bearer config)
    (HttpClient.mapRequestInput (layer_baseUrl config) client).

End Engine.
End Legacy.

(** ** A concrete platform, for running the engines *)

Module Sample.

(** Values: [undefined], strings, numbers and flat objects. *)
Inductive val : Type :=
| Undefined
| Str (s : string)
| Num (n : Z)
| Obj (fields : list (string * string)).

(** Codecs: a to-do item is an object with a [title]; an API error is an
    object with a [message]. *)
Inductive codec : Type := Todo | ApiError.

Definition hasField (k : string) (v : val) : bool :=
  match v with
  | Obj fields => bool_decide (is_Some (list_to_map (M := gmap string string) fields !! k))
  | _ => false
  end.

Definition codec_key (c : codec) : string :=
  match c with
  | Todo => "title"
  | ApiError => "message"
  end.

Definition check (c : codec) (v : val) : Exit val val :=
  if hasField (codec_key c) v then Success v else Failure (Str "ParseError").

(** Payloads: the JSON text of what [HttpBody.json] was given, or a text
    payload. *)
Inductive payload : Type :=
| JsonPayload (body : Unknown val)
| TextPayload (text : string).

#[export] Instance platform : Platform := {|
  Val := val;
  undefined := Undefined;
  Schema := codec;
  Schema_encode := check;
  Schema_decodeUnknown := check;
  HttpBody := payload;
  HttpBody_json := fun body => Success (JsonPayload body);
  HttpBody_headers := fun _ h => h;
  StatusCodeError := fun status => Obj [("_tag", "ResponseError"); ("reason", "StatusCode")];
|}.

Definition todo : val := Obj [("title", "Buy milk")].
Definition notFound : val := Obj [("message", "not found")].

Definition respond (status : Z) (body : val) : HttpClientResponse :=
  mkResponse status Headers.empty (Success body).

(** A transport that answers every request alike. *)
Definition always (response : HttpClientResponse) : HttpClientRequest -> Exit val HttpClientResponse :=
  fun _ => Success response.

Definition todoUrl (v : val) : string :=
  match v with
  | Str id => "/todos/" +:+ id
  | _ => "/todos/undefined"
  end.

Definition apiKey (v : val) : Exit val Headers :=
  match v with
  | Str key => Success (Headers.fromInput [("X-Api-Key", key)])
  | _ => Failure (Str "MissingKey")
  end.

Definition statusMessage (response : HttpClientResponse) : val :=
  Num (status response).

(** GET /todos/1 in the modular tree: a to-do item is decoded, with or
    without the API error codec as Error Maker. *)
Definition getTodo (error : option Modular.Error) : Modular.Route :=
  Modular.mkRoute GET (Modular.Url_Value "/todos/1") None None
    (Some (Modular.Output_Schema Todo)) error.

(** The same route in the legacy module, with its status filter flag. *)
Definition legacyGetTodo (error : option Legacy.ErrorFunction) (filterStatusOk : option bool) :
  Legacy.Route :=
  Legacy.mkRoute (UrlString "/todos/1") GET None None
    (Some (Legacy.OutputSchema Todo)) error filterStatusOk.

(** Error Makers: the API error codec, and a function of the status. *)
Definition apiError : Modular.Error := Modular.Error_Schema ApiError.
Definition statusError : Legacy.ErrorFunction := Legacy.ErrorFn statusMessage.
Definition legacyApiError : Legacy.ErrorFunction := Legacy.ErrorSchema ApiError.

(** GET /todos/:id, the url made by a function. *)
Definition getTodoById : Modular.Route :=
  Modular.mkRoute GET (Modular.Url_Fn todoUrl) None None (Some (Modular.Output_Schema Todo)) None.

Definition legacyGetTodoById : Legacy.Route :=
  Legacy.mkRoute (UrlFunction todoUrl) GET None None (Some (Legacy.OutputSchema Todo)) None None.

Definition withUrl (id : string) : option Modular.MakerParams :=
  Some (Modular.mkParams (Some (Str id)) None None).

(** POST /todos with an API key header made by a function and a to-do
    item as body; PUT /todos/1 with a fixed body. *)
Definition createTodo : Modular.Route :=
  Modular.mkRoute POST (Modular.Url_Value "/todos") (Some (Modular.Headers_Fn apiKey))
    (Some (Modular.Input_Schema Todo)) (Some (Modular.Output_Schema Todo)) None.

Definition legacyCreateTodo : Legacy.Route :=
  Legacy.mkRoute (UrlString "/todos") POST (Some (HeadersFunction apiKey))
    (Some (Legacy.InputSchema Todo)) (Some (Legacy.OutputSchema Todo)) None None.

Definition legacyPutTodo : Legacy.Route :=
  Legacy.mkRoute (UrlString "/todos/1") PUT None
    (Some (Legacy.StaticBody Todo todo)) None None None.

Definition withKey (key : string) : option Modular.MakerParams :=
  Some (Modular.mkParams None (Some (Str key)) (Some todo)).

(** Parameters with an API key and a body, for the two modules. *)
Definition withBody (body : val) : option Modular.MakerParams :=
  Some (Modular.mkParams None (Some (Str "k")) (Some body)).

Definition legacyWithBody (body : val) : option Legacy.MakerParams :=
  Some (Legacy.mkParams None (Some (Str "k")) (Some body)).

(** GET /todos with the API key header made by a function, in the two
    modules, and the request they send when the key is not given. *)
Definition listTodos : Modular.Route :=
  Modular.mkRoute GET (Modular.Url_Value "/todos") (Some (Modular.Headers_Fn apiKey))
    None None None.

Definition legacyListTodos : Legacy.Route :=
  Legacy.mkRoute (UrlString "/todos") GET (Some (HeadersFunction apiKey)) None None None None.

Definition listTodosRequest : HttpClientRequest :=
  mkRequest GET (UrlString "/todos") Headers.empty None.


(** A configuration with a base url and an access token. *)
Definition apiConfig : Config := mkConfig "https://api.example.com" (Some "tok").

(** A client with a default header set and a default Error Maker. *)
Definition apiClient : Modular.Client :=
  Modular.mkClient (Some (Modular.MakerHeadersValue (Headers.fromInput [("Accept", "text/plain")])))
    (Some (Modular.MakerErrorSchema ApiError)).

(** The request both send. *)
Definition getTodoRequest : HttpClientRequest :=
  mkRequest GET (UrlString "/todos/1") Headers.empty None.

(** A transport that fails on every request. *)
Definition refuse : HttpClientRequest -> Exit val HttpClientResponse :=
  fun _ => Failure (Str "RequestError").

(** Parameters whose [headers] property is not a key. *)
Definition withBadKey : option Modular.MakerParams :=
  Some (Modular.mkParams None (Some (Num 1)) (Some todo)).

Definition legacyWithBadKey : option Legacy.MakerParams :=
  Some (Legacy.mkParams None (Some (Num 1)) (Some todo)).

(** POST /notes with a text payload made by a function, which fails on
    what is not a string. *)
Definition textBody (v : val) : Exit val payload :=
  match v with
  | Str text => Success (TextPayload text)
  | _ => Failure (Str "NotText")
  end.

Definition postNote : Modular.Route :=
  Modular.mkRoute POST (Modular.Url_Value "/notes") None (Some (Modular.Input_Fn textBody))
    None None.

Definition legacyPostNote : Legacy.Route :=
  Legacy.mkRoute (UrlString "/notes") POST None (Some (Legacy.InputFn textBody))
    None None None.

(** GET /health, the output made by a function of the response. *)
Definition statusOf (response : HttpClientResponse) : Exit val val :=
  Success (Num (status response)).

Definition getHealth : Modular.Route :=
  Modular.mkRoute GET (Modular.Url_Value "/health") None None
    (Some (Modular.Output_Fn statusOf)) None.

Definition legacyGetHealth : Legacy.Route :=
  Legacy.mkRoute (UrlString "/health") GET None None (Some (Legacy.OutputFn statusOf))
    None None.

(** POST /todos with a fixed header set that has a content type. *)
Definition postTodoAs (contentType : string) : Modular.Route :=
  Modular.mkRoute POST (Modular.Url_Value "/todos")
    (Some (Modular.Headers_Value (Headers.fromInput [("Content-Type", contentType)])))
    (Some (Modular.Input_Schema Todo)) None None.

Definition legacyPostTodoAs (contentType : string) : Legacy.Route :=
  Legacy.mkRoute (UrlString "/todos") POST
    (Some (HeadersRecord (Headers.fromInput [("Content-Type", contentType)])))
    (Some (Legacy.InputSchema Todo)) None None None.

(** Specifications for the builders. *)
Definition todosSpec : Modular.GetMakerSpec :=
  Modular.mkGetMakerSpec (Modular.MakerUrlValue "/todos") Missing Missing Missing.

Definition legacyTodosSpec : Legacy.GetRouteSpec :=
  Legacy.mkGetRouteSpec (UrlString "/todos") Missing Missing Missing Missing.

Definition todosRequest (method : HttpMethod) : HttpClientRequest :=
  mkRequest method (UrlString "/todos") Headers.empty None.

Definition newTodoSpec (error : Prop_ Modular.MakerError) : Modular.MethodMakerSpec :=
  Modular.mkMethodMakerSpec (Modular.MakerUrlValue "/todos") Missing Missing Missing error.

Definition legacyNewTodoSpec (error : Prop_ Legacy.ErrorFunction) : Legacy.RouteSpec :=
  Legacy.mkRouteSpec (UrlString "/todos") Missing Missing Missing error Missing.

Definition legacyApiClient : Legacy.Client :=
  Legacy.mkClient (Some (HeadersRecord (Headers.fromInput [("Accept", "text/plain")])))
    (Some statusError).

End Sample.

(** ** Observing runs, and relating the two engines *)

Section Observations.
Context `{Platform}.

(** Dispatches. *)
Definition isExecute (c : Call) : bool :=
  match c with
  | Execute _ => true
  | _ => false
  end.

(** The step of the generator of [make] at which a call is made: url,
    headers, body, dispatch, error classification, output. *)
Definition step (c : Call) : nat :=
  match c with
  | UrlFnCall _ => 0
  | HeadersFnCall _ => 1
  | InputFnCall _ | InputEncode _ _ => 2
  | Execute _ => 3
  | ErrorDecode _ _ | ErrorFnCall _ => 4
  | OutputDecode _ _ | OutputFnCall _ => 5
  end%nat.

(** Calls whose steps lie within bounds, in order. *)
Definition ordered (lo hi : nat) (l : list Call) : Prop :=
  StronglySorted le (step <$> l) /\ Forall (fun c => (lo <= step c <= hi)%nat) l.

(** A modular route written for the legacy module: each tagged maker as
    the plain value the legacy unions hold, no status filter. *)
Definition legacyUrl (url : Modular.Url) : JsUrl :=
  match url with
  | Modular.Url_Value url => UrlString url
  | Modular.Url_Fn fn => UrlFunction fn
  end.

Definition legacyHeaders (headers : Modular.HeadersMaker) : JsHeaders :=
  match headers with
  | Modular.Headers_Value headers => HeadersRecord headers
  | Modular.Headers_Fn fn => HeadersFunction fn
  end.

Definition legacyInput (body : Modular.Input) : Legacy.InputFunction :=
  match body with
  | Modular.Input_Value schema value => Legacy.StaticBody schema value
  | Modular.Input_Schema schema => Legacy.InputSchema schema
  | Modular.Input_Fn fn => Legacy.InputFn fn
  end.

Definition legacyOutput (response : Modular.Output) : Legacy.OutputFunction :=
  match response with
  | Modular.Output_Schema schema => Legacy.OutputSchema schema
  | Modular.Output_Fn fn => Legacy.OutputFn fn
  end.

Definition legacyError (error : Modular.Error) : Legacy.ErrorFunction :=
  match error with
  | Modular.Error_Schema schema => Legacy.ErrorSchema schema
  | Modular.Error_Fn fn => Legacy.ErrorFn fn
  end.

Definition legacyRoute (spec : Modular.Route) : Legacy.Route :=
  Legacy.mkRoute (legacyUrl (Modular.route_url spec)) (Modular.route_method spec)
    (legacyHeaders <$> Modular.route_headers spec)
    (legacyInput <$> Modular.route_body spec)
    (legacyOutput <$> Modular.route_response spec)
    (legacyError <$> Modular.route_error spec)
    None.

Definition legacyParams (params : Modular.MakerParams) : Legacy.MakerParams :=
  Legacy.mkParams (Modular.params_url params) (Modular.params_headers params)
    (Modular.params_body params).

Definition legacyResult (result : Modular.Result) : Legacy.Result :=
  match result with
  | Modular.RawResponse response => Legacy.RawResponse response
  | Modular.OutputValue value => Legacy.OutputValue value
  end.

(** The url expression of the modular [make]: the string it gives and
    the call it makes. *)
Definition modularUrl (spec : Modular.Route) (params : option Modular.MakerParams) : string :=
  match Modular.route_url spec with
  | Modular.Url_Value url => url
  | Modular.Url_Fn fn => fn (default undefined (Modular.param params Modular.params_url))
  end.

Definition modularUrlCalls (spec : Modular.Route) (params : option Modular.MakerParams) :
  list Call :=
  match Modular.route_url spec with
  | Modular.Url_Value _ => []
  | Modular.Url_Fn _ => [UrlFnCall (default undefined (Modular.param params Modular.params_url))]
  end.

(** The request [make] assembles from a method, a url that is a string,
    a header set and a body. *)
Definition assemble (method : HttpMethod) (url : string) (headers : JsHeaders)
  (body : option HttpBody) : HttpClientRequest :=
  HttpClientRequest.setHeaders headers
    (match body with
     | Some body => HttpClientRequest.setBody (mkRequest method (UrlString url) Headers.empty None) body
     | None => mkRequest method (UrlString url) Headers.empty None
     end).

(** The same from what the url expression of the legacy [make] gave: the
    request constructor throws on a function object. *)
Definition legacyAssemble (method : HttpMethod) (url : JsUrl) (headers : JsHeaders)
  (body : option HttpBody) : Exit Val HttpClientRequest :=
  match url with
  | UrlString url => Success (assemble method url headers body)
  | UrlFunction _ => Die "TypeError: Invalid URL"
  end.

(** The parameter shape of the callable function ([MakerUrlParams],
    [MakerHeadersParams], [MakerBodyParams] in the modular tree, [MakerUrl],
    [MakerHeaders], [MakerBody] in the legacy module): whether the maker of
    the route contributes the field [url], [headers], [body]. *)
Definition MakerUrlParams (url : Modular.Url) : bool :=
  match url with
  | Modular.Url_Fn _ => true
  | Modular.Url_Value _ => false
  end.

Definition MakerHeadersParams (headers : option Modular.HeadersMaker) : bool :=
  match headers with
  | Some (Modular.Headers_Fn _) => true
  | Some (Modular.Headers_Value _) | None => false
  end.

Definition MakerBodyParams (body : option Modular.Input) : bool :=
  match body with
  | Some (Modular.Input_Fn _) | Some (Modular.Input_Schema _) => true
  | Some (Modular.Input_Value _ _) | None => false
  end.

Definition legacyMakerUrl (url : JsUrl) : bool :=
  match url with
  | UrlFunction _ => true
  | UrlString _ => false
  end.

Definition legacyMakerHeaders (headers : option JsHeaders) : bool :=
  match headers with
  | Some (HeadersFunction _) => true
  | Some (HeadersRecord _) | None => false
  end.

Definition legacyMakerBody (body : option Legacy.InputFunction) : bool :=
  match body with
  | Some (Legacy.InputFn _) | Some (Legacy.InputSchema _) => true
  | Some (Legacy.StaticBody _ _) | None => false
  end.

(** A route with its Headers Maker removed. *)
Definition withoutHeaders (spec : Modular.Route) : Modular.Route :=
  Modular.mkRoute (Modular.route_method spec) (Modular.route_url spec) None
    (Modular.route_body spec) (Modular.route_response spec) (Modular.route_error spec).

Definition legacyWithoutHeaders (spec : Legacy.Route) : Legacy.Route :=
  Legacy.mkRoute (Legacy.route_url spec) (Legacy.route_method spec) None
    (Legacy.route_body spec) (Legacy.route_response spec) (Legacy.route_error spec)
    (Legacy.route_filterStatusOk spec).

(** A legacy route with its [filterStatusOk] property replaced. *)
Definition withFilterStatusOk (filterStatusOk : option bool) (spec : Legacy.Route) : Legacy.Route :=
  Legacy.mkRoute (Legacy.route_url spec) (Legacy.route_method spec)
    (Legacy.route_headers spec) (Legacy.route_body spec)
    (Legacy.route_response spec) (Legacy.route_error spec) filterStatusOk.

End Observations.

(** * Properties *)

Ltac eff_unfold :=
  unfold HttpClient.execute, HttpClient.fromTransport in *;
  unfold mbind, mret, Effect_bind, Effect_ret, flatMap, succeed, fail, die, call, lift,
    record, calls, exit in *.

Ltac run_cases :=
  repeat case_match; eff_unfold; repeat case_match; simplify_eq; cbn [fst snd];
  rewrite ?app_nil_r.

(** Membership in the calls of a concrete run, by evaluation. *)
Ltac in_calls := repeat first [apply list_elem_of_here | apply list_elem_of_further].

(** ** Effects *)

Section EffectFacts.
Context `{Platform}.

Lemma flatMap_run {A B} (f : A -> Effect B) (m : Effect A) :
  flatMap f m =
  match m with
  | (t, Success a) => (t ++ calls (f a), exit (f a))
  | (t, Failure e) => (t, Failure e)
  | (t, Die d) => (t, Die d)
  end.
Proof. destruct m as [t [a|e|d]]; simpl; try reflexivity. destruct (f a); reflexivity. Qed.

Lemma flatMap_succeed {A B} (f : A -> Effect B) (a : A) : flatMap f (succeed a) = f a.
Proof. unfold succeed; simpl. destruct (f a); reflexivity. Qed.

Lemma flatMap_assoc {A B C} (f : A -> Effect B) (g : B -> Effect C) (m : Effect A) :
  flatMap g (flatMap f m) = flatMap (fun a => flatMap g (f a)) m.
Proof.
  destruct m as [t [a|e|d]]; simpl; try reflexivity.
  destruct (f a) as [t1 [b|e|d]]; simpl; try reflexivity.
  destruct (g b) as [t2 r]. by rewrite app_assoc.
Qed.

Lemma flatMap_ext {A B} (f g : A -> Effect B) (m : Effect A) :
  (forall a, f a = g a) -> flatMap f m = flatMap g m.
Proof. intros E. destruct m as [t [a|e|d]]; simpl; try reflexivity. by rewrite E. Qed.

Lemma filter_none (f : Call -> bool) (l : list Call) :
  Forall (fun c => f c = false) l -> List.filter f l = [].
Proof.
  induction 1 as [|c l Hc _ IH]; [reflexivity|]. simpl. by rewrite Hc.
Qed.

Lemma flatMap_calls {A B} (P : Call -> Prop) (f : A -> Effect B) (m : Effect A) :
  Forall P (calls m) -> (forall a, Forall P (calls (f a))) ->
  Forall P (calls (flatMap f m)).
Proof.
  intros Hm Hf. rewrite flatMap_run.
  destruct m as [t [a|e|d]]; cbn [calls fst] in *; try done.
  apply Forall_app_2; [done|apply Hf].
Qed.

Lemma notOk_spec (s : Z) : notOk s = false <-> 200 <= s <= 299.
Proof. unfold notOk. rewrite orb_false_iff, Z.ltb_ge, Z.geb_leb, Z.leb_gt. lia. Qed.

Lemma notOk_outside (s : Z) : notOk s = true <-> ~ (200 <= s <= 299).
Proof. rewrite <- notOk_spec. by destruct (notOk s). Qed.

(** A transport makes one call, the dispatch, with or without the status
    filter. *)
Lemma fromTransport_calls t request :
  calls (HttpClient.fromTransport t request) = [Execute request].
Proof. reflexivity. Qed.

Lemma filterStatusOk_calls t request :
  calls (HttpClient.filterStatusOk (HttpClient.fromTransport t) request) = [Execute request].
Proof.
  unfold HttpClient.filterStatusOk. eff_unfold.
  destruct (t request) as [response|e|d]; [|reflexivity..].
  by destruct ((200 <=? status response) && (status response <? 300)).
Qed.

Lemma filterStatusOk_exit t request :
  exit (HttpClient.filterStatusOk (HttpClient.fromTransport t) request) =
  match t request with
  | Success response =>
      if notOk (status response) then Failure (StatusCodeError (status response))
      else Success response
  | Failure e => Failure e
  | Die d => Die d
  end.
Proof.
  unfold HttpClient.filterStatusOk, notOk. eff_unfold.
  destruct (t request) as [response|e|d]; [|reflexivity..].
  rewrite Z.geb_leb.
  destruct (Z.leb_spec 200 (status response)), (Z.ltb_spec (status response) 300),
    (Z.ltb_spec (status response) 200), (Z.leb_spec 300 (status response));
    simpl; try reflexivity; lia.
Qed.

Section Pipeline.
Context {R : Type}.
Variable prepare : Effect HttpClientRequest.
Variable client : HttpClient.HttpClient.
Variable respond : HttpClientResponse -> Effect R.
Hypothesis client_calls : forall request, calls (client request) = [Execute request].

(** A run is the preparation, then the dispatch of the request prepared,
    then the response stage on the response obtained. *)
Lemma pipeline_run :
  pipeline prepare client respond =
  match prepare with
  | (t0, Success request) =>
      match exit (client request) with
      | Success response =>
          (t0 ++ Execute request :: calls (respond response), exit (respond response))
      | Failure e => (t0 ++ [Execute request], Failure e)
      | Die d => (t0 ++ [Execute request], Die d)
      end
  | (t0, Failure e) => (t0, Failure e)
  | (t0, Die d) => (t0, Die d)
  end.
Proof.
  unfold pipeline. rewrite flatMap_run.
  destruct prepare as [t0 [request|e|d]]; try reflexivity.
  rewrite flatMap_run. specialize (client_calls request).
  destruct (client request) as [t1 [response|e|d]]; cbn [calls exit fst snd] in *;
    by subst t1.
Qed.

End Pipeline.

(** The only dispatch of a run is that of the request it prepared. *)
Lemma dispatched_unique (t0 t2 : list Call) request request' :
  Forall (fun c => isPrepare c = true) t0 ->
  Forall (fun c => isRespond c = true) t2 ->
  Execute request' ∈ t0 ++ Execute request :: t2 ->
  request' = request.
Proof.
  intros H0 H2 Hin. rewrite Forall_forall in H0. rewrite Forall_forall in H2.
  apply elem_of_app in Hin as [Hin|Hin]; [by apply H0 in Hin|].
  apply elem_of_cons in Hin as [Hin|Hin]; [by simplify_eq|].
  by apply H2 in Hin.
Qed.

Lemma not_dispatched (t0 : list Call) request :
  Forall (fun c => isPrepare c = true) t0 -> Execute request ∉ t0.
Proof. intros H0 Hin. rewrite Forall_forall in H0. by apply H0 in Hin. Qed.

(** Calls of the response stage are found in the response stage only. *)
Lemma respond_filter (f : Call -> bool) (t0 t2 : list Call) request :
  (forall c, isPrepare c = true -> f c = false) ->
  f (Execute request) = false ->
  Forall (fun c => isPrepare c = true) t0 ->
  List.filter f (t0 ++ Execute request :: t2) = List.filter f t2.
Proof.
  intros Hf He H0. rewrite List.filter_app. simpl. rewrite He.
  rewrite filter_none; [done|]. eapply Forall_impl; [exact H0|]. auto.
Qed.

End EffectFacts.

(** ** The modular engine *)

Section ModularFacts.
Context `{Platform}.
Import Modular.

Lemma make_split spec params client :
  make spec params client = pipeline (make_request spec params) client (make_respond spec).
Proof.
  unfold make, make_request, pipeline, mbind, Effect_bind, mret, Effect_ret, HttpClient.execute.
  rewrite flatMap_assoc. apply flatMap_ext; intros url.
  rewrite flatMap_assoc. apply flatMap_ext; intros headers.
  rewrite flatMap_assoc. apply flatMap_ext; intros body.
  rewrite flatMap_assoc. apply flatMap_ext; intros req.
  by rewrite flatMap_succeed.
Qed.

Lemma getHeaders_calls spec params :
  Forall (fun c => isHeadersFnCall c = true) (calls (getHeaders spec params)).
Proof.
  unfold getHeaders, getHeaders_gen, getHeaders_contentType.
  run_cases; repeat constructor.
Qed.

Lemma getBody_calls spec params :
  Forall (fun c => isPrepare c = true /\ isUrlFnCall c = false /\ isHeadersFnCall c = false)
    (calls (getBody spec params)).
Proof.
  unfold getBody, parseBody. run_cases; repeat constructor.
Qed.

(** What follows the url expression in the preparation stage. *)
Lemma make_request_rest (P : Call -> Prop) spec params
  (k : Headers -> option HttpBody -> Effect HttpClientRequest) :
  (forall c, isHeadersFnCall c = true -> P c) ->
  (forall c, isPrepare c = true /\ isUrlFnCall c = false /\ isHeadersFnCall c = false -> P c) ->
  (forall headers body, calls (k headers body) = []) ->
  Forall P (calls (flatMap (fun headers =>
                     flatMap (fun body => k headers body) (getBody spec params))
                   (getHeaders spec params))).
Proof.
  intros Hh Hb Hk. apply flatMap_calls.
  - eapply Forall_impl; [apply getHeaders_calls|]. auto.
  - intros headers. apply flatMap_calls.
    + eapply Forall_impl; [apply getBody_calls|]. auto.
    + intros body. rewrite Hk. constructor.
Qed.

(** Making the request calls no one. *)
Lemma request_made_calls {A} (k : HttpClientRequest -> A) (made : Exit Val HttpClientRequest) :
  calls (flatMap (fun req => succeed (k req)) (lift made)) = [].
Proof. by destruct made. Qed.

Lemma make_request_calls spec params :
  Forall (fun c => isPrepare c = true) (calls (make_request spec params)).
Proof.
  unfold make_request, mbind, Effect_bind, mret, Effect_ret.
  apply flatMap_calls.
  - destruct (route_url spec); repeat constructor.
  - intros url. apply make_request_rest; [by intros []|tauto|].
    intros headers body. apply request_made_calls.
Qed.

Lemma make_respond_calls spec response :
  Forall (fun c => isRespond c = true) (calls (make_respond spec response)).
Proof.
  unfold make_respond, getError, getResponse, parseResponse.
  run_cases; repeat constructor.
Qed.

(** A custom URL function is called once, first, and its string is the
    url of the request. *)
Lemma make_request_url spec params fn :
  route_url spec = Url_Fn fn ->
  let arg := default undefined (param params params_url) in
  List.filter isUrlFnCall (calls (make_request spec params)) = [UrlFnCall arg] /\
  forall t0 request,
    make_request spec params = (t0, Success request) -> req_url request = UrlString (fn arg).
Proof.
  intros E arg. unfold make_request, mbind, Effect_bind, mret, Effect_ret.
  rewrite E. fold arg. rewrite flatMap_run. unfold call at 1. cbn [calls exit fst snd].
  set (rest := flatMap _ (getHeaders spec params)).
  assert (Forall (fun c => isUrlFnCall c = false) (calls rest)) as Hrest.
  { subst rest. apply (make_request_rest (fun c => isUrlFnCall c = false));
      [by intros []|tauto|]. intros headers body. apply request_made_calls. }
  split.
  - simpl. by rewrite filter_none.
  - intros t0 request Heq.
    assert (exit rest = Success request) as Hx by (by inversion Heq).
    clear Heq Hrest. subst rest. revert Hx. rewrite flatMap_run.
    destruct (getHeaders spec params) as [th [h|e|d]]; cbn [calls exit fst snd]; try done.
    rewrite flatMap_run.
    destruct (getBody spec params) as [tb [[b|]|e|d]]; cbn [calls exit fst snd]; try done.
    all: cbn; intros; by simplify_eq.
Qed.

(** The response stage, by cases on the Error Maker and the status. *)
Lemma getError_run error response :
  calls (getError error response) = [consult error response] /\
  (forall u, exit (getError error response) <> Success u) /\
  match error with
  | Error_Fn fn => exit (getError error response) = Failure (fn response)
  | Error_Schema schema =>
      forall j v, json response = Success j -> Schema_decodeUnknown schema j = Success v ->
                  exit (getError error response) = Failure v
  end.
Proof.
  unfold getError, parseResponse. destruct error as [schema|fn]; eff_unfold.
  - destruct (json response) as [j|e|d] eqn:Ej; cbn [fst snd].
    + destruct (Schema_decodeUnknown schema j) as [v|e|d] eqn:Ed; cbn [fst snd];
        (split_and!; [reflexivity|discriminate|intros ? ? ? ?; congruence]).
    + split_and!; [reflexivity|discriminate|intros ? ? ? ?; congruence].
    + split_and!; [reflexivity|discriminate|intros ? ? ? ?; congruence].
  - cbn [fst snd]. split_and!; [reflexivity|discriminate|reflexivity].
Qed.

Lemma make_respond_consult spec error response :
  route_error spec = Some error -> notOk (status response) = true ->
  make_respond spec response = (calls (getError error response),
                                match exit (getError error response) with
                                | Success _ => exit (getResponse (route_response spec) response)
                                | Failure e => Failure e
                                | Die d => Die d
                                end) /\
  forall r, exit (make_respond spec response) <> Success r.
Proof.
  intros E Hs. unfold make_respond, mbind, Effect_bind. rewrite E, Hs, flatMap_run.
  destruct (getError_run error response) as (Hc & Hn & _).
  destruct (getError error response) as [t [u|e|d]]; cbn [calls exit fst snd] in *.
  - by destruct (Hn u).
  - split; [reflexivity|discriminate].
  - split; [reflexivity|discriminate].
Qed.

Lemma make_respond_skip spec response :
  route_error spec = None \/ notOk (status response) = false ->
  make_respond spec response = getResponse (route_response spec) response.
Proof.
  intros Hs. unfold make_respond, mbind, Effect_bind.
  destruct (route_error spec) as [error|].
  - destruct Hs as [Hs|Hs]; [done|]. rewrite Hs.
    exact (flatMap_succeed (fun _ => getResponse (route_response spec) response) tt).
  - exact (flatMap_succeed (fun _ => getResponse (route_response spec) response) tt).
Qed.

Lemma getResponse_calls getter response :
  Forall (fun c => isOutputCall c = true) (calls (getResponse getter response)).
Proof. unfold getResponse, parseResponse. run_cases; repeat constructor. Qed.

End ModularFacts.

(** ** The legacy engine *)

Section LegacyFacts.
Context `{Platform}.
Import Legacy.

Lemma legacy_make_split spec params client :
  make spec params client =
  pipeline (make_request spec params) (make_client spec client) (make_respond spec).
Proof.
  unfold make, make_request, make_client, pipeline, mbind, Effect_bind, mret, Effect_ret,
    HttpClient.execute.
  rewrite flatMap_assoc. apply flatMap_ext; intros url.
  rewrite flatMap_assoc. apply flatMap_ext; intros headers.
  rewrite flatMap_assoc. apply flatMap_ext; intros body.
  rewrite flatMap_assoc. apply flatMap_ext; intros req.
  by rewrite flatMap_succeed.
Qed.

Lemma legacy_getHeaders_calls spec params :
  Forall (fun c => isHeadersFnCall c = true) (calls (getHeaders spec params)).
Proof.
  unfold getHeaders, getHeaders_gen, getHeaders_contentType.
  run_cases; repeat constructor.
Qed.

Lemma legacy_getBody_calls spec params :
  Forall (fun c => isPrepare c = true /\ isUrlFnCall c = false /\ isHeadersFnCall c = false)
    (calls (getBody spec params)).
Proof.
  unfold getBody, parseBody. run_cases; repeat constructor.
Qed.

Lemma legacy_make_request_rest (P : Call -> Prop) spec params
  (k : JsHeaders -> option HttpBody -> Effect HttpClientRequest) :
  (forall c, isHeadersFnCall c = true -> P c) ->
  (forall c, isPrepare c = true /\ isUrlFnCall c = false /\ isHeadersFnCall c = false -> P c) ->
  (forall headers body, calls (k headers body) = []) ->
  Forall P (calls (flatMap (fun headers =>
                     flatMap (fun body => k headers body) (getBody spec params))
                   (getHeaders spec params))).
Proof.
  intros Hh Hb Hk. apply flatMap_calls.
  - eapply Forall_impl; [apply legacy_getHeaders_calls|]. auto.
  - intros headers. apply flatMap_calls.
    + eapply Forall_impl; [apply legacy_getBody_calls|]. auto.
    + intros body. rewrite Hk. constructor.
Qed.

Lemma legacy_make_request_calls spec params :
  Forall (fun c => isPrepare c = true) (calls (make_request spec params)).
Proof.
  unfold make_request, mbind, Effect_bind, mret, Effect_ret.
  apply flatMap_calls.
  - unfold make_url. run_cases; repeat constructor.
  - intros url. apply legacy_make_request_rest; [by intros []|tauto|].
    intros headers body. apply request_made_calls.
Qed.

Lemma legacy_make_respond_calls spec response :
  Forall (fun c => isRespond c = true) (calls (make_respond spec response)).
Proof.
  unfold make_respond, getError, getResponse, parseResponse.
  run_cases; repeat constructor.
Qed.

Lemma legacy_make_client_calls spec t request :
  calls (make_client spec (HttpClient.fromTransport t) request) = [Execute request].
Proof.
  unfold make_client. destruct (negb (filterStatusOk spec)).
  - apply fromTransport_calls.
  - apply filterStatusOk_calls.
Qed.

(** The url of the request is the value of the url expression. *)
Lemma legacy_make_request_url spec params url :
  make_url spec params = ([], Success url) ->
  List.filter isUrlFnCall (calls (make_request spec params)) = [] /\
  forall t0 request,
    make_request spec params = (t0, Success request) -> req_url request = url.
Proof.
  intros E. unfold make_request, mbind, Effect_bind, mret, Effect_ret.
  rewrite E, flatMap_run. cbn [calls exit fst snd app].
  set (rest := flatMap _ (getHeaders spec params)).
  assert (Forall (fun c => isUrlFnCall c = false) (calls rest)) as Hrest.
  { subst rest. apply (legacy_make_request_rest (fun c => isUrlFnCall c = false));
      [by intros []|tauto|]. intros headers body. apply request_made_calls. }
  split.
  - by rewrite filter_none.
  - intros t0 request Heq.
    assert (exit rest = Success request) as Hx by (by inversion Heq).
    clear Heq Hrest. subst rest. revert Hx. rewrite flatMap_run.
    destruct (getHeaders spec params) as [th [h|e|d]]; cbn [calls exit fst snd]; try done.
    rewrite flatMap_run.
    destruct (getBody spec params) as [tb [[b|]|e|d]]; cbn [calls exit fst snd]; try done.
    all: destruct url as [url|fn]; cbn; intros; by simplify_eq.
Qed.

Lemma legacy_getError_run error response :
  calls (getError error response) = [consult error response] /\
  (forall u, exit (getError error response) <> Success u) /\
  match error with
  | ErrorFn fn => exit (getError error response) = Failure (fn response)
  | ErrorSchema schema =>
      forall j v, json response = Success j -> Schema_decodeUnknown schema j = Success v ->
                  exit (getError error response) = Failure v
  end.
Proof.
  unfold getError, parseResponse. destruct error as [schema|fn]; eff_unfold.
  - destruct (json response) as [j|e|d] eqn:Ej; cbn [fst snd].
    + destruct (Schema_decodeUnknown schema j) as [v|e|d] eqn:Ed; cbn [fst snd];
        (split_and!; [reflexivity|discriminate|intros ? ? ? ?; congruence]).
    + split_and!; [reflexivity|discriminate|intros ? ? ? ?; congruence].
    + split_and!; [reflexivity|discriminate|intros ? ? ? ?; congruence].
  - cbn [fst snd]. split_and!; [reflexivity|discriminate|reflexivity].
Qed.

Lemma legacy_make_respond_consult spec error response :
  route_error spec = Some error -> filterStatusOk spec = false ->
  notOk (status response) = true ->
  make_respond spec response = (calls (getError error response),
                                match exit (getError error response) with
                                | Success _ => exit (getResponse (route_response spec) response)
                                | Failure e => Failure e
                                | Die d => Die d
                                end) /\
  forall r, exit (make_respond spec response) <> Success r.
Proof.
  intros E Hf Hs. unfold make_respond, mbind, Effect_bind. rewrite E, Hf, Hs, flatMap_run.
  destruct (legacy_getError_run error response) as (Hc & Hn & _).
  cbn [negb andb].
  destruct (getError error response) as [t [u|e|d]]; cbn [calls exit fst snd] in *.
  - by destruct (Hn u).
  - split; [reflexivity|discriminate].
  - split; [reflexivity|discriminate].
Qed.

Lemma legacy_make_respond_skip spec response :
  route_error spec = None \/ filterStatusOk spec = true \/ notOk (status response) = false ->
  make_respond spec response = getResponse (route_response spec) response.
Proof.
  intros Hs. unfold make_respond, mbind, Effect_bind.
  destruct (route_error spec) as [error|].
  - destruct Hs as [Hs|[Hs|Hs]]; [done| |]; rewrite Hs; rewrite ?andb_false_r;
      exact (flatMap_succeed (fun _ => getResponse (route_response spec) response) tt).
  - exact (flatMap_succeed (fun _ => getResponse (route_response spec) response) tt).
Qed.

Lemma legacy_getResponse_calls getter response :
  Forall (fun c => isOutputCall c = true) (calls (getResponse getter response)).
Proof. unfold getResponse, parseResponse. run_cases; repeat constructor. Qed.

End LegacyFacts.

(** ** Error classification *)

Section ErrorClassification.
Context `{Platform}.

Lemma consult_isErrorCall error response :
  isErrorCall (Modular.consult error response) = true /\
  isOutputCall (Modular.consult error response) = false.
Proof. by destruct error. Qed.

Lemma legacy_consult_isErrorCall error response :
  isErrorCall (Legacy.consult error response) = true /\
  isOutputCall (Legacy.consult error response) = false.
Proof. by destruct error. Qed.

Lemma isPrepare_not_error c : isPrepare c = true -> isErrorCall c = false.
Proof. by destruct c. Qed.

Lemma isPrepare_not_output c : isPrepare c = true -> isOutputCall c = false.
Proof. by destruct c. Qed.

Lemma output_calls_no_error (l : list Call) :
  Forall (fun c => isOutputCall c = true) l -> List.filter isErrorCall l = [].
Proof.
  intros Hl. apply filter_none. eapply Forall_impl; [exact Hl|]. by intros [].
Qed.

Lemma prepare_calls_no_error (l : list Call) :
  Forall (fun c => isPrepare c = true) l ->
  List.filter isErrorCall l = [] /\ List.filter isOutputCall l = [].
Proof.
  intros Hl. split; apply filter_none; (eapply Forall_impl; [exact Hl|]); by intros [].
Qed.

Lemma in_dispatch (t0 t2 : list Call) request : Execute request ∈ t0 ++ Execute request :: t2.
Proof. apply elem_of_app. right. apply elem_of_cons. by left. Qed.

Lemma modular_error_maker (spec : Modular.Route) params t error :
  Modular.route_error spec = Some error ->
  let run := Modular.make spec params (HttpClient.fromTransport t) in
  (forall request response,
      Execute request ∈ calls run -> t request = Success response ->
      (~ (200 <= status response <= 299) ->
         List.filter isErrorCall (calls run) = [Modular.consult error response] /\
         List.filter isOutputCall (calls run) = [] /\
         (forall r, exit run <> Success r) /\
         match error with
         | Modular.Error_Fn fn => exit run = Failure (fn response)
         | Modular.Error_Schema schema =>
             forall j v, json response = Success j ->
                         Schema_decodeUnknown schema j = Success v ->
                         exit run = Failure v
         end) /\
      (200 <= status response <= 299 -> List.filter isErrorCall (calls run) = [])) /\
  ((forall request response, Execute request ∈ calls run -> t request <> Success response) ->
     List.filter isErrorCall (calls run) = []).
Proof.
  intros Herr run. subst run.
  rewrite make_split, (pipeline_run _ _ _ (fromTransport_calls t)).
  pose proof (make_request_calls spec params) as Hprep.
  pose proof (make_respond_calls spec) as Hresp.
  destruct (Modular.make_request spec params) as [t0 [request0|e0|d0]];
    cbn [calls fst] in Hprep.
  1: change (exit (HttpClient.fromTransport t request0)) with (t request0);
     destruct (t request0) as [response0|e0|d0] eqn:Ht0.
  all: cbn [calls exit fst snd].
  - split; [|intros Hno; exfalso; apply (Hno request0 response0 (in_dispatch _ _ _) Ht0)].
    intros request response Hin Ht.
    apply dispatched_unique in Hin; [|done..]. subst request.
    rewrite Ht0 in Ht. injection Ht as <-.
    rewrite !respond_filter by (done || apply isPrepare_not_error || apply isPrepare_not_output).
    split.
    + intros Hout. apply notOk_outside in Hout.
      destruct (make_respond_consult spec error response0 Herr Hout) as [Hm Hn].
      destruct (getError_run error response0) as (Hcalls & Hnever & Hval).
      destruct (consult_isErrorCall error response0) as [Hce Hco].
      rewrite Hm in *. cbn [calls exit fst snd] in *. rewrite Hcalls. simpl.
      rewrite Hce, Hco. split_and!; [reflexivity|reflexivity|exact Hn|].
      destruct error as [schema|fn].
      * intros j v Hj Hd. by rewrite (Hval j v Hj Hd).
      * by rewrite Hval.
    + intros Hin. apply notOk_spec in Hin.
      rewrite make_respond_skip by auto.
      apply output_calls_no_error, getResponse_calls.
  - split.
    + intros request response Hin Ht.
      apply dispatched_unique in Hin; [|done|constructor]. congruence.
    + intros _. rewrite respond_filter by (done || apply isPrepare_not_error). done.
  - split.
    + intros request response Hin Ht.
      apply dispatched_unique in Hin; [|done|constructor]. congruence.
    + intros _. rewrite respond_filter by (done || apply isPrepare_not_error). done.
  - split; [intros request response Hin; by apply not_dispatched in Hin|].
    intros _. by apply prepare_calls_no_error.
  - split; [intros request response Hin; by apply not_dispatched in Hin|].
    intros _. by apply prepare_calls_no_error.
Qed.

Lemma legacy_filter_off (spec : Legacy.Route) :
  Legacy.route_filterStatusOk spec <> Some true <-> Legacy.filterStatusOk spec = false.
Proof.
  unfold Legacy.filterStatusOk. destruct (Legacy.route_filterStatusOk spec) as [[]|]; simpl;
    split; congruence.
Qed.

Lemma legacy_filter_on (spec : Legacy.Route) :
  Legacy.route_filterStatusOk spec = Some true <-> Legacy.filterStatusOk spec = true.
Proof.
  unfold Legacy.filterStatusOk. destruct (Legacy.route_filterStatusOk spec) as [[]|]; simpl;
    split; congruence.
Qed.

Lemma legacy_make_client_exit spec t request :
  exit (Legacy.make_client spec (HttpClient.fromTransport t) request) =
  if Legacy.filterStatusOk spec
  then match t request with
       | Success response =>
           if notOk (status response) then Failure (StatusCodeError (status response))
           else Success response
       | Failure e => Failure e
       | Die d => Die d
       end
  else t request.
Proof.
  unfold Legacy.make_client. destruct (Legacy.filterStatusOk spec); cbn [negb].
  - apply filterStatusOk_exit.
  - reflexivity.
Qed.

Lemma legacy_error_maker (spec : Legacy.Route) params t error :
  Legacy.route_error spec = Some error ->
  Legacy.route_filterStatusOk spec <> Some true ->
  let run := Legacy.make spec params (HttpClient.fromTransport t) in
  (forall request response,
      Execute request ∈ calls run -> t request = Success response ->
      (~ (200 <= status response <= 299) ->
         List.filter isErrorCall (calls run) = [Legacy.consult error response] /\
         List.filter isOutputCall (calls run) = [] /\
         (forall r, exit run <> Success r) /\
         match error with
         | Legacy.ErrorFn fn => exit run = Failure (fn response)
         | Legacy.ErrorSchema schema =>
             forall j v, json response = Success j ->
                         Schema_decodeUnknown schema j = Success v ->
                         exit run = Failure v
         end) /\
      (200 <= status response <= 299 -> List.filter isErrorCall (calls run) = [])) /\
  ((forall request response, Execute request ∈ calls run -> t request <> Success response) ->
     List.filter isErrorCall (calls run) = []).
Proof.
  intros Herr Hoff run. subst run. apply legacy_filter_off in Hoff.
  rewrite legacy_make_split, (pipeline_run _ _ _ (legacy_make_client_calls spec t)).
  pose proof (legacy_make_request_calls spec params) as Hprep.
  pose proof (legacy_make_respond_calls spec) as Hresp.
  destruct (Legacy.make_request spec params) as [t0 [request0|e0|d0]];
    cbn [calls fst] in Hprep.
  1: rewrite legacy_make_client_exit, Hoff;
     destruct (t request0) as [response0|e0|d0] eqn:Ht0.
  all: cbn [calls exit fst snd].
  - split; [|intros Hno; exfalso; apply (Hno request0 response0 (in_dispatch _ _ _) Ht0)].
    intros request response Hin Ht.
    apply dispatched_unique in Hin; [|done..]. subst request.
    rewrite Ht0 in Ht. injection Ht as <-.
    rewrite !respond_filter by (done || apply isPrepare_not_error || apply isPrepare_not_output).
    split.
    + intros Hout. apply notOk_outside in Hout.
      destruct (legacy_make_respond_consult spec error response0 Herr Hoff Hout) as [Hm Hn].
      destruct (legacy_getError_run error response0) as (Hcalls & Hnever & Hval).
      destruct (legacy_consult_isErrorCall error response0) as [Hce Hco].
      rewrite Hm in *. cbn [calls exit fst snd] in *. rewrite Hcalls. simpl.
      rewrite Hce, Hco. split_and!; [reflexivity|reflexivity|exact Hn|].
      destruct error as [schema|fn].
      * intros j v Hj Hd. by rewrite (Hval j v Hj Hd).
      * by rewrite Hval.
    + intros Hin. apply notOk_spec in Hin.
      rewrite legacy_make_respond_skip by auto.
      apply output_calls_no_error, legacy_getResponse_calls.
  - split.
    + intros request response Hin Ht.
      apply dispatched_unique in Hin; [|done|constructor]. congruence.
    + intros _. rewrite respond_filter by (done || apply isPrepare_not_error). done.
  - split.
    + intros request response Hin Ht.
      apply dispatched_unique in Hin; [|done|constructor]. congruence.
    + intros _. rewrite respond_filter by (done || apply isPrepare_not_error). done.
  - split; [intros request response Hin; by apply not_dispatched in Hin|].
    intros _. by apply prepare_calls_no_error.
  - split; [intros request response Hin; by apply not_dispatched in Hin|].
    intros _. by apply prepare_calls_no_error.
Qed.

(** With the status filter on, the Error Maker is never consulted, and a
    response outside 200-299 is the failure of the filter. *)
Lemma legacy_filter_bypasses (spec : Legacy.Route) params t :
  Legacy.route_filterStatusOk spec = Some true ->
  let run := Legacy.make spec params (HttpClient.fromTransport t) in
  List.filter isErrorCall (calls run) = [] /\
  forall request response,
    Execute request ∈ calls run -> t request = Success response ->
    ~ (200 <= status response <= 299) ->
    exit run = Failure (StatusCodeError (status response)) /\
    List.filter isOutputCall (calls run) = [].
Proof.
  intros Hon run. subst run. apply legacy_filter_on in Hon.
  rewrite legacy_make_split, (pipeline_run _ _ _ (legacy_make_client_calls spec t)).
  pose proof (legacy_make_request_calls spec params) as Hprep.
  pose proof (legacy_make_respond_calls spec) as Hresp.
  destruct (Legacy.make_request spec params) as [t0 [request0|e0|d0]];
    cbn [calls fst] in Hprep.
  1: rewrite legacy_make_client_exit, Hon;
     destruct (t request0) as [response0|e0|d0] eqn:Ht0;
     [destruct (notOk (status response0)) eqn:Hs|..].
  all: cbn [calls exit fst snd].
  all: try (split; [by apply prepare_calls_no_error|];
            intros request response Hin; by apply not_dispatched in Hin).
  all: rewrite ?respond_filter
         by (done || apply isPrepare_not_error || apply isPrepare_not_output).
  all: split; [try done|].
  all: try (intros request response Hin Ht Hout;
            apply dispatched_unique in Hin; [|done|(done || constructor)]; subst request;
            rewrite Ht0 in Ht; try discriminate; injection Ht as <-).
  - done.
  - rewrite legacy_make_respond_skip by auto.
    apply output_calls_no_error, legacy_getResponse_calls.
  - apply notOk_outside in Hout. congruence.
Qed.

Lemma getResponse_schema schema response j v :
  json response = Success j -> Schema_decodeUnknown schema j = Success v ->
  exit (Modular.getResponse (Some (Modular.Output_Schema schema)) response) =
  Success (Modular.OutputValue v).
Proof.
  intros Hj Hd. unfold Modular.getResponse, Modular.parseResponse. eff_unfold.
  by rewrite Hj, Hd.
Qed.

Lemma legacy_getResponse_schema schema response j v :
  json response = Success j -> Schema_decodeUnknown schema j = Success v ->
  exit (Legacy.getResponse (Some (Legacy.OutputSchema schema)) response) =
  Success (Legacy.OutputValue v).
Proof.
  intros Hj Hd. unfold Legacy.getResponse, Legacy.parseResponse. eff_unfold.
  by rewrite Hj, Hd.
Qed.

Lemma modular_no_error_maker (spec : Modular.Route) params t :
  Modular.route_error spec = None ->
  let run := Modular.make spec params (HttpClient.fromTransport t) in
  forall request response,
    Execute request ∈ calls run -> t request = Success response ->
    exit run = exit (Modular.getResponse (Modular.route_response spec) response) /\
    List.filter isErrorCall (calls run) = [] /\
    List.filter isOutputCall (calls run) =
      calls (Modular.getResponse (Modular.route_response spec) response) /\
    forall schema j v,
      Modular.route_response spec = Some (Modular.Output_Schema schema) ->
      json response = Success j -> Schema_decodeUnknown schema j = Success v ->
      exit run = Success (Modular.OutputValue v).
Proof.
  intros Herr run. subst run.
  rewrite make_split, (pipeline_run _ _ _ (fromTransport_calls t)).
  pose proof (make_request_calls spec params) as Hprep.
  pose proof (make_respond_calls spec) as Hresp.
  destruct (Modular.make_request spec params) as [t0 [request0|e0|d0]];
    cbn [calls fst] in Hprep.
  1: change (exit (HttpClient.fromTransport t request0)) with (t request0);
     destruct (t request0) as [response0|e0|d0] eqn:Ht0.
  all: cbn [calls exit fst snd]; intros request response Hin Ht.
  all: try (by apply not_dispatched in Hin).
  all: apply dispatched_unique in Hin; [|done|(done || constructor)]; subst request;
    rewrite Ht0 in Ht; try discriminate; injection Ht as <-.
  rewrite !respond_filter by (done || apply isPrepare_not_error || apply isPrepare_not_output).
  rewrite make_respond_skip by auto.
  pose proof (getResponse_calls (Modular.route_response spec) response0) as Hout.
  split_and!; [reflexivity|by apply output_calls_no_error| |].
  - clear -Hout. induction Hout as [|c l Hc _ IH]; [reflexivity|]. simpl. by rewrite Hc, IH.
  - intros schema j v -> Hj Hd. by apply getResponse_schema with j.
Qed.

Lemma legacy_no_error_maker (spec : Legacy.Route) params t :
  Legacy.route_error spec = None ->
  Legacy.route_filterStatusOk spec <> Some true ->
  let run := Legacy.make spec params (HttpClient.fromTransport t) in
  forall request response,
    Execute request ∈ calls run -> t request = Success response ->
    exit run = exit (Legacy.getResponse (Legacy.route_response spec) response) /\
    List.filter isErrorCall (calls run) = [] /\
    List.filter isOutputCall (calls run) =
      calls (Legacy.getResponse (Legacy.route_response spec) response) /\
    forall schema j v,
      Legacy.route_response spec = Some (Legacy.OutputSchema schema) ->
      json response = Success j -> Schema_decodeUnknown schema j = Success v ->
      exit run = Success (Legacy.OutputValue v).
Proof.
  intros Herr Hoff run. subst run. apply legacy_filter_off in Hoff.
  rewrite legacy_make_split, (pipeline_run _ _ _ (legacy_make_client_calls spec t)).
  pose proof (legacy_make_request_calls spec params) as Hprep.
  pose proof (legacy_make_respond_calls spec) as Hresp.
  destruct (Legacy.make_request spec params) as [t0 [request0|e0|d0]];
    cbn [calls fst] in Hprep.
  1: rewrite legacy_make_client_exit, Hoff;
     destruct (t request0) as [response0|e0|d0] eqn:Ht0.
  all: cbn [calls exit fst snd]; intros request response Hin Ht.
  all: try (by apply not_dispatched in Hin).
  all: apply dispatched_unique in Hin; [|done|(done || constructor)]; subst request;
    rewrite Ht0 in Ht; try discriminate; injection Ht as <-.
  rewrite !respond_filter by (done || apply isPrepare_not_error || apply isPrepare_not_output).
  rewrite legacy_make_respond_skip by auto.
  pose proof (legacy_getResponse_calls (Legacy.route_response spec) response0) as Hout.
  split_and!; [reflexivity|by apply output_calls_no_error| |].
  - clear -Hout. induction Hout as [|c l Hc _ IH]; [reflexivity|]. simpl. by rewrite Hc, IH.
  - intros schema j v -> Hj Hd. by apply legacy_getResponse_schema with j.
Qed.

End ErrorClassification.

(** ** The claims on error classification *)

Section ErrorClaims.
Context `{Platform}.

(** C1. For every route with an Error Maker (in the legacy module: and
    [filterStatusOk] not true), run against a transport: the Error Maker is
    consulted exactly when the transport answered with a status outside
    200-299, and then once, on that response; the run then never succeeds,
    the Output Maker is not used, and the failure is the value of the custom
    error function on the response, or the value the codec decodes from the
    response body. With a status within 200-299, and when no response was
    obtained, the Error Maker is not used. *)
Theorem error_maker_consulted_outside_2xx :
  (forall (spec : Modular.Route) params t error,
      Modular.route_error spec = Some error ->
      let run := Modular.make spec params (HttpClient.fromTransport t) in
      (forall request response,
          Execute request ∈ calls run -> t request = Success response ->
          (~ (200 <= status response <= 299) ->
             List.filter isErrorCall (calls run) = [Modular.consult error response] /\
             List.filter isOutputCall (calls run) = [] /\
             (forall r, exit run <> Success r) /\
             match error with
             | Modular.Error_Fn fn => exit run = Failure (fn response)
             | Modular.Error_Schema schema =>
                 forall j v, json response = Success j ->
                             Schema_decodeUnknown schema j = Success v ->
                             exit run = Failure v
             end) /\
          (200 <= status response <= 299 -> List.filter isErrorCall (calls run) = [])) /\
      ((forall request response,
           Execute request ∈ calls run -> t request <> Success response) ->
       List.filter isErrorCall (calls run) = [])) /\
  (forall (spec : Legacy.Route) params t error,
      Legacy.route_error spec = Some error ->
      Legacy.route_filterStatusOk spec <> Some true ->
      let run := Legacy.make spec params (HttpClient.fromTransport t) in
      (forall request response,
          Execute request ∈ calls run -> t request = Success response ->
          (~ (200 <= status response <= 299) ->
             List.filter isErrorCall (calls run) = [Legacy.consult error response] /\
             List.filter isOutputCall (calls run) = [] /\
             (forall r, exit run <> Success r) /\
             match error with
             | Legacy.ErrorFn fn => exit run = Failure (fn response)
             | Legacy.ErrorSchema schema =>
                 forall j v, json response = Success j ->
                             Schema_decodeUnknown schema j = Success v ->
                             exit run = Failure v
             end) /\
          (200 <= status response <= 299 -> List.filter isErrorCall (calls run) = [])) /\
      ((forall request response,
           Execute request ∈ calls run -> t request <> Success response) ->
       List.filter isErrorCall (calls run) = [])).
Proof.
  split.
  - intros spec params t error Herr. by apply modular_error_maker.
  - intros spec params t error Herr Hoff. by apply legacy_error_maker.
Qed.

(** C2, amended. For every route with no Error Maker (in the legacy
    module: and [filterStatusOk] not true), whatever the status of the
    response the transport answered with, the run is the response stage of
    the Output Maker on that response: the Error Maker is not used, and a
    body that the Output codec decodes gives the decoded value as the
    success value. *)
Theorem no_error_maker_status_ignored :
  (forall (spec : Modular.Route) params t,
      Modular.route_error spec = None ->
      let run := Modular.make spec params (HttpClient.fromTransport t) in
      forall request response,
        Execute request ∈ calls run -> t request = Success response ->
        exit run = exit (Modular.getResponse (Modular.route_response spec) response) /\
        List.filter isErrorCall (calls run) = [] /\
        List.filter isOutputCall (calls run) =
          calls (Modular.getResponse (Modular.route_response spec) response) /\
        forall schema j v,
          Modular.route_response spec = Some (Modular.Output_Schema schema) ->
          json response = Success j -> Schema_decodeUnknown schema j = Success v ->
          exit run = Success (Modular.OutputValue v)) /\
  (forall (spec : Legacy.Route) params t,
      Legacy.route_error spec = None ->
      Legacy.route_filterStatusOk spec <> Some true ->
      let run := Legacy.make spec params (HttpClient.fromTransport t) in
      forall request response,
        Execute request ∈ calls run -> t request = Success response ->
        exit run = exit (Legacy.getResponse (Legacy.route_response spec) response) /\
        List.filter isErrorCall (calls run) = [] /\
        List.filter isOutputCall (calls run) =
          calls (Legacy.getResponse (Legacy.route_response spec) response) /\
        forall schema j v,
          Legacy.route_response spec = Some (Legacy.OutputSchema schema) ->
          json response = Success j -> Schema_decodeUnknown schema j = Success v ->
          exit run = Success (Legacy.OutputValue v)).
Proof.
  split.
  - intros spec params t Herr. by apply modular_no_error_maker.
  - intros spec params t Herr Hoff. by apply legacy_no_error_maker.
Qed.

(** C8. In the legacy module, for every route with [filterStatusOk] true,
    run against a transport: the Error Maker is never consulted, and a
    response with a status outside 200-299 makes the run fail with the
    status failure of the platform's filter, the Output Maker unused. *)
Theorem legacy_filterStatusOk_bypasses_error_maker :
  forall (spec : Legacy.Route) params t,
    Legacy.route_filterStatusOk spec = Some true ->
    let run := Legacy.make spec params (HttpClient.fromTransport t) in
    List.filter isErrorCall (calls run) = [] /\
    forall request response,
      Execute request ∈ calls run -> t request = Success response ->
      ~ (200 <= status response <= 299) ->
      exit run = Failure (StatusCodeError (status response)) /\
      List.filter isOutputCall (calls run) = [].
Proof. intros spec params t Hon. by apply legacy_filter_bypasses. Qed.

End ErrorClaims.

Section ErrorWitnesses.
Import Sample.

Lemma error_maker_consulted_outside_2xx_witness :
  (let run := Modular.make (getTodo (Some apiError)) None
                (HttpClient.fromTransport (always (respond 404 notFound))) in
   List.filter isErrorCall (calls run) = [ErrorDecode ApiError (respond 404 notFound)] /\
   exit run = Failure notFound) /\
  (let run := Legacy.make (legacyGetTodo (Some statusError) None) None
                (HttpClient.fromTransport (always (respond 404 notFound))) in
   List.filter isErrorCall (calls run) = [ErrorFnCall (respond 404 notFound)] /\
   exit run = Failure (Num 404)).
Proof.
  destruct (error_maker_consulted_outside_2xx (H := platform)) as [Hm Hl]. split.
  - destruct (Hm (getTodo (Some apiError)) None (always (respond 404 notFound)) apiError eq_refl)
      as [Hdisp _].
    destruct (Hdisp getTodoRequest (respond 404 notFound) ltac:(in_calls) eq_refl)
      as [Hout _].
    destruct (Hout ltac:(cbn; lia)) as (Hc & _ & _ & Hv).
    split; [exact Hc|exact (Hv notFound notFound eq_refl eq_refl)].
  - destruct (Hl (legacyGetTodo (Some statusError) None) None
                (always (respond 404 notFound)) statusError eq_refl ltac:(discriminate))
      as [Hdisp _].
    destruct (Hdisp getTodoRequest (respond 404 notFound) ltac:(in_calls) eq_refl)
      as [Hout _].
    destruct (Hout ltac:(cbn; lia)) as (Hc & _ & _ & Hv).
    split; [exact Hc|exact Hv].
Defined.

(** The claim without the amendment fails in the legacy module: with
    [filterStatusOk] true and no Error Maker, a status-500 response whose
    body the Output codec decodes makes the run fail. *)
Lemma no_error_maker_status_ignored_counterexample :
  let spec := legacyGetTodo None (Some true) in
  let response := respond 500 todo in
  let run := Legacy.make spec None (HttpClient.fromTransport (always response)) in
  Legacy.route_error spec = None /\
  Execute getTodoRequest ∈ calls run /\
  exit (Legacy.getResponse (Legacy.route_response spec) response) =
    Success (Legacy.OutputValue todo) /\
  exit run = Failure (StatusCodeError 500).
Proof. split_and!; [reflexivity|in_calls|reflexivity|reflexivity]. Qed.

Lemma no_error_maker_status_ignored_witness :
  exit (Modular.make (getTodo None) None
          (HttpClient.fromTransport (always (respond 500 todo)))) =
    Success (Modular.OutputValue todo) /\
  exit (Legacy.make (legacyGetTodo None None) None
          (HttpClient.fromTransport (always (respond 500 todo)))) =
    Success (Legacy.OutputValue todo).
Proof.
  destruct (no_error_maker_status_ignored (H := platform)) as [Hm Hl]. split.
  - destruct (Hm (getTodo None) None (always (respond 500 todo)) eq_refl
                getTodoRequest (respond 500 todo) ltac:(in_calls) eq_refl)
      as (_ & _ & _ & Hv).
    exact (Hv Todo todo todo eq_refl eq_refl eq_refl).
  - destruct (Hl (legacyGetTodo None None) None (always (respond 500 todo)) eq_refl
                ltac:(discriminate) getTodoRequest (respond 500 todo) ltac:(in_calls) eq_refl)
      as (_ & _ & _ & Hv).
    exact (Hv Todo todo todo eq_refl eq_refl eq_refl).
Defined.

Lemma legacy_filterStatusOk_bypasses_error_maker_witness :
  let run := Legacy.make (legacyGetTodo (Some statusError) (Some true)) None
               (HttpClient.fromTransport (always (respond 404 notFound))) in
  List.filter isErrorCall (calls run) = [] /\
  exit run = Failure (StatusCodeError 404).
Proof.
  destruct (legacy_filterStatusOk_bypasses_error_maker (H := platform)
              (legacyGetTodo (Some statusError) (Some true)) None
              (always (respond 404 notFound)) eq_refl) as [Hnone Hfail].
  destruct (Hfail getTodoRequest (respond 404 notFound) ltac:(in_calls) eq_refl
              ltac:(cbn; lia)) as [Hexit _].
  split; [exact Hnone|exact Hexit].
Defined.

End ErrorWitnesses.

(** ** The claims on the request URL *)

Section UrlClaims.
Context `{Platform}.

(** Calls of the preparation stage are found in the preparation stage only. *)
Lemma prepare_filter (f : Call -> bool) (t0 t2 : list Call) request :
  (forall c, isRespond c = true -> f c = false) ->
  f (Execute request) = false ->
  Forall (fun c => isRespond c = true) t2 ->
  List.filter f (t0 ++ Execute request :: t2) = List.filter f t0.
Proof.
  intros Hf He H2. rewrite List.filter_app. simpl. rewrite He.
  rewrite (filter_none f t2), app_nil_r; [done|].
  eapply Forall_impl; [exact H2|]. auto.
Qed.

Lemma isRespond_not_url c : isRespond c = true -> isUrlFnCall c = false.
Proof. by destruct c. Qed.

(** C9. In the modular tree, for every route whose URL Maker is a custom
    function, an invocation calls the function exactly once, with the [url]
    property of the parameters when they have one and with [undefined]
    otherwise, and the string returned is the url of the request that is
    dispatched. *)
Theorem modular_url_fn_called_once :
  forall (spec : Modular.Route) fn params t,
    Modular.route_url spec = Modular.Url_Fn fn ->
    let run := Modular.make spec params (HttpClient.fromTransport t) in
    let arg := match Modular.param params Modular.params_url with
               | Some url => url
               | None => undefined
               end in
    List.filter isUrlFnCall (calls run) = [UrlFnCall arg] /\
    forall request, Execute request ∈ calls run -> req_url request = UrlString (fn arg).
Proof.
  intros spec fn params t Hurl run arg. subst run.
  destruct (make_request_url spec params fn Hurl) as [Hcalls Hreq].
  fold arg in Hcalls, Hreq.
  rewrite make_split, (pipeline_run _ _ _ (fromTransport_calls t)).
  pose proof (make_request_calls spec params) as Hprep.
  pose proof (make_respond_calls spec) as Hresp.
  destruct (Modular.make_request spec params) as [t0 [request0|e0|d0]];
    cbn [calls fst] in Hprep, Hcalls.
  1: specialize (Hreq t0 request0 eq_refl);
     change (exit (HttpClient.fromTransport t request0)) with (t request0);
     destruct (t request0) as [response0|e0|d0].
  all: cbn [calls exit fst snd].
  all: rewrite ?prepare_filter by (done || apply isRespond_not_url || constructor).
  all: split; [exact Hcalls|intros request Hin].
  all: try (by apply not_dispatched in Hin).
  all: apply dispatched_unique in Hin; [by subst request|done|(done || constructor)].
Qed.

(** With a function as url and no [url] property, the legacy run computes
    the header set, then the body, then dies in the request constructor. *)
Lemma legacy_function_url_run (spec : Legacy.Route) fn params client :
  Legacy.route_url spec = UrlFunction fn ->
  (forall p, params = Some p -> Legacy.params_url p = None) ->
  Legacy.make_url spec params = ([], Success (UrlFunction fn)) /\
  Legacy.make spec params client =
  flatMap (fun _ => flatMap (fun _ => die "TypeError: Invalid URL")
                      (Legacy.getBody spec params))
    (Legacy.getHeaders spec params).
Proof.
  intros Hurl Hparam.
  assert (Legacy.make_url spec params = succeed (UrlFunction fn)) as Hmk.
  { unfold Legacy.make_url. rewrite Hurl.
    destruct params as [p|]; cbn [Legacy.param]; [by rewrite (Hparam p eq_refl)|done]. }
  split; [exact Hmk|].
  unfold Legacy.make, mbind, Effect_bind. rewrite Hmk, flatMap_succeed.
  apply flatMap_ext; intros headers. apply flatMap_ext; intros body. reflexivity.
Qed.

(** C10, amended. In the legacy module, for every route whose url is a
    function, an invocation whose parameters have no [url] property never
    calls the function: the function object itself is what the url expression
    gives and what the request constructor receives, in place of any string
    the function would return. The constructor rejects it: once the header
    set and the body have been computed the run dies with
    [TypeError: Invalid URL], so it never succeeds and dispatches nothing. *)
Theorem legacy_url_fn_not_called :
  forall (spec : Legacy.Route) fn params client,
    Legacy.route_url spec = UrlFunction fn ->
    (forall p, params = Some p -> Legacy.params_url p = None) ->
    let run := Legacy.make spec params client in
    Legacy.make_url spec params = ([], Success (UrlFunction fn)) /\
    List.filter isUrlFnCall (calls run) = [] /\
    List.filter isExecute (calls run) = [] /\
    (forall result, exit run <> Success result) /\
    (forall headers body,
        exit (Legacy.getHeaders spec params) = Success headers ->
        exit (Legacy.getBody spec params) = Success body ->
        run = (calls (Legacy.getHeaders spec params) ++ calls (Legacy.getBody spec params),
               Die "TypeError: Invalid URL")).
Proof.
  intros spec fn params client Hurl Hparam run. subst run.
  destruct (legacy_function_url_run spec fn params client Hurl Hparam) as [Hmk ->].
  pose proof (legacy_getHeaders_calls spec params) as Hh.
  pose proof (legacy_getBody_calls spec params) as Hb.
  rewrite flatMap_run.
  destruct (Legacy.getHeaders spec params) as [th [headers|e|d]]; cbn [calls exit fst snd] in *.
  1: rewrite flatMap_run;
     destruct (Legacy.getBody spec params) as [tb [body|e|d]]; cbn [calls exit fst snd] in *;
     rewrite ?app_nil_r.
  all: split_and!; [exact Hmk| | |discriminate|intros ? ? ? ?; by simplify_eq].
  all: apply filter_none; rewrite ?Forall_app; repeat split.
  all: try (eapply Forall_impl; [exact Hh|]; by intros []).
  all: eapply Forall_impl; [exact Hb|]; intros [] (? & ? & ?); done.
Qed.

End UrlClaims.

Section UrlWitnesses.
Import Sample.

Lemma modular_url_fn_called_once_witness :
  (let run := Modular.make getTodoById (withUrl "123")
                (HttpClient.fromTransport (always (respond 200 todo))) in
   List.filter isUrlFnCall (calls run) = [UrlFnCall (Str "123")] /\
   Execute (mkRequest GET (UrlString "/todos/123") Headers.empty None) ∈ calls run) /\
  (let run := Modular.make getTodoById None
                (HttpClient.fromTransport (always (respond 200 todo))) in
   List.filter isUrlFnCall (calls run) = [UrlFnCall Undefined] /\
   Execute (mkRequest GET (UrlString "/todos/undefined") Headers.empty None) ∈ calls run).
Proof.
  split.
  - destruct (modular_url_fn_called_once (H := platform) getTodoById todoUrl (withUrl "123")
                (always (respond 200 todo)) eq_refl) as [Hcalls Hreq].
    split; [exact Hcalls|in_calls].
  - destruct (modular_url_fn_called_once (H := platform) getTodoById todoUrl None
                (always (respond 200 todo)) eq_refl) as [Hcalls Hreq].
    split; [exact Hcalls|in_calls].
Defined.

(** The claim as it was stated fails: no request has the function as its
    url, for none is dispatched. *)
Lemma legacy_url_fn_not_called_counterexample :
  let spec := legacyGetTodoById in
  let run := Legacy.make spec None (HttpClient.fromTransport (always (respond 200 todo))) in
  Legacy.route_url spec = UrlFunction todoUrl /\
  calls run = [] /\
  exit run = Die "TypeError: Invalid URL" /\
  ~ (exists request, Execute request ∈ calls run /\ req_url request = UrlFunction todoUrl).
Proof.
  split_and!; try reflexivity. intros (request & Hin & _). by apply elem_of_nil in Hin.
Qed.

Lemma legacy_url_fn_not_called_witness :
  let run := Legacy.make legacyGetTodoById None
               (HttpClient.fromTransport (always (respond 200 todo))) in
  List.filter isUrlFnCall (calls run) = [] /\
  List.filter isExecute (calls run) = [] /\
  run = ([], Die "TypeError: Invalid URL").
Proof.
  destruct (legacy_url_fn_not_called (H := platform) legacyGetTodoById todoUrl None
              (HttpClient.fromTransport (always (respond 200 todo))) eq_refl
              ltac:(intros p Hp; discriminate Hp))
    as (_ & Hcalls & Hnone & _ & Hdie).
  split_and!; [exact Hcalls|exact Hnone|exact (Hdie _ _ eq_refl eq_refl)].
Defined.

End UrlWitnesses.

(** ** The claims on the configuration layer and the client *)

Section LayerClaims.
Context `{Platform}.

Lemma startsWith_slash (url : string) :
  startsWith url "/" = match url with String "/"%char _ => true | _ => false end.
Proof.
  destruct url as [|a rest]; [reflexivity|].
  destruct a as [[] [] [] [] [] [] [] []]; try reflexivity.
  by destruct rest.
Qed.

Lemma truthy_Some (token : string) :
  truthy (Some token) = match token with EmptyString => false | String _ _ => true end.
Proof. by destruct token. Qed.

Lemma lift_flatMap {A B} (f : A -> Effect B) (a : A) : flatMap f (lift (Success a)) = f a.
Proof. apply flatMap_succeed. Qed.

Lemma modular_layer_forwards config client method url headers body :
  Modular.layer config client (mkRequest method (UrlString url) headers body) =
  client (mkRequest method
            (UrlString (match url with
                        | String "/"%char _ => config_url config +:+ url
                        | _ => url
                        end))
            (match config_accessToken config with
             | Some (String c token) =>
                 Headers.set "Authorization" ("Bearer " +:+ String c token) headers
             | Some EmptyString | None => headers
             end)
            body).
Proof.
  unfold Modular.layer, HttpClient.mapRequestInput, Modular.layer_bearer, Modular.layer_baseUrl,
    mbind, Effect_bind.
  destruct (config_accessToken config) as [[|c token]|]; cbn [truthy String.eqb negb];
    rewrite ?truthy_Some, lift_flatMap; cbn [req_url HttpClientRequest.bearerToken
      HttpClientRequest.setHeader req_method req_headers req_body];
    rewrite startsWith_slash.
  all: destruct url as [|a rest]; [by rewrite lift_flatMap|].
  all: destruct a as [[] [] [] [] [] [] [] []]; by rewrite lift_flatMap.
Qed.

Lemma legacy_layer_forwards config client method url headers body :
  Legacy.layer config client (mkRequest method (UrlString url) headers body) =
  client (mkRequest method
            (UrlString (match url with
                        | String "/"%char _ => config_url config +:+ url
                        | _ => url
                        end))
            (match config_accessToken config with
             | Some (String c token) =>
                 Headers.set "Authorization" ("Bearer " +:+ String c token) headers
             | Some EmptyString | None => headers
             end)
            body).
Proof. exact (modular_layer_forwards config client method url headers body). Qed.

(** C7. While the layer is active, a request whose url is a string reaches
    the transport with: its url prefixed by the configured base url (plain
    concatenation) when it begins with the character [/], unchanged
    otherwise; its header set with [Authorization: Bearer <accessToken>] set
    when the configured access token is present and not empty, unchanged
    otherwise; its method and body unchanged. This holds in the modular
    tree and in the legacy module. *)
Theorem layer_base_url_and_bearer :
  forall config client method url headers body,
    let forwarded :=
      mkRequest method
        (UrlString (match url with
                    | String "/"%char _ => config_url config +:+ url
                    | _ => url
                    end))
        (match config_accessToken config with
         | Some (String c token) =>
             Headers.set "Authorization" ("Bearer " +:+ String c token) headers
         | Some EmptyString | None => headers
         end)
        body in
    Modular.layer config client (mkRequest method (UrlString url) headers body) =
      client forwarded /\
    Legacy.layer config client (mkRequest method (UrlString url) headers body) =
      client forwarded.
Proof.
  intros config client method url headers body forwarded. split.
  - apply modular_layer_forwards.
  - apply legacy_layer_forwards.
Qed.

End LayerClaims.

Section ClientClaims.
Context `{Platform}.

(** C6. For every client and every per-route specification, the route
    that [get], [post], [put] and [del] build and hand to [make] has, for
    [headers] and for [error] independently, the maker of the
    specification when the specification has that property, and the
    client's default (possibly none) when it has not; the url, body and
    response makers are those of the specification. This holds in the
    modular tree and in the legacy module. *)
Theorem client_route_override_or_default :
  (forall (this : Modular.Client) (spec : Modular.MethodMakerSpec),
      let route method :=
        Modular.mkRoute method
          (Modular.fromMakerUrl (Modular.mspec_url spec))
          (Modular.fromMakerHeaders <$>
             match Modular.mspec_headers spec with
             | Own maker => maker
             | Missing => Modular.client_headers this
             end)
          (Modular.fromMakerInput <$> read (Modular.mspec_body spec))
          (Modular.fromMakerOutput <$> read (Modular.mspec_response spec))
          (Modular.fromMakerError <$>
             match Modular.mspec_error spec with
             | Own maker => maker
             | Missing => Modular.client_error this
             end) in
      Modular.Client_post this spec = Modular.make (route POST) /\
      Modular.Client_put this spec = Modular.make (route PUT) /\
      Modular.Client_del this spec = Modular.make (route DELETE)) /\
  (forall (this : Modular.Client) (spec : Modular.GetMakerSpec),
      Modular.Client_get this spec =
      Modular.make
        (Modular.mkRoute GET
           (Modular.fromMakerUrl (Modular.gspec_url spec))
           (Modular.fromMakerHeaders <$>
              match Modular.gspec_headers spec with
              | Own maker => maker
              | Missing => Modular.client_headers this
              end)
           None
           (Modular.fromMakerOutput <$> read (Modular.gspec_response spec))
           (Modular.fromMakerError <$>
              match Modular.gspec_error spec with
              | Own maker => maker
              | Missing => Modular.client_error this
              end))) /\
  (forall (this : Legacy.Client) (spec : Legacy.RouteSpec),
      let route method :=
        Legacy.mkRoute (Legacy.spec_url spec) method
          match Legacy.spec_headers spec with
          | Own maker => maker
          | Missing => Legacy.client_headers this
          end
          (read (Legacy.spec_body spec))
          (read (Legacy.spec_response spec))
          match Legacy.spec_error spec with
          | Own maker => maker
          | Missing => Legacy.client_error this
          end
          (read (Legacy.spec_filterStatusOk spec)) in
      Legacy.Client_post this spec = Legacy.make (route POST) /\
      Legacy.Client_put this spec = Legacy.make (route PUT) /\
      Legacy.Client_del this spec = Legacy.make (route DELETE)) /\
  (forall (this : Legacy.Client) (spec : Legacy.GetRouteSpec),
      Legacy.Client_get this spec =
      Legacy.make
        (Legacy.mkRoute (Legacy.gspec_url spec) GET
           match Legacy.gspec_headers spec with
           | Own maker => maker
           | Missing => Legacy.client_headers this
           end
           None
           (read (Legacy.gspec_response spec))
           match Legacy.gspec_error spec with
           | Own maker => maker
           | Missing => Legacy.client_error this
           end
           (read (Legacy.gspec_filterStatusOk spec)))).
Proof.
  split_and!.
  - intros this [url [|headers] body response [|error]]; by repeat split.
  - intros this [url [|headers] response [|error]]; reflexivity.
  - intros this [url [|headers] body response [|error] filter]; by repeat split.
  - intros this [url [|headers] response [|error] filter]; reflexivity.
Qed.

End ClientClaims.

(** ** The claims on the request body and the header set *)

Section BodyClaims.
Context `{Platform}.

(** The body of the request that is assembled is what [getBody] returned. *)
Lemma make_request_body (spec : Modular.Route) params t0 request :
  Modular.make_request spec params = (t0, Success request) ->
  exit (Modular.getBody spec params) = Success (req_body request).
Proof.
  unfold Modular.make_request, mbind, Effect_bind, mret, Effect_ret.
  rewrite flatMap_run.
  destruct (Modular.route_url spec); unfold succeed, call;
    cbn [calls exit fst snd]; rewrite flatMap_run;
    destruct (Modular.getHeaders spec params) as [th [h|e|d]]; cbn [calls exit fst snd];
    try discriminate; rewrite flatMap_run;
    destruct (Modular.getBody spec params) as [tb [[b|]|e|d]]; cbn [calls exit fst snd];
    try discriminate; cbn; intros Heq; by simplify_eq.
Qed.

Lemma legacy_make_request_body (spec : Legacy.Route) params t0 request :
  Legacy.make_request spec params = (t0, Success request) ->
  exit (Legacy.getBody spec params) = Success (req_body request).
Proof.
  unfold Legacy.make_request, mbind, Effect_bind, mret, Effect_ret.
  rewrite flatMap_run.
  unfold succeed.
  destruct (Legacy.make_url spec params) as [tu [u|e|d]]; cbn [calls exit fst snd];
    try discriminate; rewrite flatMap_run;
    destruct (Legacy.getHeaders spec params) as [th [h|e|d]]; cbn [calls exit fst snd];
    try discriminate; rewrite flatMap_run;
    destruct (Legacy.getBody spec params) as [tb [[b|]|e|d]]; cbn [calls exit fst snd];
    try discriminate; destruct u as [url|fn]; cbn; intros Heq; by simplify_eq.
Qed.

(** The body of a request that is dispatched is what [getBody] returned. *)
Lemma dispatched_body (spec : Modular.Route) params t request :
  Execute request ∈ calls (Modular.make spec params (HttpClient.fromTransport t)) ->
  exit (Modular.getBody spec params) = Success (req_body request).
Proof.
  rewrite make_split, (pipeline_run _ _ _ (fromTransport_calls t)).
  pose proof (make_request_calls spec params) as Hprep.
  pose proof (make_respond_calls spec) as Hresp.
  pose proof (make_request_body spec params) as Hbody.
  destruct (Modular.make_request spec params) as [t0 [request0|e0|d0]];
    cbn [calls fst] in Hprep;
    [specialize (Hbody t0 request0 eq_refl);
     destruct (exit (HttpClient.fromTransport t request0)) as [response0|e0|d0]|..];
    cbn [calls fst]; intros Hin.
  all: try (by apply not_dispatched in Hin).
  all: apply dispatched_unique in Hin; [by subst request|done|(done || constructor)].
Qed.

Lemma legacy_dispatched_body (spec : Legacy.Route) params t request :
  Execute request ∈ calls (Legacy.make spec params (HttpClient.fromTransport t)) ->
  exit (Legacy.getBody spec params) = Success (req_body request).
Proof.
  rewrite legacy_make_split, (pipeline_run _ _ _ (legacy_make_client_calls spec t)).
  pose proof (legacy_make_request_calls spec params) as Hprep.
  pose proof (legacy_make_respond_calls spec) as Hresp.
  pose proof (legacy_make_request_body spec params) as Hbody.
  destruct (Legacy.make_request spec params) as [t0 [request0|e0|d0]];
    cbn [calls fst] in Hprep;
    [specialize (Hbody t0 request0 eq_refl);
     destruct (exit (Legacy.make_client spec (HttpClient.fromTransport t) request0))
       as [response0|e0|d0]|..];
    cbn [calls fst]; intros Hin.
  all: try (by apply not_dispatched in Hin).
  all: apply dispatched_unique in Hin; [by subst request|done|(done || constructor)].
Qed.

(** C5. The body policy of [getBody], in the modular tree and in the
    legacy module; what [getBody] returns is the body of any request the
    invocation dispatches. A Static Value maker: the fixed value is encoded
    with the fixed codec, whatever the parameters. Otherwise, with no Input
    Maker, with no parameters, or with parameters that have no [body]
    property: no body, and no call to the codec or to a custom function.
    Otherwise a custom function is called once on the [body] property and
    gives the payload, and a Declarative Codec maker encodes the [body]
    property. In the two codec cases the payload is [HttpBody.json] of the
    effect object the encoder returned, not of the encoded value: whether
    the encoder accepted the value has no influence on whether a body is
    sent. *)
Theorem body_policy :
  (forall (spec : Modular.Route) params,
      (forall t request,
          Execute request ∈ calls (Modular.make spec params (HttpClient.fromTransport t)) ->
          exit (Modular.getBody spec params) = Success (req_body request)) /\
      (forall schema value,
          Modular.route_body spec = Some (Modular.Input_Value schema value) ->
          Modular.getBody spec params =
          ([InputEncode schema value],
           Exit_map Some (HttpBody_json (EffectObject (Schema_encode schema value))))) /\
      (Modular.route_body spec = None -> Modular.getBody spec params = ([], Success None)) /\
      ((forall schema value,
           Modular.route_body spec <> Some (Modular.Input_Value schema value)) ->
       (forall p, params = Some p -> Modular.params_body p = None) ->
       Modular.getBody spec params = ([], Success None)) /\
      (forall schema p arg,
          Modular.route_body spec = Some (Modular.Input_Schema schema) ->
          params = Some p -> Modular.params_body p = Some arg ->
          Modular.getBody spec params =
          ([InputEncode schema arg],
           Exit_map Some (HttpBody_json (EffectObject (Schema_encode schema arg))))) /\
      (forall fn p arg,
          Modular.route_body spec = Some (Modular.Input_Fn fn) ->
          params = Some p -> Modular.params_body p = Some arg ->
          Modular.getBody spec params = ([InputFnCall arg], Exit_map Some (fn arg)))) /\
  (forall (spec : Legacy.Route) params,
      (forall t request,
          Execute request ∈ calls (Legacy.make spec params (HttpClient.fromTransport t)) ->
          exit (Legacy.getBody spec params) = Success (req_body request)) /\
      (forall schema data,
          Legacy.route_body spec = Some (Legacy.StaticBody schema data) ->
          Legacy.getBody spec params =
          ([InputEncode schema data],
           Exit_map Some (HttpBody_json (EffectObject (Schema_encode schema data))))) /\
      (Legacy.route_body spec = None -> Legacy.getBody spec params = ([], Success None)) /\
      ((forall schema data,
           Legacy.route_body spec <> Some (Legacy.StaticBody schema data)) ->
       (forall p, params = Some p -> Legacy.params_body p = None) ->
       Legacy.getBody spec params = ([], Success None)) /\
      (forall schema p arg,
          Legacy.route_body spec = Some (Legacy.InputSchema schema) ->
          params = Some p -> Legacy.params_body p = Some arg ->
          Legacy.getBody spec params =
          ([InputEncode schema arg],
           Exit_map Some (HttpBody_json (EffectObject (Schema_encode schema arg))))) /\
      (forall fn p arg,
          Legacy.route_body spec = Some (Legacy.InputFn fn) ->
          params = Some p -> Legacy.params_body p = Some arg ->
          Legacy.getBody spec params = ([InputFnCall arg], Exit_map Some (fn arg)))).
Proof.
  split; intros spec params; split_and!.
  - apply dispatched_body.
  - intros schema value E. unfold Modular.getBody, Modular.parseBody. rewrite E. eff_unfold.
    by destruct (HttpBody_json _).
  - intros E. unfold Modular.getBody. by rewrite E.
  - intros Hstatic Hnone. unfold Modular.getBody.
    assert (Modular.param params Modular.params_body = None) as ->
      by (destruct params as [p|]; [exact (Hnone p eq_refl)|done]).
    destruct (Modular.route_body spec) as [[schema value|schema|fn]|]; try reflexivity.
    by destruct (Hstatic schema value).
  - intros schema p arg E -> Hp. unfold Modular.getBody, Modular.parseBody.
    rewrite E. cbn [Modular.param]. rewrite Hp. eff_unfold. by destruct (HttpBody_json _).
  - intros fn p arg E -> Hp. unfold Modular.getBody.
    rewrite E. cbn [Modular.param]. rewrite Hp. eff_unfold. by destruct (fn arg).
  - apply legacy_dispatched_body.
  - intros schema value E. unfold Legacy.getBody, Legacy.parseBody. rewrite E. eff_unfold.
    by destruct (HttpBody_json _).
  - intros E. unfold Legacy.getBody. by rewrite E.
  - intros Hstatic Hnone. unfold Legacy.getBody.
    assert (Legacy.param params Legacy.params_body = None) as ->
      by (destruct params as [p|]; [exact (Hnone p eq_refl)|done]).
    destruct (Legacy.route_body spec) as [[schema value|schema|fn]|]; try reflexivity.
    by destruct (Hstatic schema value).
  - intros schema p arg E -> Hp. unfold Legacy.getBody, Legacy.parseBody.
    rewrite E. cbn [Legacy.param]. rewrite Hp. eff_unfold. by destruct (HttpBody_json _).
  - intros fn p arg E -> Hp. unfold Legacy.getBody.
    rewrite E. cbn [Legacy.param]. rewrite Hp. eff_unfold. by destruct (fn arg).
Qed.

End BodyClaims.

Section BodyWitness.
Import Sample.

(** A to-do item sent through [createTodo]: the payload is the JSON of the
    effect object, not of the encoded item; and a body the codec rejects is
    sent all the same, as the JSON of the effect object that holds the
    rejection. *)
Lemma body_policy_witness :
  (Modular.getBody createTodo (withBody todo) =
     ([InputEncode Todo todo], Success (Some (JsonPayload (EffectObject (Success todo))))) /\
   exit (Modular.getBody createTodo (withBody todo)) <>
     Success (Some (JsonPayload (Data todo))) /\
   (let run := Modular.make createTodo (withBody (Num 42))
                 (HttpClient.fromTransport (always (respond 201 todo))) in
    (exists request,
        Execute request ∈ calls run /\
        req_body request = Some (JsonPayload (EffectObject (Failure (Str "ParseError"))))) /\
    exit run = Success (Modular.OutputValue todo)) /\
   Modular.getBody createTodo None = ([], Success None)) /\
  (Legacy.getBody legacyCreateTodo (legacyWithBody todo) =
     ([InputEncode Todo todo], Success (Some (JsonPayload (EffectObject (Success todo))))) /\
   exit (Legacy.getBody legacyCreateTodo (legacyWithBody todo)) <>
     Success (Some (JsonPayload (Data todo))) /\
   (let run := Legacy.make legacyCreateTodo (legacyWithBody (Num 42))
                 (HttpClient.fromTransport (always (respond 201 todo))) in
    (exists request,
        Execute request ∈ calls run /\
        req_body request = Some (JsonPayload (EffectObject (Failure (Str "ParseError"))))) /\
    exit run = Success (Legacy.OutputValue todo)) /\
   Legacy.getBody legacyCreateTodo None = ([], Success None)).
Proof.
  destruct (body_policy (H := platform)) as [Hm Hl]. split.
  - destruct (Hm createTodo (withBody todo)) as (_ & _ & _ & _ & Hschema & _).
    specialize (Hschema Todo _ todo eq_refl eq_refl eq_refl).
    split_and!.
    + exact Hschema.
    + rewrite Hschema. discriminate.
    + split; [|reflexivity]. eexists. split; [in_calls|reflexivity].
    + destruct (Hm createTodo None) as (_ & _ & _ & Habsent & _).
      apply Habsent; [discriminate|intros p Hp; discriminate Hp].
  - destruct (Hl legacyCreateTodo (legacyWithBody todo)) as (_ & _ & _ & _ & Hschema & _).
    specialize (Hschema Todo _ todo eq_refl eq_refl eq_refl).
    split_and!.
    + exact Hschema.
    + rewrite Hschema. discriminate.
    + split; [|reflexivity]. eexists. split; [in_calls|reflexivity].
    + destruct (Hl legacyCreateTodo None) as (_ & _ & _ & Habsent & _).
      apply Habsent; [discriminate|intros p Hp; discriminate Hp].
Defined.

End BodyWitness.

Section HeaderClaims.
Context `{Platform}.

(** The library's lookup is case-insensitive on header sets it built. *)
Lemma fromInput_lookup (input : list (string * string)) (acc : gmap string string) (x : string) :
  fold_left (fun out kv => <[toLowerCase (fst kv) := snd kv]> out) input acc !! x = None <->
  acc !! x = None /\ forall k v, (k, v) ∈ input -> toLowerCase k <> x.
Proof.
  revert acc. induction input as [|[k v] input IH]; intros acc; simpl.
  - split; [intros Hacc; split; [done|]|tauto]. intros k v Hin. by apply elem_of_nil in Hin.
  - rewrite IH. rewrite lookup_insert_None. split.
    + intros [[Hacc Hk] Hrest]. split; [done|]. intros k' v' Hin.
      apply elem_of_cons in Hin as [Heq|Hin]; [by simplify_eq|by eapply Hrest].
    + intros [Hacc Hall]. split_and!; [done| |].
      * apply (Hall k v). apply elem_of_cons. by left.
      * intros k' v' Hin. apply (Hall k' v'). apply elem_of_cons. by right.
Qed.

Lemma fromInput_get_None (key : string) (input : list (string * string)) :
  Headers.get key (Headers.fromInput input) = None <->
  forall k v, (k, v) ∈ input -> toLowerCase k <> toLowerCase key.
Proof.
  unfold Headers.get, Headers.fromInput. rewrite fromInput_lookup, lookup_empty. tauto.
Qed.

Lemma get_set (key value : string) (headers : gmap string string) :
  Headers.get key (Headers.set key value headers) = Some value.
Proof. unfold Headers.get, Headers.set. apply lookup_insert_eq. Qed.

(** C3. After the header set is obtained, when the library's lookup finds
    no [Content-Type] entry in it, [getHeaders] sets
    [Content-Type: application/json] exactly when the Input Maker is
    JSON-encodable: a Static Value or a Declarative Codec in the modular
    tree, a Declarative Codec only in the legacy module, where a static body
    sets nothing. Otherwise the header set is returned as obtained. The
    lookup finds nothing in a header set with no entry named content-type
    in any letter case, and, on the header sets the library builds, only in
    those. *)
Theorem content_type_auto_injection :
  (forall (spec : Modular.Route) params t headers,
      Modular.getHeaders_gen spec params = (t, Success headers) ->
      Headers.get "Content-Type" headers = None ->
      let result :=
        match Modular.route_body spec with
        | Some (Modular.Input_Value _ _) | Some (Modular.Input_Schema _) =>
            Headers.set "Content-Type" "application/json" headers
        | Some (Modular.Input_Fn _) | None => headers
        end in
      Modular.getHeaders spec params = (t, Success result) /\
      Headers.get "Content-Type" result =
        match Modular.route_body spec with
        | Some (Modular.Input_Value _ _) | Some (Modular.Input_Schema _) =>
            Some "application/json"
        | Some (Modular.Input_Fn _) | None => None
        end) /\
  (forall (spec : Legacy.Route) params t headers,
      Legacy.getHeaders_gen spec params = (t, Success headers) ->
      Headers.get "Content-Type" (ownEntries headers) = None ->
      let result :=
        match Legacy.route_body spec with
        | Some (Legacy.InputSchema _) =>
            HeadersRecord (Headers.set "Content-Type" "application/json" (ownEntries headers))
        | Some (Legacy.StaticBody _ _) | Some (Legacy.InputFn _) | None => headers
        end in
      Legacy.getHeaders spec params = (t, Success result) /\
      Headers.get "Content-Type" (ownEntries result) =
        match Legacy.route_body spec with
        | Some (Legacy.InputSchema _) => Some "application/json"
        | Some (Legacy.StaticBody _ _) | Some (Legacy.InputFn _) | None => None
        end) /\
  (forall headers : Headers,
      (forall k, toLowerCase k = "content-type" -> headers !! k = None) ->
      Headers.get "Content-Type" headers = None) /\
  (forall input : list (string * string),
      Headers.get "Content-Type" (Headers.fromInput input) = None <->
      forall k v, (k, v) ∈ input -> toLowerCase k <> "content-type").
Proof.
  split_and!; [| |intros headers Hnone; by apply Hnone|].
  - intros spec params t headers Hgen Hct result. subst result.
    unfold Modular.getHeaders, Modular.getHeaders_contentType.
    rewrite Hgen, flatMap_run, Hct. cbn [truthy negb andb].
    destruct (Modular.route_body spec) as [[schema value|schema|fn]|];
      cbn [Modular.jsonInput calls exit succeed fst snd]; rewrite app_nil_r;
      (split; [reflexivity|]); try apply get_set; exact Hct.
  - intros spec params t headers Hgen Hct result. subst result.
    unfold Legacy.getHeaders, Legacy.getHeaders_contentType.
    rewrite Hgen, flatMap_run, Hct. cbn [truthy negb andb].
    destruct (Legacy.route_body spec) as [[schema value|schema|fn]|];
      cbn [Legacy.isSchema calls exit succeed fst snd ownEntries]; rewrite app_nil_r;
      (split; [reflexivity|]); try apply get_set; exact Hct.
  - intros input. apply (fromInput_get_None "Content-Type").
Qed.

(** Without a [headers] property the whole run makes no call to the
    header function. *)
Lemma pipeline_calls {R} (P : Call -> Prop) prepare client (respond : HttpClientResponse -> Effect R) :
  Forall P (calls prepare) ->
  (forall request, Forall P (calls (client request))) ->
  (forall response, Forall P (calls (respond response))) ->
  Forall P (calls (pipeline prepare client respond)).
Proof.
  intros Hp Hc Hr. unfold pipeline. apply flatMap_calls; [done|].
  intros request. by apply flatMap_calls.
Qed.

Lemma modular_headers_fn_not_called (spec : Modular.Route) fn params t :
  Modular.route_headers spec = Some (Modular.Headers_Fn fn) ->
  Modular.param params Modular.params_headers = None ->
  List.filter isHeadersFnCall (calls (Modular.make spec params (HttpClient.fromTransport t))) = [].
Proof.
  intros Hh Hp. apply filter_none. rewrite make_split. apply pipeline_calls.
  - unfold Modular.make_request, mbind, Effect_bind, mret, Effect_ret.
    apply flatMap_calls; [destruct (Modular.route_url spec); by repeat constructor|].
    intros url. apply flatMap_calls.
    + unfold Modular.getHeaders, Modular.getHeaders_gen, Modular.getHeaders_contentType.
      rewrite Hh, Hp. unfold succeed. cbn [flatMap].
      destruct (_ && _); cbn [calls fst app]; constructor.
    + intros headers. apply flatMap_calls; [|intros body; constructor].
      eapply Forall_impl; [apply getBody_calls|]. by intros c (_ & _ & Hc).
  - intros request. by repeat constructor.
  - intros response. eapply Forall_impl; [apply make_respond_calls|]. by intros [].
Qed.

Lemma legacy_headers_fn_not_called (spec : Legacy.Route) fn params t :
  Legacy.route_headers spec = Some (HeadersFunction fn) ->
  Legacy.param params Legacy.params_headers = None ->
  List.filter isHeadersFnCall (calls (Legacy.make spec params (HttpClient.fromTransport t))) = [].
Proof.
  intros Hh Hp. apply filter_none. rewrite legacy_make_split. apply pipeline_calls.
  - unfold Legacy.make_request, mbind, Effect_bind, mret, Effect_ret.
    apply flatMap_calls; [unfold Legacy.make_url; run_cases; by repeat constructor|].
    intros url. apply flatMap_calls.
    + unfold Legacy.getHeaders, Legacy.getHeaders_gen, Legacy.getHeaders_contentType.
      rewrite Hh, Hp. unfold succeed. cbn [flatMap].
      destruct (_ && _); cbn [calls fst app]; constructor.
    + intros headers. apply flatMap_calls;
        [|intros body; rewrite request_made_calls; constructor].
      eapply Forall_impl; [apply legacy_getBody_calls|]. by intros c (_ & _ & Hc).
  - intros request. rewrite legacy_make_client_calls. by repeat constructor.
  - intros response. eapply Forall_impl; [apply legacy_make_respond_calls|]. by intros [].
Qed.

End HeaderClaims.

Section HeaderWitnesses.
Import Sample.

Lemma content_type_auto_injection_witness :
  Modular.getHeaders createTodo (withKey "k") =
    ([HeadersFnCall (Str "k")],
     Success (Headers.set "Content-Type" "application/json"
                (Headers.fromInput [("X-Api-Key", "k")]))) /\
  Legacy.getHeaders legacyPutTodo None = ([], Success (HeadersRecord Headers.empty)).
Proof.
  destruct (content_type_auto_injection (H := platform)) as (Hm & Hl & _ & _). split.
  - exact (proj1 (Hm createTodo (withKey "k") [HeadersFnCall (Str "k")]
                    (Headers.fromInput [("X-Api-Key", "k")]) eq_refl eq_refl)).
  - exact (proj1 (Hl legacyPutTodo None [] (HeadersRecord Headers.empty) eq_refl eq_refl)).
Defined.

End HeaderWitnesses.

(** ** Runs of the engines on the sample platform *)

Section Runs.
Import Sample.

(** A relative url is prefixed and the bearer token is set; an absolute
    url is left as it is. *)
Example layer_prefixes_relative_url :
  Modular.layer apiConfig (HttpClient.fromTransport (always (respond 200 todo)))
    (mkRequest GET (UrlString "/todos") Headers.empty None) =
  ([Execute (mkRequest GET (UrlString "https://api.example.com/todos")
               (Headers.fromInput [("Authorization", "Bearer tok")]) None)],
   Success (respond 200 todo)).
Proof. reflexivity. Qed.

Example layer_keeps_absolute_url :
  Modular.layer apiConfig (HttpClient.fromTransport (always (respond 200 todo)))
    (mkRequest GET (UrlString "https://ext.example.com/x") Headers.empty None) =
  ([Execute (mkRequest GET (UrlString "https://ext.example.com/x")
               (Headers.fromInput [("Authorization", "Bearer tok")]) None)],
   Success (respond 200 todo)).
Proof. reflexivity. Qed.

(** A route built by a client without overrides uses both defaults; an
    [error] override replaces the default Error Maker and keeps the default
    header set. *)
Example client_defaults :
  Modular.Client_post apiClient
    (Modular.mkMethodMakerSpec (Modular.MakerUrlValue "/todos") Missing Missing Missing Missing) =
  Modular.make
    (Modular.mkRoute POST (Modular.Url_Value "/todos")
       (Some (Modular.Headers_Value (Headers.fromInput [("Accept", "text/plain")])))
       None None (Some (Modular.Error_Schema ApiError))).
Proof. reflexivity. Qed.

Example client_error_override :
  Modular.Client_get apiClient
    (Modular.mkGetMakerSpec (Modular.MakerUrlValue "/todos") Missing Missing
       (Own (Some (Modular.MakerErrorFn statusMessage)))) =
  Modular.make
    (Modular.mkRoute GET (Modular.Url_Value "/todos")
       (Some (Modular.Headers_Value (Headers.fromInput [("Accept", "text/plain")])))
       None None (Some (Modular.Error_Fn statusMessage))).
Proof. reflexivity. Qed.

End Runs.

(** * Further properties of the engines *)

(** ** Runs, stage by stage *)

Section RunEquations.
Context `{Platform}.

Lemma modular_request_run (spec : Modular.Route) params :
  Modular.make_request spec params =
  match Modular.getHeaders spec params with
  | (th, Success headers) =>
      match Modular.getBody spec params with
      | (tb, Success body) =>
          (modularUrlCalls spec params ++ th ++ tb,
           Success (assemble (Modular.route_method spec) (modularUrl spec params)
                      (HeadersRecord headers) body))
      | (tb, Failure e) => (modularUrlCalls spec params ++ th ++ tb, Failure e)
      | (tb, Die d) => (modularUrlCalls spec params ++ th ++ tb, Die d)
      end
  | (th, Failure e) => (modularUrlCalls spec params ++ th, Failure e)
  | (th, Die d) => (modularUrlCalls spec params ++ th, Die d)
  end.
Proof.
  unfold Modular.make_request, modularUrlCalls, modularUrl, mbind, Effect_bind, mret, Effect_ret.
  rewrite flatMap_run.
  destruct (Modular.route_url spec) as [url|fn]; unfold succeed, call; cbn [calls exit fst snd].
  all: rewrite flatMap_run;
    destruct (Modular.getHeaders spec params) as [th [h|e|d]]; cbn [calls exit fst snd];
    try reflexivity.
  all: rewrite flatMap_run;
    destruct (Modular.getBody spec params) as [tb [b|e|d]]; cbn [calls exit fst snd];
    rewrite ?app_nil_r; reflexivity.
Qed.

Lemma modular_run (spec : Modular.Route) params t :
  Modular.make spec params (HttpClient.fromTransport t) =
  match Modular.make_request spec params with
  | (t0, Success request) =>
      match t request with
      | Success response =>
          (t0 ++ Execute request :: calls (Modular.make_respond spec response),
           exit (Modular.make_respond spec response))
      | Failure e => (t0 ++ [Execute request], Failure e)
      | Die d => (t0 ++ [Execute request], Die d)
      end
  | (t0, Failure e) => (t0, Failure e)
  | (t0, Die d) => (t0, Die d)
  end.
Proof. rewrite make_split. apply (pipeline_run _ _ _ (fromTransport_calls t)). Qed.

Lemma legacy_make_url_run (spec : Legacy.Route) params :
  exists tu url,
    Legacy.make_url spec params = (tu, Success url) /\
    Forall (fun c => isUrlFnCall c = true) tu.
Proof.
  unfold Legacy.make_url.
  destruct (Legacy.route_url spec) as [url|fn];
    [|destruct (Legacy.param params Legacy.params_url) as [arg|]];
    eexists _, _; (split; [reflexivity|by repeat constructor]).
Qed.

Lemma legacy_request_run (spec : Legacy.Route) params tu url :
  Legacy.make_url spec params = (tu, Success url) ->
  Legacy.make_request spec params =
  match Legacy.getHeaders spec params with
  | (th, Success headers) =>
      match Legacy.getBody spec params with
      | (tb, Success body) =>
          (tu ++ th ++ tb, legacyAssemble (Legacy.route_method spec) url headers body)
      | (tb, Failure e) => (tu ++ th ++ tb, Failure e)
      | (tb, Die d) => (tu ++ th ++ tb, Die d)
      end
  | (th, Failure e) => (tu ++ th, Failure e)
  | (th, Die d) => (tu ++ th, Die d)
  end.
Proof.
  intros Hu. unfold Legacy.make_request, mbind, Effect_bind, mret, Effect_ret.
  rewrite Hu, flatMap_run. unfold succeed. cbn [calls exit fst snd].
  rewrite flatMap_run;
    destruct (Legacy.getHeaders spec params) as [th [h|e|d]]; cbn [calls exit fst snd];
    try reflexivity.
  rewrite flatMap_run;
    destruct (Legacy.getBody spec params) as [tb [b|e|d]]; cbn [calls exit fst snd];
    rewrite ?app_nil_r; try reflexivity.
  destruct url as [url|fn]; cbn; by rewrite ?app_nil_r.
Qed.

Lemma legacy_run (spec : Legacy.Route) params t :
  Legacy.make spec params (HttpClient.fromTransport t) =
  match Legacy.make_request spec params with
  | (t0, Success request) =>
      match exit (Legacy.make_client spec (HttpClient.fromTransport t) request) with
      | Success response =>
          (t0 ++ Execute request :: calls (Legacy.make_respond spec response),
           exit (Legacy.make_respond spec response))
      | Failure e => (t0 ++ [Execute request], Failure e)
      | Die d => (t0 ++ [Execute request], Die d)
      end
  | (t0, Failure e) => (t0, Failure e)
  | (t0, Die d) => (t0, Die d)
  end.
Proof. rewrite legacy_make_split. apply (pipeline_run _ _ _ (legacy_make_client_calls spec t)). Qed.

Lemma isPrepare_not_execute c : isPrepare c = true -> isExecute c = false.
Proof. by destruct c. Qed.

Lemma isRespond_not_execute c : isRespond c = true -> isExecute c = false.
Proof. by destruct c. Qed.

End RunEquations.

(** ** One dispatch, in order *)

Section Dispatch.
Context `{Platform}.

Lemma filter_app_none (f : Call -> bool) (l1 l2 : list Call) :
  Forall (fun c => f c = false) l1 -> List.filter f (l1 ++ l2) = List.filter f l2.
Proof. intros Hl. by rewrite List.filter_app, filter_none. Qed.

Lemma execute_calls_of_run (t0 t2 : list Call) request :
  Forall (fun c => isPrepare c = true) t0 ->
  Forall (fun c => isRespond c = true) t2 ->
  List.filter isExecute t0 = [] /\
  List.filter isExecute (t0 ++ Execute request :: t2) = [Execute request].
Proof.
  intros H0 H2.
  assert (Forall (fun c => isExecute c = false) t0) as H0'.
  { eapply Forall_impl; [exact H0|]. apply isPrepare_not_execute. }
  split; [by apply filter_none|].
  rewrite filter_app_none by done. simpl. rewrite filter_none; [done|].
  eapply Forall_impl; [exact H2|]. apply isRespond_not_execute.
Qed.

(** A run dispatches at most one request, and succeeds only when it
    dispatched one that the transport answered. *)
Theorem make_dispatches_at_most_once :
  (forall (spec : Modular.Route) params t,
      let run := Modular.make spec params (HttpClient.fromTransport t) in
      (length (List.filter isExecute (calls run)) <= 1)%nat /\
      forall result, exit run = Success result ->
        exists request response,
          List.filter isExecute (calls run) = [Execute request] /\
          t request = Success response) /\
  (forall (spec : Legacy.Route) params t,
      let run := Legacy.make spec params (HttpClient.fromTransport t) in
      (length (List.filter isExecute (calls run)) <= 1)%nat /\
      forall result, exit run = Success result ->
        exists request response,
          List.filter isExecute (calls run) = [Execute request] /\
          t request = Success response).
Proof.
  split; intros spec params t run; subst run.
  - rewrite modular_run.
    pose proof (make_request_calls spec params) as Hprep.
    pose proof (make_respond_calls spec) as Hresp.
    destruct (Modular.make_request spec params) as [t0 [request0|e0|d0]];
      cbn [calls fst] in Hprep;
      [destruct (t request0) as [response0|e1|d1] eqn:Ht0|..]; cbn [calls exit fst snd].
    all: try (destruct (execute_calls_of_run t0 [] request0 Hprep ltac:(constructor))
                as [_ ->]; split; [simpl; lia|discriminate]).
    all: try (rewrite (filter_none isExecute t0)
                by (eapply Forall_impl; [exact Hprep|]; apply isPrepare_not_execute);
              split; [simpl; lia|discriminate]).
    destruct (execute_calls_of_run t0 _ request0 Hprep (Hresp response0)) as [_ ->].
    split; [simpl; lia|]. intros result _. by exists request0, response0.
  - rewrite legacy_run.
    pose proof (legacy_make_request_calls spec params) as Hprep.
    pose proof (legacy_make_respond_calls spec) as Hresp.
    destruct (Legacy.make_request spec params) as [t0 [request0|e0|d0]];
      cbn [calls fst] in Hprep;
      [rewrite legacy_make_client_exit;
       destruct (Legacy.filterStatusOk spec);
       destruct (t request0) as [response0|e1|d1] eqn:Ht0;
       [destruct (notOk (status response0))|..]|..]; cbn [calls exit fst snd].
    all: try (destruct (execute_calls_of_run t0 [] request0 Hprep ltac:(constructor))
                as [_ ->]; split; [simpl; lia|discriminate]).
    all: try (rewrite (filter_none isExecute t0)
                by (eapply Forall_impl; [exact Hprep|]; apply isPrepare_not_execute);
              split; [simpl; lia|discriminate]).
    all: destruct (execute_calls_of_run t0 _ request0 Hprep (Hresp response0)) as [_ ->];
      (split; [simpl; lia|]); intros result _; by exists request0, response0.
Qed.

(** A failure of the transport is the failure of the run, and neither the
    Error Maker nor the Output Maker is used. *)
Theorem transport_failure_propagates :
  (forall (spec : Modular.Route) params t request e,
      let run := Modular.make spec params (HttpClient.fromTransport t) in
      Execute request ∈ calls run -> t request = Failure e ->
      exit run = Failure e /\ List.filter isRespond (calls run) = []) /\
  (forall (spec : Legacy.Route) params t request e,
      let run := Legacy.make spec params (HttpClient.fromTransport t) in
      Execute request ∈ calls run -> t request = Failure e ->
      exit run = Failure e /\ List.filter isRespond (calls run) = []).
Proof.
  split; intros spec params t request e run; subst run.
  - rewrite modular_run.
    pose proof (make_request_calls spec params) as Hprep.
    pose proof (make_respond_calls spec) as Hresp.
    destruct (Modular.make_request spec params) as [t0 [request0|e0|d0]];
      cbn [calls fst] in Hprep;
      [destruct (t request0) as [response0|e1|d1] eqn:Ht0|..]; cbn [calls exit fst snd].
    all: intros Hin Ht; try (by apply not_dispatched in Hin).
    all: apply dispatched_unique in Hin; [|done|(done || constructor)]; subst request;
      rewrite Ht0 in Ht; simplify_eq.
    split; [reflexivity|]. apply filter_none, Forall_app_2; [|by repeat constructor].
    eapply Forall_impl; [exact Hprep|]. by intros [].
  - rewrite legacy_run.
    pose proof (legacy_make_request_calls spec params) as Hprep.
    pose proof (legacy_make_respond_calls spec) as Hresp.
    destruct (Legacy.make_request spec params) as [t0 [request0|e0|d0]];
      cbn [calls fst] in Hprep;
      [rewrite legacy_make_client_exit;
       destruct (Legacy.filterStatusOk spec);
       destruct (t request0) as [response0|e1|d1] eqn:Ht0;
       [destruct (notOk (status response0))|..]|..]; cbn [calls exit fst snd].
    all: intros Hin Ht; try (by apply not_dispatched in Hin).
    all: apply dispatched_unique in Hin; [|done|(done || constructor)]; subst request;
      rewrite Ht0 in Ht; simplify_eq.
    all: split; [reflexivity|]; apply filter_none, Forall_app_2; [|by repeat constructor];
      (eapply Forall_impl; [exact Hprep|]); by intros [].
Qed.

End Dispatch.

Section Order.
Context `{Platform}.

Lemma ordered_nil lo hi : ordered lo hi [].
Proof. split; constructor. Qed.

Lemma ordered_uniform (k : nat) (l : list Call) :
  Forall (fun c => step c = k) l -> ordered k k l.
Proof.
  induction 1 as [|c l Hc Hl [IH1 IH2]]; [apply ordered_nil|]. split.
  - simpl. constructor; [done|]. apply Forall_fmap.
    eapply Forall_impl; [exact Hl|]. simpl. intros c' Hc'. lia.
  - constructor; [lia|done].
Qed.

Lemma ordered_app lo1 hi1 lo2 hi2 (l1 l2 : list Call) :
  ordered lo1 hi1 l1 -> ordered lo2 hi2 l2 -> (lo1 <= lo2)%nat -> (hi1 <= lo2)%nat ->
  (hi1 <= hi2)%nat -> ordered lo1 hi2 (l1 ++ l2).
Proof.
  intros [S1 B1] [S2 B2] Hlo Hmid Hhi. split.
  - rewrite fmap_app. apply StronglySorted_app_2; [|done..].
    intros x1 x2 Hx1 Hx2.
    apply list_elem_of_fmap in Hx1 as (c1 & -> & Hc1).
    apply list_elem_of_fmap in Hx2 as (c2 & -> & Hc2).
    rewrite Forall_forall in B1. rewrite Forall_forall in B2.
    specialize (B1 c1 Hc1). specialize (B2 c2 Hc2). simpl in *. lia.
  - apply Forall_app_2.
    + eapply Forall_impl; [exact B1|]. simpl. intros c Hc. lia.
    + eapply Forall_impl; [exact B2|]. simpl. intros c Hc. lia.
Qed.

Lemma ordered_weaken lo hi lo' hi' (l : list Call) :
  ordered lo hi l -> (lo' <= lo)%nat -> (hi <= hi')%nat -> ordered lo' hi' l.
Proof.
  intros [S B] Hlo Hhi. split; [done|].
  eapply Forall_impl; [exact B|]. simpl. intros c Hc. lia.
Qed.

Lemma headers_calls_ordered (l : list Call) :
  Forall (fun c => isHeadersFnCall c = true) l -> ordered 1 1 l.
Proof.
  intros Hl. apply ordered_uniform. eapply Forall_impl; [exact Hl|]. by intros [].
Qed.

Lemma body_calls_ordered (l : list Call) :
  Forall (fun c => isPrepare c = true /\ isUrlFnCall c = false /\ isHeadersFnCall c = false) l ->
  ordered 2 2 l.
Proof.
  intros Hl. apply ordered_uniform. eapply Forall_impl; [exact Hl|].
  intros [] (? & ? & ?); done.
Qed.

Lemma url_calls_ordered (l : list Call) :
  Forall (fun c => isUrlFnCall c = true) l -> ordered 0 0 l.
Proof.
  intros Hl. apply ordered_uniform. eapply Forall_impl; [exact Hl|]. by intros [].
Qed.

Lemma modular_request_ordered (spec : Modular.Route) params :
  ordered 0 2 (calls (Modular.make_request spec params)).
Proof.
  rewrite modular_request_run.
  pose proof (headers_calls_ordered _ (getHeaders_calls spec params)) as Hh.
  pose proof (body_calls_ordered _ (getBody_calls spec params)) as Hb.
  assert (ordered 0 0 (modularUrlCalls spec params)) as Hu.
  { apply url_calls_ordered. unfold modularUrlCalls.
    destruct (Modular.route_url spec); by repeat constructor. }
  destruct (Modular.getHeaders spec params) as [th [h|e|d]]; cbn [calls fst] in *.
  2,3: eapply ordered_weaken; [eapply (ordered_app 0 0 1 1); eauto|lia..].
  destruct (Modular.getBody spec params) as [tb [b|e|d]]; cbn [calls fst] in *.
  all: eapply (ordered_app 0 0 1 2); eauto; eapply (ordered_app 1 1 2 2); eauto.
Qed.

Lemma legacy_request_ordered (spec : Legacy.Route) params :
  ordered 0 2 (calls (Legacy.make_request spec params)).
Proof.
  destruct (legacy_make_url_run spec params) as (tu & url & Hu & Htu).
  rewrite (legacy_request_run spec params tu url Hu).
  pose proof (headers_calls_ordered _ (legacy_getHeaders_calls spec params)) as Hh.
  pose proof (body_calls_ordered _ (legacy_getBody_calls spec params)) as Hb.
  apply url_calls_ordered in Htu.
  destruct (Legacy.getHeaders spec params) as [th [h|e|d]]; cbn [calls fst] in *.
  2,3: eapply ordered_weaken; [eapply (ordered_app 0 0 1 1); eauto|lia..].
  destruct (Legacy.getBody spec params) as [tb [b|e|d]]; cbn [calls fst] in *.
  all: eapply (ordered_app 0 0 1 2); eauto; eapply (ordered_app 1 1 2 2); eauto.
Qed.

Lemma modular_respond_ordered (spec : Modular.Route) response :
  ordered 4 5 (calls (Modular.make_respond spec response)).
Proof.
  unfold Modular.make_respond, Modular.getError, Modular.getResponse, Modular.parseResponse.
  run_cases; (split; [repeat constructor|repeat constructor; simpl; lia]).
Qed.

Lemma legacy_respond_ordered (spec : Legacy.Route) response :
  ordered 4 5 (calls (Legacy.make_respond spec response)).
Proof.
  unfold Legacy.make_respond, Legacy.getError, Legacy.getResponse, Legacy.parseResponse.
  run_cases; (split; [repeat constructor|repeat constructor; simpl; lia]).
Qed.

Lemma dispatch_ordered (t0 t2 : list Call) request :
  ordered 0 2 t0 -> ordered 4 5 t2 -> ordered 0 5 (t0 ++ Execute request :: t2).
Proof.
  intros H0 H2. eapply (ordered_app 0 2 3 5); [done| |lia..].
  change (Execute request :: t2) with ([Execute request] ++ t2).
  eapply (ordered_app 3 3 4 5); [|done|lia..].
  apply ordered_uniform. by repeat constructor.
Qed.

(** The steps of an invocation are sequential: in the calls of any run,
    the custom URL function comes before the header function, that before
    the encoding of the body or the body function, that before the
    dispatch, that before the Error Maker, that before the Output Maker. *)
Theorem make_calls_in_order :
  (forall (spec : Modular.Route) params t,
      StronglySorted le
        (step <$> calls (Modular.make spec params (HttpClient.fromTransport t)))) /\
  (forall (spec : Legacy.Route) params t,
      StronglySorted le
        (step <$> calls (Legacy.make spec params (HttpClient.fromTransport t)))).
Proof.
  split; intros spec params t.
  - rewrite modular_run.
    pose proof (modular_request_ordered spec params) as Hreq.
    destruct (Modular.make_request spec params) as [t0 [request0|e0|d0]];
      cbn [calls fst] in Hreq;
      [destruct (t request0) as [response0|e1|d1]|..]; cbn [calls fst].
    all: try apply Hreq.
    all: apply dispatch_ordered; [done|].
    all: first [apply modular_respond_ordered | apply ordered_nil].
  - rewrite legacy_run.
    pose proof (legacy_request_ordered spec params) as Hreq.
    destruct (Legacy.make_request spec params) as [t0 [request0|e0|d0]];
      cbn [calls fst] in Hreq;
      [destruct (exit (Legacy.make_client spec (HttpClient.fromTransport t) request0))
         as [response0|e1|d1]|..]; cbn [calls fst].
    all: try apply Hreq.
    all: apply dispatch_ordered; [done|].
    all: first [apply legacy_respond_ordered | apply ordered_nil].
Qed.

End Order.

(** ** Failures before the dispatch *)

Section PrepareFailures.
Context `{Platform}.

(** A failure of the custom header function is the failure of the run:
    the function was called once, after the url expression, and nothing
    else happened: no body is computed and nothing is dispatched. *)
Theorem header_failure_aborts :
  (forall (spec : Modular.Route) fn params arg t e,
      Modular.route_headers spec = Some (Modular.Headers_Fn fn) ->
      Modular.param params Modular.params_headers = Some arg ->
      fn arg = Failure e ->
      Modular.make spec params (HttpClient.fromTransport t) =
      (modularUrlCalls spec params ++ [HeadersFnCall arg], Failure e)) /\
  (forall (spec : Legacy.Route) fn params arg t e,
      Legacy.route_headers spec = Some (HeadersFunction fn) ->
      Legacy.param params Legacy.params_headers = Some arg ->
      fn arg = Failure e ->
      Legacy.make spec params (HttpClient.fromTransport t) =
      (calls (Legacy.make_url spec params) ++ [HeadersFnCall arg], Failure e)).
Proof.
  split; intros spec fn params arg t e Hh Hp Hfn.
  - rewrite modular_run, modular_request_run.
    unfold Modular.getHeaders, Modular.getHeaders_gen. rewrite Hh, Hp, Hfn. reflexivity.
  - destruct (legacy_make_url_run spec params) as (tu & url & Hu & _).
    rewrite legacy_run, (legacy_request_run spec params tu url Hu), Hu.
    unfold Legacy.getHeaders, Legacy.getHeaders_gen. rewrite Hh, Hp.
    unfold mbind, Effect_bind, call. cbn [flatMap]. rewrite Hfn. reflexivity.
Qed.

(** When the header set was computed and the body computation fails, in
    the making of the JSON payload or in the custom body function, the
    failure is that of the run and nothing is dispatched. *)
Theorem body_failure_aborts :
  (forall (spec : Modular.Route) params t th headers e,
      Modular.getHeaders spec params = (th, Success headers) ->
      exit (Modular.getBody spec params) = Failure e ->
      Modular.make spec params (HttpClient.fromTransport t) =
      (modularUrlCalls spec params ++ th ++ calls (Modular.getBody spec params), Failure e) /\
      List.filter isExecute (calls (Modular.make spec params (HttpClient.fromTransport t))) = []) /\
  (forall (spec : Legacy.Route) params t th headers e,
      Legacy.getHeaders spec params = (th, Success headers) ->
      exit (Legacy.getBody spec params) = Failure e ->
      Legacy.make spec params (HttpClient.fromTransport t) =
      (calls (Legacy.make_url spec params) ++ th ++ calls (Legacy.getBody spec params),
       Failure e) /\
      List.filter isExecute (calls (Legacy.make spec params (HttpClient.fromTransport t))) = []).
Proof.
  split; intros spec params t th headers e Hh Hb.
  - pose proof (make_request_calls spec params) as Hprep.
    rewrite modular_run. rewrite modular_request_run in *. rewrite Hh in *.
    destruct (Modular.getBody spec params) as [tb [b|e'|d]]; cbn [calls exit fst snd] in *;
      simplify_eq.
    split; [reflexivity|]. apply filter_none.
    eapply Forall_impl; [exact Hprep|]. apply isPrepare_not_execute.
  - pose proof (legacy_make_request_calls spec params) as Hprep.
    destruct (legacy_make_url_run spec params) as (tu & url & Hu & _).
    rewrite legacy_run. rewrite (legacy_request_run spec params tu url Hu) in *.
    rewrite Hu, Hh in *.
    destruct (Legacy.getBody spec params) as [tb [b|e'|d]]; cbn [calls exit fst snd] in *;
      simplify_eq.
    split; [reflexivity|]. apply filter_none.
    eapply Forall_impl; [exact Hprep|]. apply isPrepare_not_execute.
Qed.

End PrepareFailures.

(** ** The response stage *)

Section Responses.
Context `{Platform}.

Lemma modular_dispatched (spec : Modular.Route) params t request response :
  Execute request ∈ calls (Modular.make spec params (HttpClient.fromTransport t)) ->
  t request = Success response ->
  exists t0,
    Forall (fun c => isPrepare c = true) t0 /\
    Modular.make spec params (HttpClient.fromTransport t) =
    (t0 ++ Execute request :: calls (Modular.make_respond spec response),
     exit (Modular.make_respond spec response)).
Proof.
  rewrite modular_run.
  pose proof (make_request_calls spec params) as Hprep.
  pose proof (make_respond_calls spec) as Hresp.
  destruct (Modular.make_request spec params) as [t0 [request0|e0|d0]];
    cbn [calls fst] in Hprep;
    [destruct (t request0) as [response0|e1|d1] eqn:Ht0|..]; cbn [calls exit fst snd].
  all: intros Hin Ht; try (by apply not_dispatched in Hin).
  all: apply dispatched_unique in Hin; [|done|(done || constructor)]; subst request;
    rewrite Ht0 in Ht; simplify_eq.
  by exists t0.
Qed.

Lemma legacy_dispatched (spec : Legacy.Route) params t request response :
  Execute request ∈ calls (Legacy.make spec params (HttpClient.fromTransport t)) ->
  t request = Success response ->
  Legacy.filterStatusOk spec = false \/ notOk (status response) = false ->
  exists t0,
    Forall (fun c => isPrepare c = true) t0 /\
    Legacy.make spec params (HttpClient.fromTransport t) =
    (t0 ++ Execute request :: calls (Legacy.make_respond spec response),
     exit (Legacy.make_respond spec response)).
Proof.
  rewrite legacy_run.
  pose proof (legacy_make_request_calls spec params) as Hprep.
  pose proof (legacy_make_respond_calls spec) as Hresp.
  destruct (Legacy.make_request spec params) as [t0 [request0|e0|d0]];
    cbn [calls fst] in Hprep;
    [rewrite legacy_make_client_exit;
     destruct (Legacy.filterStatusOk spec) eqn:Hf;
     destruct (t request0) as [response0|e1|d1] eqn:Ht0;
     [destruct (notOk (status response0)) eqn:Hs|..]|..]; cbn [calls exit fst snd].
  all: intros Hin Ht Hok; try (by apply not_dispatched in Hin).
  all: apply dispatched_unique in Hin; [|done|(done || constructor)]; subst request;
    rewrite Ht0 in Ht; simplify_eq.
  all: try (by exists t0).
  destruct Hok; congruence.
Qed.

Lemma respond_calls_of_run (t0 t2 : list Call) request :
  Forall (fun c => isPrepare c = true) t0 ->
  Forall (fun c => isRespond c = true) t2 ->
  List.filter isRespond (t0 ++ Execute request :: t2) = t2 /\
  (Forall (fun c => isOutputCall c = true) t2 ->
   List.filter isOutputCall (t0 ++ Execute request :: t2) = t2).
Proof.
  intros H0 H2.
  assert (forall l : list Call, forall f,
             Forall (fun c => f c = true) l -> List.filter f l = l) as Hall.
  { intros l f. induction 1 as [|c l Hc _ IH]; [reflexivity|]. simpl. by rewrite Hc, IH. }
  split; [|intros H2'].
  - rewrite filter_app_none; [simpl; by rewrite Hall|].
    eapply Forall_impl; [exact H0|]. by intros [].
  - rewrite filter_app_none; [simpl; by rewrite Hall|].
    eapply Forall_impl; [exact H0|]. by intros [].
Qed.

(** With a status within 200-299 the run resolves the output on the
    response, whatever the Error Maker (and, in the legacy module, whatever
    [filterStatusOk]): its exit and its calls on the response are those of
    [getResponse]; with no Output Maker the success value is the response
    the transport answered with, and no maker is used. *)
Theorem ok_status_resolves_output :
  (forall (spec : Modular.Route) params t request response,
      let run := Modular.make spec params (HttpClient.fromTransport t) in
      Execute request ∈ calls run -> t request = Success response ->
      200 <= status response <= 299 ->
      exit run = exit (Modular.getResponse (Modular.route_response spec) response) /\
      List.filter isRespond (calls run) =
        calls (Modular.getResponse (Modular.route_response spec) response) /\
      (Modular.route_response spec = None ->
       exit run = Success (Modular.RawResponse response) /\
       List.filter isRespond (calls run) = [])) /\
  (forall (spec : Legacy.Route) params t request response,
      let run := Legacy.make spec params (HttpClient.fromTransport t) in
      Execute request ∈ calls run -> t request = Success response ->
      200 <= status response <= 299 ->
      exit run = exit (Legacy.getResponse (Legacy.route_response spec) response) /\
      List.filter isRespond (calls run) =
        calls (Legacy.getResponse (Legacy.route_response spec) response) /\
      (Legacy.route_response spec = None ->
       exit run = Success (Legacy.RawResponse response) /\
       List.filter isRespond (calls run) = [])).
Proof.
  split; intros spec params t request response run Hin Ht Hok; subst run;
    apply notOk_spec in Hok.
  - destruct (modular_dispatched spec params t request response Hin Ht) as (t0 & Hprep & ->).
    cbn [calls exit fst snd].
    destruct (respond_calls_of_run t0 _ request Hprep (make_respond_calls spec response))
      as [-> _].
    rewrite make_respond_skip by auto.
    split_and!; [reflexivity..|]. by intros ->.
  - destruct (legacy_dispatched spec params t request response Hin Ht ltac:(auto))
      as (t0 & Hprep & ->).
    cbn [calls exit fst snd].
    destruct (respond_calls_of_run t0 _ request Hprep (legacy_make_respond_calls spec response))
      as [-> _].
    rewrite legacy_make_respond_skip by auto.
    split_and!; [reflexivity..|]. by intros ->.
Qed.

(** A response that does not decode fails the run even with a status
    within 200-299: with a Declarative Codec as Output Maker, a failure to
    read the body as JSON, or a failure of the decoder on the JSON read, is
    the failure of the run. *)
Theorem output_decoding_failure :
  (forall (spec : Modular.Route) params t request response schema e,
      let run := Modular.make spec params (HttpClient.fromTransport t) in
      Execute request ∈ calls run -> t request = Success response ->
      200 <= status response <= 299 ->
      Modular.route_response spec = Some (Modular.Output_Schema schema) ->
      json response = Failure e \/
      (exists j, json response = Success j /\ Schema_decodeUnknown schema j = Failure e) ->
      exit run = Failure e) /\
  (forall (spec : Legacy.Route) params t request response schema e,
      let run := Legacy.make spec params (HttpClient.fromTransport t) in
      Execute request ∈ calls run -> t request = Success response ->
      200 <= status response <= 299 ->
      Legacy.route_response spec = Some (Legacy.OutputSchema schema) ->
      json response = Failure e \/
      (exists j, json response = Success j /\ Schema_decodeUnknown schema j = Failure e) ->
      exit run = Failure e).
Proof.
  split; intros spec params t request response schema e run Hin Ht Hok Hout Hfail; subst run;
    apply notOk_spec in Hok.
  - destruct (modular_dispatched spec params t request response Hin Ht) as (t0 & Hprep & ->).
    cbn [exit snd]. rewrite make_respond_skip by auto. rewrite Hout.
    unfold Modular.getResponse, Modular.parseResponse. eff_unfold.
    destruct Hfail as [Hj|(j & Hj & Hd)]; rewrite Hj; cbn [fst snd]; [done|by rewrite Hd].
  - destruct (legacy_dispatched spec params t request response Hin Ht ltac:(auto))
      as (t0 & Hprep & ->).
    cbn [exit snd]. rewrite legacy_make_respond_skip by auto. rewrite Hout.
    unfold Legacy.getResponse, Legacy.parseResponse. eff_unfold.
    destruct Hfail as [Hj|(j & Hj & Hd)]; rewrite Hj; cbn [fst snd]; [done|by rewrite Hd].
Qed.

(** A custom output function is called once, on the response the
    transport answered with, when the status is within 200-299; what it
    returns is the exit of the run. *)
Theorem output_function_called_on_response :
  (forall (spec : Modular.Route) params t request response fn,
      let run := Modular.make spec params (HttpClient.fromTransport t) in
      Execute request ∈ calls run -> t request = Success response ->
      200 <= status response <= 299 ->
      Modular.route_response spec = Some (Modular.Output_Fn fn) ->
      List.filter isRespond (calls run) = [OutputFnCall response] /\
      exit run = Exit_map Modular.OutputValue (fn response)) /\
  (forall (spec : Legacy.Route) params t request response fn,
      let run := Legacy.make spec params (HttpClient.fromTransport t) in
      Execute request ∈ calls run -> t request = Success response ->
      200 <= status response <= 299 ->
      Legacy.route_response spec = Some (Legacy.OutputFn fn) ->
      List.filter isRespond (calls run) = [OutputFnCall response] /\
      exit run = Exit_map Legacy.OutputValue (fn response)).
Proof.
  split; intros spec params t request response fn run Hin Ht Hok Hout; subst run;
    apply notOk_spec in Hok.
  - destruct (modular_dispatched spec params t request response Hin Ht) as (t0 & Hprep & ->).
    cbn [calls exit fst snd].
    destruct (respond_calls_of_run t0 _ request Hprep (make_respond_calls spec response))
      as [-> _].
    rewrite make_respond_skip by auto. rewrite Hout.
    unfold Modular.getResponse. eff_unfold. by destruct (fn response).
  - destruct (legacy_dispatched spec params t request response Hin Ht ltac:(auto))
      as (t0 & Hprep & ->).
    cbn [calls exit fst snd].
    destruct (respond_calls_of_run t0 _ request Hprep (legacy_make_respond_calls spec response))
      as [-> _].
    rewrite legacy_make_respond_skip by auto. rewrite Hout.
    unfold Legacy.getResponse. eff_unfold. by destruct (fn response).
Qed.

(** When the Error Maker is a codec and is consulted, an error body that
    cannot be read as JSON, or that the codec does not decode, makes the
    run fail with that failure instead of an error value. *)
Theorem error_decoding_failure :
  (forall (spec : Modular.Route) params t request response schema e,
      let run := Modular.make spec params (HttpClient.fromTransport t) in
      Execute request ∈ calls run -> t request = Success response ->
      ~ (200 <= status response <= 299) ->
      Modular.route_error spec = Some (Modular.Error_Schema schema) ->
      json response = Failure e \/
      (exists j, json response = Success j /\ Schema_decodeUnknown schema j = Failure e) ->
      exit run = Failure e /\
      List.filter isRespond (calls run) = [ErrorDecode schema response]) /\
  (forall (spec : Legacy.Route) params t request response schema e,
      let run := Legacy.make spec params (HttpClient.fromTransport t) in
      Execute request ∈ calls run -> t request = Success response ->
      ~ (200 <= status response <= 299) ->
      Legacy.route_filterStatusOk spec <> Some true ->
      Legacy.route_error spec = Some (Legacy.ErrorSchema schema) ->
      json response = Failure e \/
      (exists j, json response = Success j /\ Schema_decodeUnknown schema j = Failure e) ->
      exit run = Failure e /\
      List.filter isRespond (calls run) = [ErrorDecode schema response]).
Proof.
  split.
  - intros spec params t request response schema e run Hin Ht Hout Herr Hfail; subst run.
    apply notOk_outside in Hout.
    destruct (modular_dispatched spec params t request response Hin Ht) as (t0 & Hprep & ->).
    cbn [calls exit fst snd].
    destruct (respond_calls_of_run t0 _ request Hprep (make_respond_calls spec response))
      as [-> _].
    destruct (make_respond_consult spec _ response Herr Hout) as [-> _].
    unfold Modular.getError, Modular.parseResponse. eff_unfold.
    destruct Hfail as [Hj|(j & Hj & Hd)]; rewrite Hj; cbn [fst snd]; [done|by rewrite Hd].
  - intros spec params t request response schema e run Hin Ht Hout Hoff Herr Hfail; subst run.
    apply notOk_outside in Hout. apply legacy_filter_off in Hoff.
    destruct (legacy_dispatched spec params t request response Hin Ht ltac:(auto))
      as (t0 & Hprep & ->).
    cbn [calls exit fst snd].
    destruct (respond_calls_of_run t0 _ request Hprep (legacy_make_respond_calls spec response))
      as [-> _].
    destruct (legacy_make_respond_consult spec _ response Herr Hoff Hout) as [-> _].
    unfold Legacy.getError, Legacy.parseResponse. eff_unfold.
    destruct Hfail as [Hj|(j & Hj & Hd)]; rewrite Hj; cbn [fst snd]; [done|by rewrite Hd].
Qed.

End Responses.

(** ** The request that is dispatched *)

Section Requests.
Context `{Platform}.

Lemma assemble_fields method url headers body :
  req_method (assemble method url headers body) = method /\
  req_url (assemble method url headers body) = UrlString url /\
  req_body (assemble method url headers body) = body.
Proof. by destruct body. Qed.

Lemma request_of_run :
  (forall (spec : Modular.Route) params t request,
      Execute request ∈ calls (Modular.make spec params (HttpClient.fromTransport t)) ->
      exists headers body,
        exit (Modular.getHeaders spec params) = Success headers /\
        exit (Modular.getBody spec params) = Success body /\
        request = assemble (Modular.route_method spec) (modularUrl spec params)
                    (HeadersRecord headers) body /\
        req_method request = Modular.route_method spec /\
        req_url request = UrlString (modularUrl spec params) /\
        req_body request = body) /\
  (forall (spec : Legacy.Route) params t request,
      Execute request ∈ calls (Legacy.make spec params (HttpClient.fromTransport t)) ->
      exists url headers body,
        exit (Legacy.make_url spec params) = Success (UrlString url) /\
        exit (Legacy.getHeaders spec params) = Success headers /\
        exit (Legacy.getBody spec params) = Success body /\
        request = assemble (Legacy.route_method spec) url headers body /\
        req_method request = Legacy.route_method spec /\
        req_url request = UrlString url /\
        req_body request = body).
Proof.
  split; intros spec params t request.
  - rewrite modular_run.
    pose proof (make_request_calls spec params) as Hprep.
    pose proof (make_respond_calls spec) as Hresp.
    rewrite modular_request_run in *.
    destruct (Modular.getHeaders spec params) as [th [h|e|d]];
      [destruct (Modular.getBody spec params) as [tb [b|e|d]]|..];
      cbn [calls exit fst snd] in *.
    all: try (intros Hin; by apply not_dispatched in Hin).
    match goal with |- context [t ?r] => destruct (t r) as [response0|e1|d1] end;
      cbn [calls fst]; intros Hin;
      (apply dispatched_unique in Hin; [|done|(done || constructor)]); subst request;
      exists h, b; destruct (assemble_fields (Modular.route_method spec)
                               (modularUrl spec params) (HeadersRecord h) b)
        as (? & ? & ?); by split_and!.
  - destruct (legacy_make_url_run spec params) as (tu & url & Hu & _).
    rewrite legacy_run.
    pose proof (legacy_make_request_calls spec params) as Hprep.
    pose proof (legacy_make_respond_calls spec) as Hresp.
    rewrite (legacy_request_run spec params tu url Hu) in *. rewrite Hu.
    destruct (Legacy.getHeaders spec params) as [th [h|e|d]];
      [destruct (Legacy.getBody spec params) as [tb [b|e|d]];
       [destruct url as [url|fn]|..]|..];
      cbn [calls exit fst snd legacyAssemble] in *.
    all: try (intros Hin; by apply not_dispatched in Hin).
    match goal with
    | |- context [exit (Legacy.make_client spec ?c ?r)] =>
        destruct (exit (Legacy.make_client spec c r)) as [response0|e1|d1]
    end;
      cbn [calls fst]; intros Hin;
      (apply dispatched_unique in Hin; [|done|(done || constructor)]); subst request;
      exists url, h, b;
      destruct (assemble_fields (Legacy.route_method spec) url h b) as (? & ? & ?);
      by split_and!.
Qed.

(** The request a run dispatches is the one assembled from the method of
    the route, the url the url expression gave, which is a string, the
    header set [getHeaders] computed and the body [getBody] computed; so it
    has the method of the route, that url and that body. *)
Theorem dispatched_request_assembled :
  (forall (spec : Modular.Route) params t request,
      Execute request ∈ calls (Modular.make spec params (HttpClient.fromTransport t)) ->
      exists headers body,
        exit (Modular.getHeaders spec params) = Success headers /\
        exit (Modular.getBody spec params) = Success body /\
        request = assemble (Modular.route_method spec) (modularUrl spec params)
                    (HeadersRecord headers) body /\
        req_method request = Modular.route_method spec /\
        req_url request = UrlString (modularUrl spec params) /\
        req_body request = body) /\
  (forall (spec : Legacy.Route) params t request,
      Execute request ∈ calls (Legacy.make spec params (HttpClient.fromTransport t)) ->
      exists url headers body,
        exit (Legacy.make_url spec params) = Success (UrlString url) /\
        exit (Legacy.getHeaders spec params) = Success headers /\
        exit (Legacy.getBody spec params) = Success body /\
        request = assemble (Legacy.route_method spec) url headers body /\
        req_method request = Legacy.route_method spec /\
        req_url request = UrlString url /\
        req_body request = body).
Proof. exact request_of_run. Qed.

End Requests.

(** ** The claim on a header function without its parameter *)

Section HeaderFunctionClaim.
Context `{Platform}.

Lemma modular_param_absent (params : option Modular.MakerParams) k :
  (forall p, params = Some p -> k p = None) -> Modular.param params k = None.
Proof. intros Hp. destruct params as [p|]; [exact (Hp p eq_refl)|done]. Qed.

Lemma legacy_param_absent (params : option Legacy.MakerParams) k :
  (forall p, params = Some p -> k p = None) -> Legacy.param params k = None.
Proof. intros Hp. destruct params as [p|]; [exact (Hp p eq_refl)|done]. Qed.

Lemma get_empty (key : string) : Headers.get key Headers.empty = None.
Proof. unfold Headers.get, Headers.empty. apply lookup_empty. Qed.

Lemma setAll_empty : Headers.setAll Headers.empty Headers.empty = Headers.empty.
Proof. unfold Headers.setAll, Headers.empty. apply (left_id_L ∅ (∪)). Qed.

Lemma modular_headers_fn_absent (spec : Modular.Route) fn params :
  Modular.route_headers spec = Some (Modular.Headers_Fn fn) ->
  (forall p, params = Some p -> Modular.params_headers p = None) ->
  Modular.getHeaders_gen spec params = ([], Success Headers.empty) /\
  Modular.getHeaders spec params =
    ([], Success (if Modular.jsonInput (Modular.route_body spec)
                  then Headers.set "Content-Type" "application/json" Headers.empty
                  else Headers.empty)) /\
  Modular.getHeaders spec params = Modular.getHeaders (withoutHeaders spec) params.
Proof.
  intros Hh Hp. apply modular_param_absent in Hp.
  assert (Modular.getHeaders_gen spec params = succeed Headers.empty) as Hgen
    by (unfold Modular.getHeaders_gen; by rewrite Hh, Hp).
  assert (Modular.getHeaders spec params = Modular.getHeaders_contentType spec Headers.empty)
    as Hget by (unfold Modular.getHeaders; by rewrite Hgen, flatMap_succeed).
  split_and!; [exact Hgen| |].
  2: { rewrite Hget. symmetry.
       exact (flatMap_succeed (Modular.getHeaders_contentType (withoutHeaders spec))
                Headers.empty). }
  rewrite Hget. unfold Modular.getHeaders_contentType. rewrite get_empty. cbn [truthy negb andb].
  by destruct (Modular.jsonInput _).
Qed.

Lemma legacy_headers_fn_absent (spec : Legacy.Route) fn params :
  Legacy.route_headers spec = Some (HeadersFunction fn) ->
  (forall p, params = Some p -> Legacy.params_headers p = None) ->
  Legacy.getHeaders_gen spec params = ([], Success (HeadersFunction fn)) /\
  Legacy.getHeaders spec params =
    ([], Success (if Legacy.isSchema (Legacy.route_body spec)
                  then HeadersRecord
                         (Headers.set "Content-Type" "application/json" Headers.empty)
                  else HeadersFunction fn)) /\
  Legacy.getHeaders (legacyWithoutHeaders spec) params =
    ([], Success (if Legacy.isSchema (Legacy.route_body spec)
                  then HeadersRecord
                         (Headers.set "Content-Type" "application/json" Headers.empty)
                  else HeadersRecord Headers.empty)).
Proof.
  intros Hh Hp. apply legacy_param_absent in Hp.
  assert (Legacy.getHeaders_gen spec params = succeed (HeadersFunction fn)) as Hgen
    by (unfold Legacy.getHeaders_gen; by rewrite Hh, Hp).
  split_and!; [exact Hgen| |].
  - unfold Legacy.getHeaders. rewrite Hgen, flatMap_succeed.
    unfold Legacy.getHeaders_contentType. cbn [ownEntries]. rewrite get_empty.
    cbn [truthy negb andb]. by destruct (Legacy.isSchema _).
  - unfold Legacy.getHeaders, Legacy.getHeaders_gen. cbn [legacyWithoutHeaders Legacy.route_headers].
    rewrite flatMap_succeed.
    unfold Legacy.getHeaders_contentType. cbn [ownEntries legacyWithoutHeaders Legacy.route_body].
    rewrite get_empty. cbn [truthy negb andb]. by destruct (Legacy.isSchema _).
Qed.

(** C4. For a route whose Headers Maker is a custom function, invoked
    with no parameters or with parameters that have no [headers] property,
    in the modular tree and in the legacy module: the function is never
    called, the header set obtained has no entry (in the legacy module what
    is obtained is the function object, which is read as a header set with
    no entry), and after the Content-Type step it has at most that entry.
    The run is the run of the same route with no Headers Maker, whose header
    set is the empty one; a request dispatched for a route with no Input
    Maker has the empty header set. *)
Theorem headers_fn_without_headers_param :
  (forall (spec : Modular.Route) fn params,
      Modular.route_headers spec = Some (Modular.Headers_Fn fn) ->
      (forall p, params = Some p -> Modular.params_headers p = None) ->
      Modular.getHeaders_gen spec params = ([], Success Headers.empty) /\
      Modular.getHeaders spec params =
        ([], Success (if Modular.jsonInput (Modular.route_body spec)
                      then Headers.set "Content-Type" "application/json" Headers.empty
                      else Headers.empty)) /\
      (forall client,
          Modular.make spec params client = Modular.make (withoutHeaders spec) params client) /\
      (forall t,
          List.filter isHeadersFnCall
            (calls (Modular.make spec params (HttpClient.fromTransport t))) = []) /\
      (forall t request,
          Modular.route_body spec = None ->
          Execute request ∈ calls (Modular.make spec params (HttpClient.fromTransport t)) ->
          req_headers request = Headers.empty)) /\
  (forall (spec : Legacy.Route) fn params,
      Legacy.route_headers spec = Some (HeadersFunction fn) ->
      (forall p, params = Some p -> Legacy.params_headers p = None) ->
      calls (Legacy.getHeaders_gen spec params) = [] /\
      Exit_map ownEntries (exit (Legacy.getHeaders_gen spec params)) = Success Headers.empty /\
      calls (Legacy.getHeaders spec params) = [] /\
      Exit_map ownEntries (exit (Legacy.getHeaders spec params)) =
        Success (if Legacy.isSchema (Legacy.route_body spec)
                 then Headers.set "Content-Type" "application/json" Headers.empty
                 else Headers.empty) /\
      (forall client,
          Legacy.make spec params client =
          Legacy.make (legacyWithoutHeaders spec) params client) /\
      (forall t,
          List.filter isHeadersFnCall
            (calls (Legacy.make spec params (HttpClient.fromTransport t))) = []) /\
      (forall t request,
          Legacy.route_body spec = None ->
          Execute request ∈ calls (Legacy.make spec params (HttpClient.fromTransport t)) ->
          req_headers request = Headers.empty)).
Proof.
  split.
  - intros spec fn params Hh Hp.
    destruct (modular_headers_fn_absent spec fn params Hh Hp) as (Hgen & Hget & Hsame).
    split_and!; [exact Hgen|exact Hget| | |].
    + intros client. unfold Modular.make. by rewrite Hsame.
    + intros t. eapply modular_headers_fn_not_called; [exact Hh|].
      by apply modular_param_absent.
    + intros t request Hbody Hin.
      destruct (proj1 request_of_run spec params t request Hin)
        as (headers & body & Hheaders & Hb & -> & _).
      rewrite Hget, Hbody in Hheaders. unfold Modular.getBody in Hb. rewrite Hbody in Hb.
      cbn in Hheaders, Hb. simplify_eq. cbn. apply setAll_empty.
  - intros spec fn params Hh Hp.
    destruct (legacy_headers_fn_absent spec fn params Hh Hp) as (Hgen & Hget & Hwithout).
    split_and!.
    + by rewrite Hgen.
    + by rewrite Hgen.
    + by rewrite Hget.
    + rewrite Hget. by destruct (Legacy.isSchema _).
    + intros client. unfold Legacy.make, mbind, Effect_bind.
      apply flatMap_ext; intros url. rewrite Hget, Hwithout, !flatMap_run.
      by destruct (Legacy.isSchema _).
    + intros t. eapply legacy_headers_fn_not_called; [exact Hh|].
      by apply legacy_param_absent.
    + intros t request Hbody Hin.
      destruct (proj2 request_of_run spec params t request Hin)
        as (url & headers & body & _ & Hheaders & Hb & -> & _).
      rewrite Hget, Hbody in Hheaders. unfold Legacy.getBody in Hb. rewrite Hbody in Hb.
      cbn in Hheaders, Hb. simplify_eq. cbn. apply setAll_empty.
Qed.

End HeaderFunctionClaim.

Section HeaderFunctionWitness.
Import Sample.

Lemma headers_fn_without_headers_param_witness :
  (let run := Modular.make listTodos None
                (HttpClient.fromTransport (always (respond 200 todo))) in
   List.filter isHeadersFnCall (calls run) = [] /\
   Execute listTodosRequest ∈ calls run /\
   req_headers listTodosRequest = Headers.empty) /\
  (let run := Legacy.make legacyListTodos None
                (HttpClient.fromTransport (always (respond 200 todo))) in
   List.filter isHeadersFnCall (calls run) = [] /\
   Execute listTodosRequest ∈ calls run /\
   req_headers listTodosRequest = Headers.empty).
Proof.
  destruct (headers_fn_without_headers_param (H := platform)) as [Hm Hl]. split.
  - destruct (Hm listTodos apiKey None eq_refl ltac:(intros p Hp; discriminate Hp))
      as (_ & _ & _ & Hcalls & Hreq).
    assert (Execute listTodosRequest
              ∈ calls (Modular.make listTodos None
                         (HttpClient.fromTransport (always (respond 200 todo))))) as Hin
      by in_calls.
    split_and!; [exact (Hcalls _)|exact Hin|exact (Hreq _ _ eq_refl Hin)].
  - destruct (Hl legacyListTodos apiKey None eq_refl ltac:(intros p Hp; discriminate Hp))
      as (_ & _ & _ & _ & _ & Hcalls & Hreq).
    assert (Execute listTodosRequest
              ∈ calls (Legacy.make legacyListTodos None
                         (HttpClient.fromTransport (always (respond 200 todo))))) as Hin
      by in_calls.
    split_and!; [exact (Hcalls _)|exact Hin|exact (Hreq _ _ eq_refl Hin)].
Defined.

End HeaderFunctionWitness.

Section Builders.
Context `{Platform}.

Lemma modular_request_method (spec : Modular.Route) params t request :
  Execute request ∈ calls (Modular.make spec params (HttpClient.fromTransport t)) ->
  req_method request = Modular.route_method spec /\
  (Modular.route_body spec = None -> req_body request = None).
Proof.
  intros Hin. destruct (proj1 request_of_run spec params t request Hin)
    as (headers & body & _ & Hb & _ & Hm & _ & Hbody).
  split; [done|]. intros Hnone. unfold Modular.getBody in Hb. rewrite Hnone in Hb.
  cbn in Hb. congruence.
Qed.

Lemma legacy_request_method (spec : Legacy.Route) params t request :
  Execute request ∈ calls (Legacy.make spec params (HttpClient.fromTransport t)) ->
  req_method request = Legacy.route_method spec /\
  (Legacy.route_body spec = None -> req_body request = None).
Proof.
  intros Hin. destruct (proj2 request_of_run spec params t request Hin)
    as (url & headers & body & _ & _ & Hb & _ & Hm & _ & Hbody).
  split; [done|]. intros Hnone. unfold Legacy.getBody in Hb. rewrite Hnone in Hb.
  cbn in Hb. congruence.
Qed.

(** Each builder fixes the method of the requests its routes dispatch, and
    a route built by [get], free or of a client, never sends a body. *)
Theorem builders_fix_method :
  (forall (spec : Modular.GetMakerSpec) params t request,
      Execute request ∈ calls (Modular.get spec params (HttpClient.fromTransport t)) ->
      req_method request = GET /\ req_body request = None) /\
  (forall (spec : Modular.MethodMakerSpec) params t request,
      (Execute request ∈ calls (Modular.post spec params (HttpClient.fromTransport t)) ->
       req_method request = POST) /\
      (Execute request ∈ calls (Modular.put spec params (HttpClient.fromTransport t)) ->
       req_method request = PUT) /\
      (Execute request ∈ calls (Modular.del spec params (HttpClient.fromTransport t)) ->
       req_method request = DELETE)) /\
  (forall (spec : Legacy.GetRouteSpec) params t request,
      Execute request ∈ calls (Legacy.get spec params (HttpClient.fromTransport t)) ->
      req_method request = GET /\ req_body request = None) /\
  (forall (this : Legacy.Client) (spec : Legacy.GetRouteSpec) params t request,
      Execute request ∈ calls (Legacy.Client_get this spec params (HttpClient.fromTransport t)) ->
      req_method request = GET /\ req_body request = None) /\
  (forall (spec : Legacy.RouteSpec) params t request,
      (Execute request ∈ calls (Legacy.post spec params (HttpClient.fromTransport t)) ->
       req_method request = POST) /\
      (Execute request ∈ calls (Legacy.put spec params (HttpClient.fromTransport t)) ->
       req_method request = PUT) /\
      (Execute request ∈ calls (Legacy.del spec params (HttpClient.fromTransport t)) ->
       req_method request = DELETE)).
Proof.
  split_and!.
  - intros spec params t request Hin.
    destruct (modular_request_method _ _ _ _ Hin) as [Hm Hb]. split; [exact Hm|by apply Hb].
  - intros spec params t request. split_and!; intros Hin;
      by destruct (modular_request_method _ _ _ _ Hin) as [Hm _].
  - intros spec params t request Hin.
    destruct (legacy_request_method _ _ _ _ Hin) as [Hm Hb]. split; [exact Hm|by apply Hb].
  - intros this spec params t request Hin.
    destruct (legacy_request_method _ _ _ _ Hin) as [Hm Hb]. split; [exact Hm|by apply Hb].
  - intros spec params t request. split_and!; intros Hin;
      by destruct (legacy_request_method _ _ _ _ Hin) as [Hm _].
Qed.

(** A client with no default is the free builders. *)
Theorem empty_client_is_free_builders :
  (forall (spec : Modular.MethodMakerSpec),
      Modular.Client_post (Modular.mkClient None None) spec = Modular.post spec /\
      Modular.Client_put (Modular.mkClient None None) spec = Modular.put spec /\
      Modular.Client_del (Modular.mkClient None None) spec = Modular.del spec) /\
  (forall (spec : Modular.GetMakerSpec),
      Modular.Client_get (Modular.mkClient None None) spec = Modular.get spec) /\
  (forall (spec : Legacy.RouteSpec),
      Legacy.Client_post (Legacy.mkClient None None) spec = Legacy.post spec /\
      Legacy.Client_put (Legacy.mkClient None None) spec = Legacy.put spec /\
      Legacy.Client_del (Legacy.mkClient None None) spec = Legacy.del spec) /\
  (forall (spec : Legacy.GetRouteSpec),
      Legacy.Client_get (Legacy.mkClient None None) spec = Legacy.get spec).
Proof.
  split_and!.
  - intros [url [|headers] body response [|error]]; by repeat split.
  - intros [url [|headers] response [|error]]; reflexivity.
  - intros [url [|headers] body response [|error] filter]; by repeat split.
  - intros [url [|headers] response [|error] filter]; reflexivity.
Qed.

(** A specification whose [error] property is present with the value
    [undefined] takes the place of the client's default all the same: the
    route has no Error Maker, and no run of it consults one. *)
Theorem undefined_override_drops_default :
  (forall (this : Modular.Client) (spec : Modular.MethodMakerSpec) params t,
      Modular.mspec_error spec = Own None ->
      List.filter isErrorCall
        (calls (Modular.Client_post this spec params (HttpClient.fromTransport t))) = []) /\
  (forall (this : Legacy.Client) (spec : Legacy.RouteSpec) params t,
      Legacy.spec_error spec = Own None ->
      List.filter isErrorCall
        (calls (Legacy.Client_post this spec params (HttpClient.fromTransport t))) = []).
Proof.
  split.
  - intros this spec params t Hown.
    unfold Modular.Client_post, Modular.post.
    set (route := Modular.toRoute _).
    assert (Modular.route_error route = None) as Hnone.
    { subst route. unfold Modular.toRoute, Modular.withMethod, Modular.Client_spread.
      cbn. by rewrite Hown. }
    rewrite modular_run.
    pose proof (make_request_calls route params) as Hprep.
    destruct (Modular.make_request route params) as [t0 [request0|e0|d0]];
      cbn [calls fst] in Hprep;
      [destruct (t request0) as [response0|e1|d1]|..]; cbn [calls fst].
    all: try (by apply prepare_calls_no_error).
    all: rewrite respond_filter by (done || apply isPrepare_not_error); try done.
    rewrite make_respond_skip by auto. apply output_calls_no_error, getResponse_calls.
  - intros this spec params t Hown.
    unfold Legacy.Client_post.
    set (route := Legacy.newRoute _ _).
    assert (Legacy.route_error route = None) as Hnone.
    { subst route. unfold Legacy.newRoute, Legacy.Client_spread. cbn. by rewrite Hown. }
    rewrite legacy_run.
    pose proof (legacy_make_request_calls route params) as Hprep.
    destruct (Legacy.make_request route params) as [t0 [request0|e0|d0]];
      cbn [calls fst] in Hprep;
      [destruct (exit (Legacy.make_client route (HttpClient.fromTransport t) request0))
         as [response0|e1|d1]|..]; cbn [calls fst].
    all: try (by apply prepare_calls_no_error).
    all: rewrite respond_filter by (done || apply isPrepare_not_error); try done.
    rewrite legacy_make_respond_skip by auto.
    apply output_calls_no_error, legacy_getResponse_calls.
Qed.

End Builders.

(** ** The parameters a route reads *)

Section Parameters.
Context `{Platform}.

Lemma modular_params_read (spec : Modular.Route) params params' client :
  (MakerUrlParams (Modular.route_url spec) = true ->
   Modular.param params Modular.params_url = Modular.param params' Modular.params_url) ->
  (MakerHeadersParams (Modular.route_headers spec) = true ->
   Modular.param params Modular.params_headers = Modular.param params' Modular.params_headers) ->
  (MakerBodyParams (Modular.route_body spec) = true ->
   Modular.param params Modular.params_body = Modular.param params' Modular.params_body) ->
  Modular.make spec params client = Modular.make spec params' client.
Proof.
  intros Hu Hh Hb.
  assert (Modular.getHeaders spec params = Modular.getHeaders spec params') as Hheaders.
  { unfold Modular.getHeaders, Modular.getHeaders_gen.
    destruct (Modular.route_headers spec) as [[h|fn]|]; try reflexivity.
    by rewrite Hh. }
  assert (Modular.getBody spec params = Modular.getBody spec params') as Hbody.
  { unfold Modular.getBody.
    destruct (Modular.route_body spec) as [[schema value|schema|fn]|]; try reflexivity;
      by rewrite Hb. }
  unfold Modular.make. rewrite Hheaders, Hbody.
  destruct (Modular.route_url spec) as [url|fn]; [reflexivity|]. by rewrite Hu.
Qed.

Lemma legacy_params_read (spec : Legacy.Route) params params' client :
  (legacyMakerUrl (Legacy.route_url spec) = true ->
   Legacy.param params Legacy.params_url = Legacy.param params' Legacy.params_url) ->
  (legacyMakerHeaders (Legacy.route_headers spec) = true ->
   Legacy.param params Legacy.params_headers = Legacy.param params' Legacy.params_headers) ->
  (legacyMakerBody (Legacy.route_body spec) = true ->
   Legacy.param params Legacy.params_body = Legacy.param params' Legacy.params_body) ->
  Legacy.make spec params client = Legacy.make spec params' client.
Proof.
  intros Hu Hh Hb.
  assert (Legacy.getHeaders spec params = Legacy.getHeaders spec params') as Hheaders.
  { unfold Legacy.getHeaders, Legacy.getHeaders_gen.
    destruct (Legacy.route_headers spec) as [[h|fn]|]; try reflexivity.
    by rewrite Hh. }
  assert (Legacy.getBody spec params = Legacy.getBody spec params') as Hbody.
  { unfold Legacy.getBody.
    destruct (Legacy.route_body spec) as [[schema value|schema|fn]|]; try reflexivity;
      by rewrite Hb. }
  assert (Legacy.make_url spec params = Legacy.make_url spec params') as Hurl.
  { unfold Legacy.make_url. destruct (Legacy.route_url spec) as [url|fn]; [reflexivity|].
    by rewrite Hu. }
  unfold Legacy.make. by rewrite Hheaders, Hbody, Hurl.
Qed.

(** The callable function reads a field of its parameters only when the
    route's maker contributes that field to the parameter shape: two
    arguments that agree on the contributed fields give the same run. In
    particular a route whose parameter shape is empty gives, for any
    argument, the run of the call with no argument. *)
Theorem make_reads_declared_params_only :
  (forall (spec : Modular.Route) params params' client,
      (MakerUrlParams (Modular.route_url spec) = true ->
       Modular.param params Modular.params_url = Modular.param params' Modular.params_url) ->
      (MakerHeadersParams (Modular.route_headers spec) = true ->
       Modular.param params Modular.params_headers =
       Modular.param params' Modular.params_headers) ->
      (MakerBodyParams (Modular.route_body spec) = true ->
       Modular.param params Modular.params_body = Modular.param params' Modular.params_body) ->
      Modular.make spec params client = Modular.make spec params' client) /\
  (forall (spec : Modular.Route) params client,
      MakerUrlParams (Modular.route_url spec) = false ->
      MakerHeadersParams (Modular.route_headers spec) = false ->
      MakerBodyParams (Modular.route_body spec) = false ->
      Modular.make spec params client = Modular.make spec None client) /\
  (forall (spec : Legacy.Route) params params' client,
      (legacyMakerUrl (Legacy.route_url spec) = true ->
       Legacy.param params Legacy.params_url = Legacy.param params' Legacy.params_url) ->
      (legacyMakerHeaders (Legacy.route_headers spec) = true ->
       Legacy.param params Legacy.params_headers =
       Legacy.param params' Legacy.params_headers) ->
      (legacyMakerBody (Legacy.route_body spec) = true ->
       Legacy.param params Legacy.params_body = Legacy.param params' Legacy.params_body) ->
      Legacy.make spec params client = Legacy.make spec params' client) /\
  (forall (spec : Legacy.Route) params client,
      legacyMakerUrl (Legacy.route_url spec) = false ->
      legacyMakerHeaders (Legacy.route_headers spec) = false ->
      legacyMakerBody (Legacy.route_body spec) = false ->
      Legacy.make spec params client = Legacy.make spec None client).
Proof.
  split_and!.
  - apply modular_params_read.
  - intros spec params client Hu Hh Hb. apply modular_params_read; congruence.
  - apply legacy_params_read.
  - intros spec params client Hu Hh Hb. apply legacy_params_read; congruence.
Qed.

(** A [Content-Type] the header set already has, and that is not the
    empty string, is never replaced; one that is the empty string counts as
    absent, and is replaced by [application/json] when the Input Maker is
    JSON-encodable. *)
Theorem content_type_kept_unless_empty :
  (forall (spec : Modular.Route) params t headers,
      Modular.getHeaders_gen spec params = (t, Success headers) ->
      (forall c value,
          Headers.get "Content-Type" headers = Some (String c value) ->
          Modular.getHeaders spec params = (t, Success headers)) /\
      (Headers.get "Content-Type" headers = Some EmptyString ->
       Modular.jsonInput (Modular.route_body spec) = true ->
       Modular.getHeaders spec params =
       (t, Success (Headers.set "Content-Type" "application/json" headers)))) /\
  (forall (spec : Legacy.Route) params t headers,
      Legacy.getHeaders_gen spec params = (t, Success headers) ->
      (forall c value,
          Headers.get "Content-Type" (ownEntries headers) = Some (String c value) ->
          Legacy.getHeaders spec params = (t, Success headers)) /\
      (Headers.get "Content-Type" (ownEntries headers) = Some EmptyString ->
       Legacy.isSchema (Legacy.route_body spec) = true ->
       Legacy.getHeaders spec params =
       (t, Success (HeadersRecord
                      (Headers.set "Content-Type" "application/json" (ownEntries headers)))))).
Proof.
  split; intros spec params t headers Hgen; (split; [intros c value Hct|intros Hct Hjson]).
  - unfold Modular.getHeaders, Modular.getHeaders_contentType.
    rewrite Hgen, flatMap_run, Hct. cbn. by rewrite app_nil_r.
  - unfold Modular.getHeaders, Modular.getHeaders_contentType.
    rewrite Hgen, flatMap_run, Hct, Hjson. cbn. by rewrite app_nil_r.
  - unfold Legacy.getHeaders, Legacy.getHeaders_contentType.
    rewrite Hgen, flatMap_run, Hct. cbn. by rewrite app_nil_r.
  - unfold Legacy.getHeaders, Legacy.getHeaders_contentType.
    rewrite Hgen, flatMap_run, Hct, Hjson. cbn. by rewrite app_nil_r.
Qed.

End Parameters.


(** ** The two engines side by side *)

Section Engines.
Context `{Platform}.

Lemma legacy_param (params : option Modular.MakerParams) :
  Legacy.param (legacyParams <$> params) Legacy.params_url =
    Modular.param params Modular.params_url /\
  Legacy.param (legacyParams <$> params) Legacy.params_headers =
    Modular.param params Modular.params_headers /\
  Legacy.param (legacyParams <$> params) Legacy.params_body =
    Modular.param params Modular.params_body.
Proof. by destruct params. Qed.

Lemma legacy_getBody_agrees (spec : Modular.Route) params :
  Legacy.getBody (legacyRoute spec) (legacyParams <$> params) = Modular.getBody spec params.
Proof.
  destruct (legacy_param params) as (_ & _ & Hb).
  unfold Legacy.getBody, Modular.getBody. cbn [legacyRoute Legacy.route_body].
  destruct (Modular.route_body spec) as [[schema value|schema|fn]|];
    cbn [fmap option_fmap option_map legacyInput]; rewrite ?Hb; reflexivity.
Qed.

Lemma legacy_make_url_agrees (spec : Modular.Route) params :
  (MakerUrlParams (Modular.route_url spec) = true ->
   is_Some (Modular.param params Modular.params_url)) ->
  Legacy.make_url (legacyRoute spec) (legacyParams <$> params) =
  (modularUrlCalls spec params, Success (UrlString (modularUrl spec params))).
Proof.
  intros Hu. destruct (legacy_param params) as (Hp & _ & _).
  unfold Legacy.make_url, modularUrlCalls, modularUrl. cbn [legacyRoute Legacy.route_url].
  destruct (Modular.route_url spec) as [url|fn]; cbn [legacyUrl]; [reflexivity|].
  rewrite Hp. destruct (Hu eq_refl) as [arg ->]. reflexivity.
Qed.

Lemma legacy_getHeaders_agrees (spec : Modular.Route) params :
  (MakerHeadersParams (Modular.route_headers spec) = true ->
   is_Some (Modular.param params Modular.params_headers)) ->
  (forall schema value, Modular.route_body spec <> Some (Modular.Input_Value schema value)) ->
  Legacy.getHeaders (legacyRoute spec) (legacyParams <$> params) =
  (calls (Modular.getHeaders spec params),
   Exit_map HeadersRecord (exit (Modular.getHeaders spec params))).
Proof.
  intros Hh Hb. destruct (legacy_param params) as (_ & Hp & _).
  assert (forall headers,
             Legacy.getHeaders_contentType (legacyRoute spec) (HeadersRecord headers) =
             (calls (Modular.getHeaders_contentType spec headers),
              Exit_map HeadersRecord (exit (Modular.getHeaders_contentType spec headers))))
    as Hct.
  { intros headers. unfold Legacy.getHeaders_contentType, Modular.getHeaders_contentType.
    cbn [legacyRoute Legacy.route_body ownEntries].
    destruct (truthy (Headers.get "Content-Type" headers)); cbn [negb andb]; [reflexivity|].
    destruct (Modular.route_body spec) as [[schema value|schema|fn]|]; try reflexivity.
    by destruct (Hb schema value). }
  unfold Legacy.getHeaders, Modular.getHeaders, Legacy.getHeaders_gen, Modular.getHeaders_gen.
  cbn [legacyRoute Legacy.route_headers].
  destruct (Modular.route_headers spec) as [[headers|fn]|];
    cbn [fmap option_fmap option_map legacyHeaders].
  - rewrite (flatMap_succeed (Legacy.getHeaders_contentType (legacyRoute spec))),
      (flatMap_succeed (Modular.getHeaders_contentType spec)). apply Hct.
  - rewrite Hp. destruct (Hh eq_refl) as [arg ->].
    unfold mbind, Effect_bind, mret, Effect_ret. rewrite !flatMap_run.
    unfold call, succeed. cbn [calls exit fst snd].
    destruct (fn arg) as [headers|e|d]; cbn [calls exit fst snd Exit_map]; try reflexivity.
    rewrite app_nil_r, Hct. reflexivity.
  - rewrite (flatMap_succeed (Legacy.getHeaders_contentType (legacyRoute spec))),
      (flatMap_succeed (Modular.getHeaders_contentType spec)). apply Hct.
Qed.

Lemma legacy_make_request_agrees (spec : Modular.Route) params :
  (MakerUrlParams (Modular.route_url spec) = true ->
   is_Some (Modular.param params Modular.params_url)) ->
  (MakerHeadersParams (Modular.route_headers spec) = true ->
   is_Some (Modular.param params Modular.params_headers)) ->
  (forall schema value, Modular.route_body spec <> Some (Modular.Input_Value schema value)) ->
  Legacy.make_request (legacyRoute spec) (legacyParams <$> params) =
  Modular.make_request spec params.
Proof.
  intros Hu Hh Hb.
  rewrite (legacy_request_run _ _ _ _ (legacy_make_url_agrees spec params Hu)),
    modular_request_run, legacy_getHeaders_agrees, legacy_getBody_agrees by done.
  destruct (Modular.getHeaders spec params) as [th [headers|e|d]];
    cbn [calls exit fst snd Exit_map]; reflexivity.
Qed.

Lemma legacy_make_respond_agrees (spec : Modular.Route) response :
  Legacy.make_respond (legacyRoute spec) response =
  (calls (Modular.make_respond spec response),
   Exit_map legacyResult (exit (Modular.make_respond spec response))).
Proof.
  unfold Legacy.make_respond, Modular.make_respond, Legacy.getError, Modular.getError,
    Legacy.getResponse, Modular.getResponse, Legacy.parseResponse, Modular.parseResponse,
    Legacy.filterStatusOk.
  cbn [legacyRoute Legacy.route_error Legacy.route_response Legacy.route_filterStatusOk
         default negb andb].
  destruct (Modular.route_error spec) as [[schema|fn]|];
    destruct (Modular.route_response spec) as [[schema'|fn']|];
    cbn [fmap option_fmap option_map legacyError legacyOutput];
    destruct (notOk (status response));
    try destruct (json response) as [j|e|d];
    eff_unfold; cbn;
    try destruct (Schema_decodeUnknown schema j);
    try destruct (Schema_decodeUnknown schema' j);
    try destruct (fn' response);
    reflexivity.
Qed.

(** The legacy module and the modular tree agree on a route written for
    both, whenever a custom URL function finds its [url] property in the
    parameters, a custom header function finds its [headers] property, and
    the Input Maker is not a Static Value: the runs make the same calls and
    have the same exit. The computation of the body is the same on every
    route and every argument, Static Values included. *)
Theorem engines_agree :
  (forall (spec : Modular.Route) params client,
      (MakerUrlParams (Modular.route_url spec) = true ->
       is_Some (Modular.param params Modular.params_url)) ->
      (MakerHeadersParams (Modular.route_headers spec) = true ->
       is_Some (Modular.param params Modular.params_headers)) ->
      (forall schema value,
          Modular.route_body spec <> Some (Modular.Input_Value schema value)) ->
      Legacy.make (legacyRoute spec) (legacyParams <$> params) client =
      (calls (Modular.make spec params client),
       Exit_map legacyResult (exit (Modular.make spec params client)))) /\
  (forall (spec : Modular.Route) params,
      Legacy.getBody (legacyRoute spec) (legacyParams <$> params) =
      Modular.getBody spec params).
Proof.
  split; [|exact legacy_getBody_agrees].
  intros spec params client Hu Hh Hb.
  rewrite legacy_make_split, make_split, legacy_make_request_agrees by done.
  unfold pipeline, Legacy.make_client, Legacy.filterStatusOk.
  cbn [legacyRoute Legacy.route_filterStatusOk default negb].
  rewrite !flatMap_run.
  destruct (Modular.make_request spec params) as [t0 [request|e|d]];
    cbn [calls exit fst snd Exit_map]; try reflexivity.
  rewrite !flatMap_run.
  destruct (client request) as [t1 [response|e|d]];
    cbn [calls exit fst snd Exit_map]; try reflexivity.
  by rewrite legacy_make_respond_agrees.
Qed.

Lemma legacy_withFilterStatusOk_request flag (spec : Legacy.Route) params :
  Legacy.make_request (withFilterStatusOk flag spec) params = Legacy.make_request spec params.
Proof. reflexivity. Qed.

(** In the legacy module, [filterStatusOk] makes no difference on a
    transport that only answers with statuses within 200-299: the runs of a
    route are the same whatever the flag. *)
Theorem legacy_filterStatusOk_irrelevant_within_2xx :
  forall (spec : Legacy.Route) flag flag' params client,
    (forall request response,
        exit (client request) = Success response -> 200 <= status response <= 299) ->
    Legacy.make (withFilterStatusOk flag spec) params client =
    Legacy.make (withFilterStatusOk flag' spec) params client.
Proof.
  intros spec flag flag' params client Hok.
  assert (forall flag,
             Legacy.make (withFilterStatusOk flag spec) params client =
             pipeline (Legacy.make_request spec params) client
               (fun response => Legacy.getResponse (Legacy.route_response spec) response))
    as Hflag; [|by rewrite !Hflag].
  clear flag flag'. intros flag.
  rewrite legacy_make_split, legacy_withFilterStatusOk_request.
  unfold pipeline. apply flatMap_ext; intros request.
  specialize (Hok request).
  unfold Legacy.make_client, Legacy.make_respond, Legacy.filterStatusOk, mbind, Effect_bind.
  cbn [withFilterStatusOk Legacy.route_filterStatusOk Legacy.route_error
         Legacy.route_response].
  destruct (default false flag); cbn [negb andb].
  - unfold HttpClient.filterStatusOk, mbind, Effect_bind. rewrite !flatMap_run.
    destruct (client request) as [t1 [response|e|d]]; cbn [calls exit fst snd] in *;
      try reflexivity.
    specialize (Hok response eq_refl).
    assert ((200 <=? status response) && (status response <? 300) = true) as ->
      by (apply andb_true_iff; split; [apply Z.leb_le|apply Z.ltb_lt]; lia).
    cbn [succeed calls exit fst snd]. rewrite app_nil_r.
    destruct (Legacy.route_error spec);
      by rewrite (flatMap_succeed (fun _ => Legacy.getResponse _ _) tt).
  - rewrite !flatMap_run.
    destruct (client request) as [t1 [response|e|d]]; cbn [calls exit fst snd] in *;
      try reflexivity.
    specialize (Hok response eq_refl). apply notOk_spec in Hok as ->.
    destruct (Legacy.route_error spec);
      by rewrite (flatMap_succeed (fun _ => Legacy.getResponse _ _) tt).
Qed.

End Engines.

(** ** The properties above, on the sample platform *)

Section FurtherWitnesses.
Import Sample.

Lemma make_dispatches_at_most_once_witness :
  (exists request response,
      List.filter isExecute
        (calls (Modular.make (getTodo None) None
                  (HttpClient.fromTransport (always (respond 200 todo))))) =
        [Execute request] /\
      always (respond 200 todo) request = Success response) /\
  (exists request response,
      List.filter isExecute
        (calls (Legacy.make (legacyGetTodo None None) None
                  (HttpClient.fromTransport (always (respond 200 todo))))) =
        [Execute request] /\
      always (respond 200 todo) request = Success response).
Proof.
  destruct (make_dispatches_at_most_once (H := platform)) as [Hm Hl]. split.
  - destruct (Hm (getTodo None) None (always (respond 200 todo))) as [_ Hone].
    exact (Hone _ eq_refl).
  - destruct (Hl (legacyGetTodo None None) None (always (respond 200 todo))) as [_ Hone].
    exact (Hone _ eq_refl).
Defined.

Lemma transport_failure_propagates_witness :
  exit (Modular.make (getTodo (Some apiError)) None (HttpClient.fromTransport refuse)) =
    Failure (Str "RequestError") /\
  exit (Legacy.make (legacyGetTodo (Some statusError) None) None
          (HttpClient.fromTransport refuse)) =
    Failure (Str "RequestError").
Proof.
  destruct (transport_failure_propagates (H := platform)) as [Hm Hl]. split.
  - exact (proj1 (Hm (getTodo (Some apiError)) None refuse getTodoRequest (Str "RequestError")
                    ltac:(in_calls) eq_refl)).
  - exact (proj1 (Hl (legacyGetTodo (Some statusError) None) None refuse getTodoRequest
                    (Str "RequestError") ltac:(in_calls) eq_refl)).
Defined.

Lemma header_failure_aborts_witness :
  Modular.make createTodo withBadKey (HttpClient.fromTransport (always (respond 201 todo))) =
    ([HeadersFnCall (Num 1)], Failure (Str "MissingKey")) /\
  Legacy.make legacyCreateTodo legacyWithBadKey
    (HttpClient.fromTransport (always (respond 201 todo))) =
    ([HeadersFnCall (Num 1)], Failure (Str "MissingKey")).
Proof.
  destruct (header_failure_aborts (H := platform)) as [Hm Hl]. split.
  - exact (Hm createTodo apiKey withBadKey (Num 1) (always (respond 201 todo))
             (Str "MissingKey") eq_refl eq_refl eq_refl).
  - exact (Hl legacyCreateTodo apiKey legacyWithBadKey (Num 1) (always (respond 201 todo))
             (Str "MissingKey") eq_refl eq_refl eq_refl).
Defined.

Lemma body_failure_aborts_witness :
  Modular.make postNote (withBody (Num 42))
    (HttpClient.fromTransport (always (respond 201 todo))) =
    ([InputFnCall (Num 42)], Failure (Str "NotText")) /\
  Legacy.make legacyPostNote (legacyWithBody (Num 42))
    (HttpClient.fromTransport (always (respond 201 todo))) =
    ([InputFnCall (Num 42)], Failure (Str "NotText")).
Proof.
  destruct (body_failure_aborts (H := platform)) as [Hm Hl]. split.
  - exact (proj1 (Hm postNote (withBody (Num 42)) (always (respond 201 todo)) []
                    Headers.empty (Str "NotText") eq_refl eq_refl)).
  - exact (proj1 (Hl legacyPostNote (legacyWithBody (Num 42)) (always (respond 201 todo)) []
                    (HeadersRecord Headers.empty) (Str "NotText") eq_refl eq_refl)).
Defined.

Lemma ok_status_resolves_output_witness :
  exit (Modular.make (getTodo (Some apiError)) None
          (HttpClient.fromTransport (always (respond 200 todo)))) =
    Success (Modular.OutputValue todo) /\
  exit (Legacy.make (legacyGetTodo (Some statusError) (Some true)) None
          (HttpClient.fromTransport (always (respond 200 todo)))) =
    Success (Legacy.OutputValue todo).
Proof.
  destruct (ok_status_resolves_output (H := platform)) as [Hm Hl]. split.
  - exact (proj1 (Hm (getTodo (Some apiError)) None (always (respond 200 todo))
                    getTodoRequest (respond 200 todo) ltac:(in_calls) eq_refl
                    ltac:(cbn; lia))).
  - exact (proj1 (Hl (legacyGetTodo (Some statusError) (Some true)) None
                    (always (respond 200 todo)) getTodoRequest (respond 200 todo)
                    ltac:(in_calls) eq_refl ltac:(cbn; lia))).
Defined.

Lemma output_decoding_failure_witness :
  exit (Modular.make (getTodo None) None
          (HttpClient.fromTransport (always (respond 200 notFound)))) =
    Failure (Str "ParseError") /\
  exit (Legacy.make (legacyGetTodo None None) None
          (HttpClient.fromTransport (always (respond 200 notFound)))) =
    Failure (Str "ParseError").
Proof.
  destruct (output_decoding_failure (H := platform)) as [Hm Hl]. split.
  - apply (Hm (getTodo None) None (always (respond 200 notFound)) getTodoRequest
             (respond 200 notFound) Todo (Str "ParseError"));
      [in_calls|reflexivity|cbn; lia|reflexivity|].
    right. exists notFound. split; reflexivity.
  - apply (Hl (legacyGetTodo None None) None (always (respond 200 notFound)) getTodoRequest
             (respond 200 notFound) Todo (Str "ParseError"));
      [in_calls|reflexivity|cbn; lia|reflexivity|].
    right. exists notFound. split; reflexivity.
Defined.

Lemma output_function_called_on_response_witness :
  Modular.make getHealth None (HttpClient.fromTransport (always (respond 204 Undefined))) =
    ([Execute (mkRequest GET (UrlString "/health") Headers.empty None);
      OutputFnCall (respond 204 Undefined)],
     Success (Modular.OutputValue (Num 204))) /\
  exit (Legacy.make legacyGetHealth None
          (HttpClient.fromTransport (always (respond 204 Undefined)))) =
    Success (Legacy.OutputValue (Num 204)).
Proof.
  destruct (output_function_called_on_response (H := platform)) as [Hm Hl]. split.
  - destruct (Hm getHealth None (always (respond 204 Undefined))
                (mkRequest GET (UrlString "/health") Headers.empty None)
                (respond 204 Undefined) statusOf ltac:(in_calls) eq_refl ltac:(cbn; lia)
                eq_refl) as [_ Hexit].
    reflexivity.
  - exact (proj2 (Hl legacyGetHealth None (always (respond 204 Undefined))
                    (mkRequest GET (UrlString "/health") Headers.empty None)
                    (respond 204 Undefined) statusOf ltac:(in_calls) eq_refl
                    ltac:(cbn; lia) eq_refl)).
Defined.

Lemma error_decoding_failure_witness :
  exit (Modular.make (getTodo (Some apiError)) None
          (HttpClient.fromTransport (always (respond 500 todo)))) =
    Failure (Str "ParseError") /\
  exit (Legacy.make (legacyGetTodo (Some legacyApiError) None) None
          (HttpClient.fromTransport (always (respond 500 todo)))) =
    Failure (Str "ParseError").
Proof.
  destruct (error_decoding_failure (H := platform)) as [Hm Hl]. split.
  - refine (proj1 (Hm (getTodo (Some apiError)) None (always (respond 500 todo))
                     getTodoRequest (respond 500 todo) ApiError (Str "ParseError")
                     ltac:(in_calls) eq_refl ltac:(cbn; lia) eq_refl _)).
    right. exists todo. split; reflexivity.
  - refine (proj1 (Hl (legacyGetTodo (Some legacyApiError) None) None
                     (always (respond 500 todo)) getTodoRequest (respond 500 todo) ApiError
                     (Str "ParseError") ltac:(in_calls) eq_refl ltac:(cbn; lia)
                     ltac:(discriminate) eq_refl _)).
    right. exists todo. split; reflexivity.
Defined.

Lemma dispatched_request_assembled_witness :
  req_url getTodoRequest = UrlString (modularUrl (getTodo None) None) /\
  req_method getTodoRequest = Legacy.route_method (legacyGetTodo None None).
Proof.
  destruct (dispatched_request_assembled (H := platform)) as [Hm Hl]. split.
  - destruct (Hm (getTodo None) None (always (respond 200 todo)) getTodoRequest
                ltac:(in_calls)) as (headers & body & _ & _ & _ & _ & Hurl & _).
    exact Hurl.
  - destruct (Hl (legacyGetTodo None None) None (always (respond 200 todo)) getTodoRequest
                ltac:(in_calls)) as (url & headers & body & _ & _ & _ & _ & Hmethod & _).
    exact Hmethod.
Defined.

Lemma builders_fix_method_witness :
  (req_method (todosRequest GET) = GET /\ req_body (todosRequest GET) = None) /\
  req_method (todosRequest DELETE) = DELETE /\
  req_method (todosRequest PUT) = PUT.
Proof.
  destruct (builders_fix_method (H := platform)) as (Hget & Hm & _ & _ & Hl).
  split; [|split].
  - exact (Hget todosSpec None (always (respond 200 todo)) (todosRequest GET)
             ltac:(in_calls)).
  - destruct (Hm (newTodoSpec Missing) None (always (respond 200 todo))
                (todosRequest DELETE)) as (_ & _ & Hdel).
    exact (Hdel ltac:(in_calls)).
  - destruct (Hl (legacyNewTodoSpec Missing) None (always (respond 200 todo))
                (todosRequest PUT)) as (_ & Hput & _).
    exact (Hput ltac:(in_calls)).
Defined.

Lemma undefined_override_drops_default_witness :
  List.filter isErrorCall
    (calls (Modular.Client_post apiClient (newTodoSpec (Own None)) None
              (HttpClient.fromTransport (always (respond 500 todo))))) = [] /\
  List.filter isErrorCall
    (calls (Legacy.Client_post legacyApiClient (legacyNewTodoSpec (Own None)) None
              (HttpClient.fromTransport (always (respond 500 todo))))) = [].
Proof.
  destruct (undefined_override_drops_default (H := platform)) as [Hm Hl]. split.
  - exact (Hm apiClient (newTodoSpec (Own None)) None (always (respond 500 todo)) eq_refl).
  - exact (Hl legacyApiClient (legacyNewTodoSpec (Own None)) None
             (always (respond 500 todo)) eq_refl).
Defined.

Lemma make_reads_declared_params_only_witness :
  Modular.make (getTodo None) (withBody todo)
    (HttpClient.fromTransport (always (respond 200 todo))) =
  Modular.make (getTodo None) None (HttpClient.fromTransport (always (respond 200 todo))) /\
  Modular.make getTodoById (Some (Modular.mkParams (Some (Str "7")) (Some (Str "k")) None))
    (HttpClient.fromTransport (always (respond 200 todo))) =
  Modular.make getTodoById (withUrl "7")
    (HttpClient.fromTransport (always (respond 200 todo))) /\
  Legacy.make (legacyGetTodo None None) (legacyWithBody todo)
    (HttpClient.fromTransport (always (respond 200 todo))) =
  Legacy.make (legacyGetTodo None None) None
    (HttpClient.fromTransport (always (respond 200 todo))).
Proof.
  destruct (make_reads_declared_params_only (H := platform)) as (Hm & Hm0 & _ & Hl0).
  split_and!.
  - exact (Hm0 (getTodo None) (withBody todo) _ eq_refl eq_refl eq_refl).
  - apply Hm; [reflexivity|discriminate|discriminate].
  - exact (Hl0 (legacyGetTodo None None) (legacyWithBody todo) _ eq_refl eq_refl eq_refl).
Defined.

Lemma content_type_kept_unless_empty_witness :
  Modular.getHeaders (postTodoAs "text/plain") None =
    ([], Success (Headers.fromInput [("Content-Type", "text/plain")])) /\
  Modular.getHeaders (postTodoAs "") None =
    ([], Success (Headers.set "Content-Type" "application/json"
                    (Headers.fromInput [("Content-Type", "")]))) /\
  Legacy.getHeaders (legacyPostTodoAs "text/plain") None =
    ([], Success (HeadersRecord (Headers.fromInput [("Content-Type", "text/plain")]))).
Proof.
  destruct (content_type_kept_unless_empty (H := platform)) as [Hm Hl]. split_and!.
  - destruct (Hm (postTodoAs "text/plain") None []
                (Headers.fromInput [("Content-Type", "text/plain")]) eq_refl) as [Hkept _].
    exact (Hkept _ _ eq_refl).
  - destruct (Hm (postTodoAs "") None [] (Headers.fromInput [("Content-Type", "")]) eq_refl)
      as [_ Hempty].
    exact (Hempty eq_refl eq_refl).
  - destruct (Hl (legacyPostTodoAs "text/plain") None []
                (HeadersRecord (Headers.fromInput [("Content-Type", "text/plain")])) eq_refl)
      as [Hkept _].
    exact (Hkept _ _ eq_refl).
Defined.

Lemma engines_agree_witness :
  Legacy.make (legacyRoute createTodo) (legacyParams <$> withBody todo)
    (HttpClient.fromTransport (always (respond 201 todo))) =
  (calls (Modular.make createTodo (withBody todo)
            (HttpClient.fromTransport (always (respond 201 todo)))),
   Success (Legacy.OutputValue todo)).
Proof.
  destruct (engines_agree (H := platform)) as [Hagree _].
  exact (Hagree createTodo (withBody todo)
           (HttpClient.fromTransport (always (respond 201 todo)))
           ltac:(discriminate) ltac:(intros _; by eexists) ltac:(discriminate)).
Defined.

Lemma legacy_filterStatusOk_irrelevant_within_2xx_witness :
  Legacy.make (withFilterStatusOk (Some true) (legacyGetTodo (Some statusError) None)) None
    (HttpClient.fromTransport (always (respond 200 todo))) =
  Legacy.make (withFilterStatusOk None (legacyGetTodo (Some statusError) None)) None
    (HttpClient.fromTransport (always (respond 200 todo))).
Proof.
  apply (legacy_filterStatusOk_irrelevant_within_2xx (H := platform)).
  intros request response Hexit. injection Hexit as <-. cbn. lia.
Defined.

End FurtherWitnesses.
